(** * clawd-control: the agent provisioning workflow of [create-agent.mjs]

    A shallow embedding of [writeIfMissing] and [createAgent].  The workflow
    is sequential: it derives an id from the requested name, asks the gateway
    whether the id is taken, scaffolds a workspace on disk, calls the gateway
    command line, checks an optional Telegram token, edits the gateway
    configuration, updates the dashboard registry and signals a reload.

    The file system and the external commands are the environment of the
    program.  They are modelled explicitly:
    - a file system state [FS] (directories and files, by path);
    - a [Host] giving the module constants, the answer of every shell
      command and the paths that cannot be written;
    - an [outcome] monad with exceptions and early [return], carrying the
      step log and the list of effects the program performed.

    A string is held as the UTF-8 bytes of its text; the string methods
    follow the Unicode case tables and count UTF-16 code units as the source
    does.  JSON documents are kept at the schema the code reads and writes,
    and the message of a [SyntaxError] is the host's.  The commands are
    programs outside this repository: a command answers the same way each
    time it is run, and what it does besides answering, to the files of the
    gateway for one, is not part of the model: the files of the model change
    only through the calls the program makes itself. *)

From Stdlib Require Import Ascii String ZArith NArith Lia.
From stdpp Require Import gmap strings list fin_maps.

Open Scope string_scope.
Open Scope list_scope.
Open Scope nat_scope.

(** ** String methods used by the source

    A JavaScript string is held as the UTF-8 bytes of its text.  The
    methods below that depend on characters ([toLowerCase], [toUpperCase],
    [charAt], [slice], [substring], [trim]) work on the characters these
    bytes spell, and count a character outside the Basic Multilingual Plane
    as the two UTF-16 code units it is in the source. *)

Module Str.

Definition is_upper (c : ascii) : bool :=
  Nat.leb 65 (nat_of_ascii c) && Nat.leb (nat_of_ascii c) 90.

Definition is_lower (c : ascii) : bool :=
  Nat.leb 97 (nat_of_ascii c) && Nat.leb (nat_of_ascii c) 122.

Definition is_digit (c : ascii) : bool :=
  Nat.leb 48 (nat_of_ascii c) && Nat.leb (nat_of_ascii c) 57.

Fixpoint filter_chars (keep : ascii → bool) (s : string) : string :=
  match s with
  | EmptyString => EmptyString
  | String c r =>
      if keep c then String c (filter_chars keep r) else filter_chars keep r
  end.

Fixpoint all_chars (p : ascii → bool) (s : string) : bool :=
  match s with
  | EmptyString => true
  | String c r => p c && all_chars p r
  end.

(** *** Characters *)

Definition code (c : ascii) : N := N_of_ascii c.

Definition byte (n : N) : ascii := ascii_of_N n.

(** A byte [10xxxxxx] continues a character; [low6] is its payload. *)
Definition is_cont (c : ascii) : bool := (128 <=? code c)%N && (code c <? 192)%N.

Definition low6 (c : ascii) : N := (code c - 128)%N.

(** The first character of a string: its code point and the number of its
    bytes.  [None] when the string is empty or does not start with a
    character in its shortest form. *)
Definition decode (s : string) : option (N * nat) :=
  match s with
  | EmptyString => None
  | String c1 r1 =>
      let b1 := code c1 in
      if (b1 <? 0x80)%N then Some (b1, 1)
      else if (b1 <? 0xC0)%N then None
      else if (b1 <? 0xE0)%N then
        match r1 with
        | String c2 _ =>
            let cp := ((b1 - 0xC0) * 64 + low6 c2)%N in
            if is_cont c2 && (0x80 <=? cp)%N then Some (cp, 2) else None
        | _ => None
        end
      else if (b1 <? 0xF0)%N then
        match r1 with
        | String c2 (String c3 _) =>
            let cp := ((b1 - 0xE0) * 4096 + low6 c2 * 64 + low6 c3)%N in
            if is_cont c2 && is_cont c3 && (0x800 <=? cp)%N
            then Some (cp, 3) else None
        | _ => None
        end
      else if (b1 <? 0xF8)%N then
        match r1 with
        | String c2 (String c3 (String c4 _)) =>
            let cp := ((b1 - 0xF0) * 262144 + low6 c2 * 4096
                       + low6 c3 * 64 + low6 c4)%N in
            if is_cont c2 && is_cont c3 && is_cont c4
               && (0x10000 <=? cp)%N && (cp <=? 0x10FFFF)%N
            then Some (cp, 4) else None
        | _ => None
        end
      else None
  end.

(** The bytes of a code point. *)
Definition encode (cp : N) : string :=
  if (cp <? 0x80)%N then String (byte cp) EmptyString
  else if (cp <? 0x800)%N then
    String (byte (0xC0 + cp / 64))
      (String (byte (0x80 + cp mod 64)) EmptyString)
  else if (cp <? 0x10000)%N then
    String (byte (0xE0 + cp / 4096))
      (String (byte (0x80 + (cp / 64) mod 64))
         (String (byte (0x80 + cp mod 64)) EmptyString))
  else
    String (byte (0xF0 + cp / 262144))
      (String (byte (0x80 + (cp / 4096) mod 64))
         (String (byte (0x80 + (cp / 64) mod 64))
            (String (byte (0x80 + cp mod 64)) EmptyString))).

Fixpoint encode_all (l : list N) : string :=
  match l with
  | [] => EmptyString
  | cp :: r => encode cp +:+ encode_all r
  end.

(** The string without its first [n] bytes. *)
Fixpoint drop (n : nat) (s : string) : string :=
  match n, s with
  | O, _ => s
  | S k, String _ r => drop k r
  | S _, EmptyString => EmptyString
  end.

(** *** Case mapping

    The case pairs of the Unicode Character Database (version 14.0), as
    [toLowerCase] and [toUpperCase] apply them: a range maps every
    [stride]-th code point from [lo] to [hi] to the code point [delta]
    further; the characters that map to several are listed apart. *)

Record Range := range { lo : N; hi : N; stride : N; delta : Z }.
Arguments range (lo hi stride)%_N delta%_Z.

Definition lower_ranges : list Range :=
  [ range 0x41 0x5A 1 32; range 0xC0 0xD6 1 32; range 0xD8 0xDE 1 32;
    range 0x100 0x12E 2 1; range 0x132 0x136 2 1; range 0x139 0x147 2 1;
    range 0x14A 0x176 2 1; range 0x178 0x178 1 (-121); range 0x179 0x17D 2 1;
    range 0x181 0x181 1 210; range 0x182 0x184 2 1; range 0x186 0x186 1 206;
    range 0x187 0x187 1 1; range 0x189 0x18A 1 205; range 0x18B 0x18B 1 1;
    range 0x18E 0x18E 1 79; range 0x18F 0x18F 1 202; range 0x190 0x190 1 203;
    range 0x191 0x191 1 1; range 0x193 0x193 1 205; range 0x194 0x194 1 207;
    range 0x196 0x196 1 211; range 0x197 0x197 1 209; range 0x198 0x198 1 1;
    range 0x19C 0x19C 1 211; range 0x19D 0x19D 1 213; range 0x19F 0x19F 1 214;
    range 0x1A0 0x1A4 2 1; range 0x1A6 0x1A6 1 218; range 0x1A7 0x1A7 1 1;
    range 0x1A9 0x1A9 1 218; range 0x1AC 0x1AC 1 1; range 0x1AE 0x1AE 1 218;
    range 0x1AF 0x1AF 1 1; range 0x1B1 0x1B2 1 217; range 0x1B3 0x1B5 2 1;
    range 0x1B7 0x1B7 1 219; range 0x1B8 0x1B8 1 1; range 0x1BC 0x1BC 1 1;
    range 0x1C4 0x1C4 1 2; range 0x1C5 0x1C5 1 1; range 0x1C7 0x1C7 1 2;
    range 0x1C8 0x1C8 1 1; range 0x1CA 0x1CA 1 2; range 0x1CB 0x1DB 2 1;
    range 0x1DE 0x1EE 2 1; range 0x1F1 0x1F1 1 2; range 0x1F2 0x1F4 2 1;
    range 0x1F6 0x1F6 1 (-97); range 0x1F7 0x1F7 1 (-56); range 0x1F8 0x21E 2 1;
    range 0x220 0x220 1 (-130); range 0x222 0x232 2 1; range 0x23A 0x23A 1 10795;
    range 0x23B 0x23B 1 1; range 0x23D 0x23D 1 (-163); range 0x23E 0x23E 1 10792;
    range 0x241 0x241 1 1; range 0x243 0x243 1 (-195); range 0x244 0x244 1 69;
    range 0x245 0x245 1 71; range 0x246 0x24E 2 1; range 0x370 0x372 2 1;
    range 0x376 0x376 1 1; range 0x37F 0x37F 1 116; range 0x386 0x386 1 38;
    range 0x388 0x38A 1 37; range 0x38C 0x38C 1 64; range 0x38E 0x38F 1 63;
    range 0x391 0x3A1 1 32; range 0x3A3 0x3AB 1 32; range 0x3CF 0x3CF 1 8;
    range 0x3D8 0x3EE 2 1; range 0x3F4 0x3F4 1 (-60); range 0x3F7 0x3F7 1 1;
    range 0x3F9 0x3F9 1 (-7); range 0x3FA 0x3FA 1 1; range 0x3FD 0x3FF 1 (-130);
    range 0x400 0x40F 1 80; range 0x410 0x42F 1 32; range 0x460 0x480 2 1;
    range 0x48A 0x4BE 2 1; range 0x4C0 0x4C0 1 15; range 0x4C1 0x4CD 2 1;
    range 0x4D0 0x52E 2 1; range 0x531 0x556 1 48; range 0x10A0 0x10C5 1 7264;
    range 0x10C7 0x10C7 1 7264; range 0x10CD 0x10CD 1 7264; range 0x13A0 0x13EF 1 38864;
    range 0x13F0 0x13F5 1 8; range 0x1C90 0x1CBA 1 (-3008); range 0x1CBD 0x1CBF 1 (-3008);
    range 0x1E00 0x1E94 2 1; range 0x1E9E 0x1E9E 1 (-7615); range 0x1EA0 0x1EFE 2 1;
    range 0x1F08 0x1F0F 1 (-8); range 0x1F18 0x1F1D 1 (-8); range 0x1F28 0x1F2F 1 (-8);
    range 0x1F38 0x1F3F 1 (-8); range 0x1F48 0x1F4D 1 (-8); range 0x1F59 0x1F5F 2 (-8);
    range 0x1F68 0x1F6F 1 (-8); range 0x1F88 0x1F8F 1 (-8); range 0x1F98 0x1F9F 1 (-8);
    range 0x1FA8 0x1FAF 1 (-8); range 0x1FB8 0x1FB9 1 (-8); range 0x1FBA 0x1FBB 1 (-74);
    range 0x1FBC 0x1FBC 1 (-9); range 0x1FC8 0x1FCB 1 (-86); range 0x1FCC 0x1FCC 1 (-9);
    range 0x1FD8 0x1FD9 1 (-8); range 0x1FDA 0x1FDB 1 (-100); range 0x1FE8 0x1FE9 1 (-8);
    range 0x1FEA 0x1FEB 1 (-112); range 0x1FEC 0x1FEC 1 (-7); range 0x1FF8 0x1FF9 1 (-128);
    range 0x1FFA 0x1FFB 1 (-126); range 0x1FFC 0x1FFC 1 (-9); range 0x2126 0x2126 1 (-7517);
    range 0x212A 0x212A 1 (-8383); range 0x212B 0x212B 1 (-8262); range 0x2132 0x2132 1 28;
    range 0x2160 0x216F 1 16; range 0x2183 0x2183 1 1; range 0x24B6 0x24CF 1 26;
    range 0x2C00 0x2C2F 1 48; range 0x2C60 0x2C60 1 1; range 0x2C62 0x2C62 1 (-10743);
    range 0x2C63 0x2C63 1 (-3814); range 0x2C64 0x2C64 1 (-10727); range 0x2C67 0x2C6B 2 1;
    range 0x2C6D 0x2C6D 1 (-10780); range 0x2C6E 0x2C6E 1 (-10749); range 0x2C6F 0x2C6F 1 (-10783);
    range 0x2C70 0x2C70 1 (-10782); range 0x2C72 0x2C72 1 1; range 0x2C75 0x2C75 1 1;
    range 0x2C7E 0x2C7F 1 (-10815); range 0x2C80 0x2CE2 2 1; range 0x2CEB 0x2CED 2 1;
    range 0x2CF2 0x2CF2 1 1; range 0xA640 0xA66C 2 1; range 0xA680 0xA69A 2 1;
    range 0xA722 0xA72E 2 1; range 0xA732 0xA76E 2 1; range 0xA779 0xA77B 2 1;
    range 0xA77D 0xA77D 1 (-35332); range 0xA77E 0xA786 2 1; range 0xA78B 0xA78B 1 1;
    range 0xA78D 0xA78D 1 (-42280); range 0xA790 0xA792 2 1; range 0xA796 0xA7A8 2 1;
    range 0xA7AA 0xA7AA 1 (-42308); range 0xA7AB 0xA7AB 1 (-42319); range 0xA7AC 0xA7AC 1 (-42315);
    range 0xA7AD 0xA7AD 1 (-42305); range 0xA7AE 0xA7AE 1 (-42308); range 0xA7B0 0xA7B0 1 (-42258);
    range 0xA7B1 0xA7B1 1 (-42282); range 0xA7B2 0xA7B2 1 (-42261); range 0xA7B3 0xA7B3 1 928;
    range 0xA7B4 0xA7C2 2 1; range 0xA7C4 0xA7C4 1 (-48); range 0xA7C5 0xA7C5 1 (-42307);
    range 0xA7C6 0xA7C6 1 (-35384); range 0xA7C7 0xA7C9 2 1; range 0xA7D0 0xA7D0 1 1;
    range 0xA7D6 0xA7D8 2 1; range 0xA7F5 0xA7F5 1 1; range 0xFF21 0xFF3A 1 32;
    range 0x10400 0x10427 1 40; range 0x104B0 0x104D3 1 40; range 0x10570 0x1057A 1 39;
    range 0x1057C 0x1058A 1 39; range 0x1058C 0x10592 1 39; range 0x10594 0x10595 1 39;
    range 0x10C80 0x10CB2 1 64; range 0x118A0 0x118BF 1 32; range 0x16E40 0x16E5F 1 32;
    range 0x1E900 0x1E921 1 34 ].

Definition lower_special : list (N * list N) :=
  [ (0x130, [0x69; 0x307]) ]%N.

Definition upper_ranges : list Range :=
  [ range 0x61 0x7A 1 (-32); range 0xB5 0xB5 1 743; range 0xE0 0xF6 1 (-32);
    range 0xF8 0xFE 1 (-32); range 0xFF 0xFF 1 121; range 0x101 0x12F 2 (-1);
    range 0x131 0x131 1 (-232); range 0x133 0x137 2 (-1); range 0x13A 0x148 2 (-1);
    range 0x14B 0x177 2 (-1); range 0x17A 0x17E 2 (-1); range 0x17F 0x17F 1 (-300);
    range 0x180 0x180 1 195; range 0x183 0x185 2 (-1); range 0x188 0x188 1 (-1);
    range 0x18C 0x18C 1 (-1); range 0x192 0x192 1 (-1); range 0x195 0x195 1 97;
    range 0x199 0x199 1 (-1); range 0x19A 0x19A 1 163; range 0x19E 0x19E 1 130;
    range 0x1A1 0x1A5 2 (-1); range 0x1A8 0x1A8 1 (-1); range 0x1AD 0x1AD 1 (-1);
    range 0x1B0 0x1B0 1 (-1); range 0x1B4 0x1B6 2 (-1); range 0x1B9 0x1B9 1 (-1);
    range 0x1BD 0x1BD 1 (-1); range 0x1BF 0x1BF 1 56; range 0x1C5 0x1C5 1 (-1);
    range 0x1C6 0x1C6 1 (-2); range 0x1C8 0x1C8 1 (-1); range 0x1C9 0x1C9 1 (-2);
    range 0x1CB 0x1CB 1 (-1); range 0x1CC 0x1CC 1 (-2); range 0x1CE 0x1DC 2 (-1);
    range 0x1DD 0x1DD 1 (-79); range 0x1DF 0x1EF 2 (-1); range 0x1F2 0x1F2 1 (-1);
    range 0x1F3 0x1F3 1 (-2); range 0x1F5 0x1F5 1 (-1); range 0x1F9 0x21F 2 (-1);
    range 0x223 0x233 2 (-1); range 0x23C 0x23C 1 (-1); range 0x23F 0x240 1 10815;
    range 0x242 0x242 1 (-1); range 0x247 0x24F 2 (-1); range 0x250 0x250 1 10783;
    range 0x251 0x251 1 10780; range 0x252 0x252 1 10782; range 0x253 0x253 1 (-210);
    range 0x254 0x254 1 (-206); range 0x256 0x257 1 (-205); range 0x259 0x259 1 (-202);
    range 0x25B 0x25B 1 (-203); range 0x25C 0x25C 1 42319; range 0x260 0x260 1 (-205);
    range 0x261 0x261 1 42315; range 0x263 0x263 1 (-207); range 0x265 0x265 1 42280;
    range 0x266 0x266 1 42308; range 0x268 0x268 1 (-209); range 0x269 0x269 1 (-211);
    range 0x26A 0x26A 1 42308; range 0x26B 0x26B 1 10743; range 0x26C 0x26C 1 42305;
    range 0x26F 0x26F 1 (-211); range 0x271 0x271 1 10749; range 0x272 0x272 1 (-213);
    range 0x275 0x275 1 (-214); range 0x27D 0x27D 1 10727; range 0x280 0x280 1 (-218);
    range 0x282 0x282 1 42307; range 0x283 0x283 1 (-218); range 0x287 0x287 1 42282;
    range 0x288 0x288 1 (-218); range 0x289 0x289 1 (-69); range 0x28A 0x28B 1 (-217);
    range 0x28C 0x28C 1 (-71); range 0x292 0x292 1 (-219); range 0x29D 0x29D 1 42261;
    range 0x29E 0x29E 1 42258; range 0x345 0x345 1 84; range 0x371 0x373 2 (-1);
    range 0x377 0x377 1 (-1); range 0x37B 0x37D 1 130; range 0x3AC 0x3AC 1 (-38);
    range 0x3AD 0x3AF 1 (-37); range 0x3B1 0x3C1 1 (-32); range 0x3C2 0x3C2 1 (-31);
    range 0x3C3 0x3CB 1 (-32); range 0x3CC 0x3CC 1 (-64); range 0x3CD 0x3CE 1 (-63);
    range 0x3D0 0x3D0 1 (-62); range 0x3D1 0x3D1 1 (-57); range 0x3D5 0x3D5 1 (-47);
    range 0x3D6 0x3D6 1 (-54); range 0x3D7 0x3D7 1 (-8); range 0x3D9 0x3EF 2 (-1);
    range 0x3F0 0x3F0 1 (-86); range 0x3F1 0x3F1 1 (-80); range 0x3F2 0x3F2 1 7;
    range 0x3F3 0x3F3 1 (-116); range 0x3F5 0x3F5 1 (-96); range 0x3F8 0x3F8 1 (-1);
    range 0x3FB 0x3FB 1 (-1); range 0x430 0x44F 1 (-32); range 0x450 0x45F 1 (-80);
    range 0x461 0x481 2 (-1); range 0x48B 0x4BF 2 (-1); range 0x4C2 0x4CE 2 (-1);
    range 0x4CF 0x4CF 1 (-15); range 0x4D1 0x52F 2 (-1); range 0x561 0x586 1 (-48);
    range 0x10D0 0x10FA 1 3008; range 0x10FD 0x10FF 1 3008; range 0x13F8 0x13FD 1 (-8);
    range 0x1C80 0x1C80 1 (-6254); range 0x1C81 0x1C81 1 (-6253); range 0x1C82 0x1C82 1 (-6244);
    range 0x1C83 0x1C84 1 (-6242); range 0x1C85 0x1C85 1 (-6243); range 0x1C86 0x1C86 1 (-6236);
    range 0x1C87 0x1C87 1 (-6181); range 0x1C88 0x1C88 1 35266; range 0x1D79 0x1D79 1 35332;
    range 0x1D7D 0x1D7D 1 3814; range 0x1D8E 0x1D8E 1 35384; range 0x1E01 0x1E95 2 (-1);
    range 0x1E9B 0x1E9B 1 (-59); range 0x1EA1 0x1EFF 2 (-1); range 0x1F00 0x1F07 1 8;
    range 0x1F10 0x1F15 1 8; range 0x1F20 0x1F27 1 8; range 0x1F30 0x1F37 1 8;
    range 0x1F40 0x1F45 1 8; range 0x1F51 0x1F57 2 8; range 0x1F60 0x1F67 1 8;
    range 0x1F70 0x1F71 1 74; range 0x1F72 0x1F75 1 86; range 0x1F76 0x1F77 1 100;
    range 0x1F78 0x1F79 1 128; range 0x1F7A 0x1F7B 1 112; range 0x1F7C 0x1F7D 1 126;
    range 0x1FB0 0x1FB1 1 8; range 0x1FBE 0x1FBE 1 (-7205); range 0x1FD0 0x1FD1 1 8;
    range 0x1FE0 0x1FE1 1 8; range 0x1FE5 0x1FE5 1 7; range 0x214E 0x214E 1 (-28);
    range 0x2170 0x217F 1 (-16); range 0x2184 0x2184 1 (-1); range 0x24D0 0x24E9 1 (-26);
    range 0x2C30 0x2C5F 1 (-48); range 0x2C61 0x2C61 1 (-1); range 0x2C65 0x2C65 1 (-10795);
    range 0x2C66 0x2C66 1 (-10792); range 0x2C68 0x2C6C 2 (-1); range 0x2C73 0x2C73 1 (-1);
    range 0x2C76 0x2C76 1 (-1); range 0x2C81 0x2CE3 2 (-1); range 0x2CEC 0x2CEE 2 (-1);
    range 0x2CF3 0x2CF3 1 (-1); range 0x2D00 0x2D25 1 (-7264); range 0x2D27 0x2D27 1 (-7264);
    range 0x2D2D 0x2D2D 1 (-7264); range 0xA641 0xA66D 2 (-1); range 0xA681 0xA69B 2 (-1);
    range 0xA723 0xA72F 2 (-1); range 0xA733 0xA76F 2 (-1); range 0xA77A 0xA77C 2 (-1);
    range 0xA77F 0xA787 2 (-1); range 0xA78C 0xA78C 1 (-1); range 0xA791 0xA793 2 (-1);
    range 0xA794 0xA794 1 48; range 0xA797 0xA7A9 2 (-1); range 0xA7B5 0xA7C3 2 (-1);
    range 0xA7C8 0xA7CA 2 (-1); range 0xA7D1 0xA7D1 1 (-1); range 0xA7D7 0xA7D9 2 (-1);
    range 0xA7F6 0xA7F6 1 (-1); range 0xAB53 0xAB53 1 (-928); range 0xAB70 0xABBF 1 (-38864);
    range 0xFF41 0xFF5A 1 (-32); range 0x10428 0x1044F 1 (-40); range 0x104D8 0x104FB 1 (-40);
    range 0x10597 0x105A1 1 (-39); range 0x105A3 0x105B1 1 (-39); range 0x105B3 0x105B9 1 (-39);
    range 0x105BB 0x105BC 1 (-39); range 0x10CC0 0x10CF2 1 (-64); range 0x118C0 0x118DF 1 (-32);
    range 0x16E60 0x16E7F 1 (-32); range 0x1E922 0x1E943 1 (-34) ].

Definition upper_special : list (N * list N) :=
  [ (0xDF, [0x53; 0x53]); (0x149, [0x2BC; 0x4E]); (0x1F0, [0x4A; 0x30C]);
    (0x390, [0x399; 0x308; 0x301]); (0x3B0, [0x3A5; 0x308; 0x301]); (0x587, [0x535; 0x552]);
    (0x1E96, [0x48; 0x331]); (0x1E97, [0x54; 0x308]); (0x1E98, [0x57; 0x30A]);
    (0x1E99, [0x59; 0x30A]); (0x1E9A, [0x41; 0x2BE]); (0x1F50, [0x3A5; 0x313]);
    (0x1F52, [0x3A5; 0x313; 0x300]); (0x1F54, [0x3A5; 0x313; 0x301]); (0x1F56, [0x3A5; 0x313; 0x342]);
    (0x1F80, [0x1F08; 0x399]); (0x1F81, [0x1F09; 0x399]); (0x1F82, [0x1F0A; 0x399]);
    (0x1F83, [0x1F0B; 0x399]); (0x1F84, [0x1F0C; 0x399]); (0x1F85, [0x1F0D; 0x399]);
    (0x1F86, [0x1F0E; 0x399]); (0x1F87, [0x1F0F; 0x399]); (0x1F88, [0x1F08; 0x399]);
    (0x1F89, [0x1F09; 0x399]); (0x1F8A, [0x1F0A; 0x399]); (0x1F8B, [0x1F0B; 0x399]);
    (0x1F8C, [0x1F0C; 0x399]); (0x1F8D, [0x1F0D; 0x399]); (0x1F8E, [0x1F0E; 0x399]);
    (0x1F8F, [0x1F0F; 0x399]); (0x1F90, [0x1F28; 0x399]); (0x1F91, [0x1F29; 0x399]);
    (0x1F92, [0x1F2A; 0x399]); (0x1F93, [0x1F2B; 0x399]); (0x1F94, [0x1F2C; 0x399]);
    (0x1F95, [0x1F2D; 0x399]); (0x1F96, [0x1F2E; 0x399]); (0x1F97, [0x1F2F; 0x399]);
    (0x1F98, [0x1F28; 0x399]); (0x1F99, [0x1F29; 0x399]); (0x1F9A, [0x1F2A; 0x399]);
    (0x1F9B, [0x1F2B; 0x399]); (0x1F9C, [0x1F2C; 0x399]); (0x1F9D, [0x1F2D; 0x399]);
    (0x1F9E, [0x1F2E; 0x399]); (0x1F9F, [0x1F2F; 0x399]); (0x1FA0, [0x1F68; 0x399]);
    (0x1FA1, [0x1F69; 0x399]); (0x1FA2, [0x1F6A; 0x399]); (0x1FA3, [0x1F6B; 0x399]);
    (0x1FA4, [0x1F6C; 0x399]); (0x1FA5, [0x1F6D; 0x399]); (0x1FA6, [0x1F6E; 0x399]);
    (0x1FA7, [0x1F6F; 0x399]); (0x1FA8, [0x1F68; 0x399]); (0x1FA9, [0x1F69; 0x399]);
    (0x1FAA, [0x1F6A; 0x399]); (0x1FAB, [0x1F6B; 0x399]); (0x1FAC, [0x1F6C; 0x399]);
    (0x1FAD, [0x1F6D; 0x399]); (0x1FAE, [0x1F6E; 0x399]); (0x1FAF, [0x1F6F; 0x399]);
    (0x1FB2, [0x1FBA; 0x399]); (0x1FB3, [0x391; 0x399]); (0x1FB4, [0x386; 0x399]);
    (0x1FB6, [0x391; 0x342]); (0x1FB7, [0x391; 0x342; 0x399]); (0x1FBC, [0x391; 0x399]);
    (0x1FC2, [0x1FCA; 0x399]); (0x1FC3, [0x397; 0x399]); (0x1FC4, [0x389; 0x399]);
    (0x1FC6, [0x397; 0x342]); (0x1FC7, [0x397; 0x342; 0x399]); (0x1FCC, [0x397; 0x399]);
    (0x1FD2, [0x399; 0x308; 0x300]); (0x1FD3, [0x399; 0x308; 0x301]); (0x1FD6, [0x399; 0x342]);
    (0x1FD7, [0x399; 0x308; 0x342]); (0x1FE2, [0x3A5; 0x308; 0x300]); (0x1FE3, [0x3A5; 0x308; 0x301]);
    (0x1FE4, [0x3A1; 0x313]); (0x1FE6, [0x3A5; 0x342]); (0x1FE7, [0x3A5; 0x308; 0x342]);
    (0x1FF2, [0x1FFA; 0x399]); (0x1FF3, [0x3A9; 0x399]); (0x1FF4, [0x38F; 0x399]);
    (0x1FF6, [0x3A9; 0x342]); (0x1FF7, [0x3A9; 0x342; 0x399]); (0x1FFC, [0x3A9; 0x399]);
    (0xFB00, [0x46; 0x46]); (0xFB01, [0x46; 0x49]); (0xFB02, [0x46; 0x4C]);
    (0xFB03, [0x46; 0x46; 0x49]); (0xFB04, [0x46; 0x46; 0x4C]); (0xFB05, [0x53; 0x54]);
    (0xFB06, [0x53; 0x54]); (0xFB13, [0x544; 0x546]); (0xFB14, [0x544; 0x535]);
    (0xFB15, [0x544; 0x53B]); (0xFB16, [0x54E; 0x546]); (0xFB17, [0x544; 0x53D]) ]%N.

Definition in_range (cp : N) (r : Range) : bool :=
  (lo r <=? cp)%N && (cp <=? hi r)%N && ((cp - lo r) mod stride r =? 0)%N.

Definition case_of (ranges : list Range) (special : list (N * list N)) (cp : N) :
    list N :=
  match find (λ e, (e.1 =? cp)%N) special with
  | Some e => e.2
  | None =>
      match find (in_range cp) ranges with
      | Some r => [Z.to_N (Z.of_N cp + delta r)]
      | None => [cp]
      end
  end.

Definition lower : N → list N := case_of lower_ranges lower_special.

Definition upper : N → list N := case_of upper_ranges upper_special.

(** Maps every character of [s]; [skip] counts the bytes still to pass of a
    character already mapped.  Bytes that spell no character are kept. *)
Fixpoint map_case (f : N → list N) (skip : nat) (s : string) : string :=
  match s with
  | EmptyString => EmptyString
  | String c r =>
      match skip with
      | S k => map_case f k r
      | O =>
          match decode s with
          | Some (cp, n) => encode_all (f cp) +:+ map_case f (n - 1) r
          | None => String c (map_case f 0 r)
          end
      end
  end.

(** [s.toLowerCase()].  The one rule of the method that looks at the
    neighbours of a character, the form of a sigma at the end of a word, is
    left out: both forms of the letter lie outside ASCII. *)
Definition toLowerCase : string → string := map_case lower 0.

(** [s.toUpperCase()] *)
Definition toUpperCase : string → string := map_case upper 0.

(** The character class [[a-z0-9-]]. *)
Definition id_char (c : ascii) : bool :=
  is_lower c || is_digit c || Nat.eqb (nat_of_ascii c) 45.

(** [s.replace(/[^a-z0-9-]/g, '')] *)
Definition strip_non_id : string → string := filter_chars id_char.

(** JS truthiness of a string: the empty string is falsy. *)
Definition truthy (s : string) : bool :=
  match s with EmptyString => false | String _ _ => true end.

(** *** Substrings *)

(** The high surrogate of a code point outside the BMP. *)
Definition high_surrogate (cp : N) : N := (0xD800 + (cp - 0x10000) / 0x400)%N.

(** The first [n] UTF-16 code units of [s]; [skip] counts the bytes still
    to copy of a character already counted.  A character outside the BMP is
    two units: when one unit is left, the text ends with its high surrogate
    (held as the three bytes of that code point). *)
Fixpoint take_units (skip n : nat) (s : string) : string :=
  match s with
  | EmptyString => EmptyString
  | String c r =>
      match skip with
      | S k => String c (take_units k n r)
      | O =>
          match n with
          | O => EmptyString
          | S m =>
              match decode s with
              | Some (cp, 4) =>
                  match m with
                  | O => encode (high_surrogate cp)
                  | S m' => String c (take_units 3 m' r)
                  end
              | Some (_, k) => String c (take_units (k - 1) m r)
              | None => String c (take_units 0 m r)
              end
          end
      end
  end.

(** [s.substring(0, n)] *)
Definition substring0 (n : nat) (s : string) : string := take_units 0 n s.

(** *** White space *)

(** The white space and line terminators that [trim] removes. *)
Definition is_white (cp : N) : bool :=
  ((9 <=? cp) && (cp <=? 13)
   || (cp =? 0x20) || (cp =? 0xA0) || (cp =? 0x1680)
   || ((0x2000 <=? cp) && (cp <=? 0x200A))
   || (cp =? 0x2028) || (cp =? 0x2029) || (cp =? 0x202F) || (cp =? 0x205F)
   || (cp =? 0x3000) || (cp =? 0xFEFF))%N.

(** Whether [s], after [skip] bytes, holds white space only. *)
Fixpoint all_white (skip : nat) (s : string) : bool :=
  match s with
  | EmptyString => true
  | String _ r =>
      match skip with
      | S k => all_white k r
      | O =>
          match decode s with
          | Some (cp, n) => is_white cp && all_white (n - 1) r
          | None => false
          end
      end
  end.

(** [s.trimStart()], [s.trimEnd()] *)
Fixpoint trim_start (skip : nat) (s : string) : string :=
  match s with
  | EmptyString => EmptyString
  | String _ r =>
      match skip with
      | S k => trim_start k r
      | O =>
          match decode s with
          | Some (cp, n) => if is_white cp then trim_start (n - 1) r else s
          | None => s
          end
      end
  end.

Fixpoint trim_end (s : string) : string :=
  match s with
  | EmptyString => EmptyString
  | String c r => if all_white 0 s then EmptyString else String c (trim_end r)
  end.

(** [s.trim()] *)
Definition trim (s : string) : string := trim_end (trim_start 0 s).

(** [s.split('\n')[0]] *)
Fixpoint first_line (s : string) : string :=
  match s with
  | EmptyString => EmptyString
  | String c r =>
      if Nat.eqb (nat_of_ascii c) 10 then EmptyString
      else String c (first_line r)
  end.

(** [/^\d+$/.test(s)] *)
Definition all_digits (s : string) : bool := truthy s && all_chars is_digit s.

(** The double quote character, and [s] between double quotes. *)
Definition dq : string := String (ascii_of_nat 34) EmptyString.
Definition quoted (s : string) : string := dq +:+ s +:+ dq.

(** [lines.join(sep)] for a list of strings. *)
Fixpoint concat_with (sep : string) (l : list string) : string :=
  match l with
  | [] => EmptyString
  | [x] => x
  | x :: r => x +:+ sep +:+ concat_with sep r
  end.

End Str.

(** ** Identifier derivation (lines 46-47) *)

(** [const id = name.toLowerCase().replace(/[^a-z0-9-]/g, '')] *)
Definition agent_id (name : string) : string :=
  Str.strip_non_id (Str.toLowerCase name).

(** [const displayName = name.charAt(0).toUpperCase() + name.slice(1)].
    [charAt(0)] is the first UTF-16 code unit.  When the first character
    lies in the BMP (one to three bytes here) that is the character, and
    [slice(1)] is the rest.  A first character outside the BMP (four bytes)
    is two code units: [charAt(0)] is its high surrogate alone, which
    [toUpperCase] leaves as it is, and [slice(1)] begins with its low
    surrogate, so the two join again and the name comes back unchanged. *)
Definition display_name (name : string) : string :=
  match Str.decode name with
  | Some (cp, n) =>
      if Nat.leb n 3 then Str.encode_all (Str.upper cp) +:+ Str.drop n name
      else name
  | None => name
  end.

(** The derivation as the specification words it.

    For the id, character by character: a capital letter of A-Z gives its
    small letter; the Kelvin sign (U+212A) and the dotted capital I
    (U+0130), the two characters outside ASCII whose lower-case form holds
    an ASCII letter, give [k] and [i]; a character of [[a-z0-9-]] is kept;
    every other character is removed. *)
Definition capital_letters : string := "ABCDEFGHIJKLMNOPQRSTUVWXYZ".
Definition small_letters : string := "abcdefghijklmnopqrstuvwxyz".
Definition id_alphabet : string := "abcdefghijklmnopqrstuvwxyz0123456789-".

Definition kelvin_sign : string :=
  String (ascii_of_nat 226) (String (ascii_of_nat 132) (String (ascii_of_nat 170) EmptyString)).

Definition dotted_capital_i : string :=
  String (ascii_of_nat 196) (String (ascii_of_nat 176) EmptyString).

(** The letter at the place of [c] in the other alphabet. *)
Fixpoint swap_letter (from to : string) (c : ascii) : option ascii :=
  match from, to with
  | String a from', String b to' =>
      if Ascii.eqb a c then Some b else swap_letter from' to' c
  | _, _ => None
  end.

Fixpoint occurs (c : ascii) (s : string) : bool :=
  match s with
  | EmptyString => false
  | String a r => Ascii.eqb a c || occurs c r
  end.

Fixpoint spec_agent_id (name : string) : string :=
  match name with
  | EmptyString => EmptyString
  | String c r =>
      if String.prefix kelvin_sign name then String "k" (spec_agent_id r)
      else if String.prefix dotted_capital_i name then String "i" (spec_agent_id r)
      else
        match swap_letter capital_letters small_letters c with
        | Some l => String l (spec_agent_id r)
        | None =>
            if occurs c id_alphabet then String c (spec_agent_id r)
            else spec_agent_id r
        end
  end.

(** For the display name: the first character upper-cased, the rest
    unchanged. *)
Definition spec_display_name (name : string) : string :=
  match Str.decode name with
  | Some (cp, n) => Str.encode_all (Str.upper cp) +:+ Str.drop n name
  | None => name
  end.

(** Whether the name starts with a character outside the BMP. *)
Definition starts_outside_bmp (name : string) : bool :=
  match Str.decode name with
  | Some (_, n) => Nat.leb 4 n
  | None => false
  end.

(** The capital of a small letter of the basic Latin, Latin-1, Greek and
    Cyrillic alphabets, by its place in the alphabet: 32 places lower for
    a-z, for U+00E0-U+00FE but the division sign, for the Greek letters from
    alpha to omega but the final sigma, and for the Cyrillic letters
    U+0430-U+044F; 80 places lower for the Cyrillic letters U+0450-U+045F. *)
Definition alphabet_capital (cp : N) : option N :=
  if ((0x61 <=? cp) && (cp <=? 0x7A))%N then Some (cp - 32)%N
  else if ((0xE0 <=? cp) && (cp <=? 0xFE) && negb (cp =? 0xF7))%N then Some (cp - 32)%N
  else if ((0x3B1 <=? cp) && (cp <=? 0x3C9) && negb (cp =? 0x3C2))%N then Some (cp - 32)%N
  else if ((0x430 <=? cp) && (cp <=? 0x44F))%N then Some (cp - 32)%N
  else if ((0x450 <=? cp) && (cp <=? 0x45F))%N then Some (cp - 80)%N
  else None.

(** Whether the case table gives the capital of the alphabet at [cp]. *)
Definition capital_agrees (cp : N) : bool :=
  match alphabet_capital cp, Str.upper cp with
  | Some up, [u] => (u =? up)%N
  | Some _, _ => false
  | None, _ => true
  end.

(** A name that starts with a small letter of the Deseret alphabet
    (U+10428), which lies outside the BMP, and the same name with the
    capital of that letter (U+10400). *)
Definition deseret_name : string := "𐐨x".
Definition deseret_capital : string := "𐐀x".

(** The ranges of the lower-case table, as far as the id can see them:
    below U+0080 lies the ASCII range; the Kelvin sign stands alone; every
    other range maps into the code points from U+0080 on. *)
Definition lower_range_ok (r : Str.Range) : bool :=
  (Str.hi r <? 0x80)%N
  || ((Str.lo r =? 0x212A)%N && (Str.hi r =? 0x212A)%N)
  || ((0x80 <=? Z.of_N (Str.lo r) + Str.delta r)%Z
      && (Z.of_N (Str.hi r) + Str.delta r <=? 0x10FFFF)%Z).

(** The next [k] bytes continue a character. *)
Fixpoint conts (k : nat) (s : string) : Prop :=
  match k, s with
  | S k', String c r => Str.is_cont c = true ∧ conts k' r
  | _, _ => True
  end.

(** ** Paths *)

(** A path is its list of components; [join(p, name)] appends one. *)
Abbreviation path := (list string).

Definition join (p : path) (name : string) : path := p ++ [name].

(** The path as the string the source passes around. *)
Definition path_str (p : path) : string :=
  "/" +:+ Str.concat_with "/" p.

(** The non-empty prefixes of a path: the path and its ancestors. *)
Fixpoint ancestors (p : path) : list path :=
  match p with
  | [] => []
  | x :: r => [x] :: map (cons x) (ancestors r)
  end.

(** ** JSON documents *)

(** Fields are optional where the code tests them for presence; [None] is a
    missing (or falsy) field. *)

Record Subagents := { allowAgents : option (list string) }.

Record Agent := {
  agent_ident : string;                  (* id *)
  subagents : option Subagents }.

Record Account := {
  acc_enabled : bool;
  dmPolicy : string;
  botToken : string;
  groupPolicy : string;
  streamMode : string }.

Record Telegram := {
  tg_enabled : option bool;
  accounts : option (gmap string Account) }.

Record Channels := { telegram : option Telegram }.

Record Match := { channel : string; accountId : string }.

Record Binding := {
  agentId : string;
  bmatch : option Match }.                (* match *)

Record AgentToAgent := { a2a_enabled : option bool }.

Record Tools := { agentToAgent : option AgentToAgent }.

Record Auth := { token : option string }.

Record Gateway := { port : option Z; auth : option Auth }.

(** An entry of the dashboard registry. *)
Record DashEntry := {
  de_id : string;
  de_name : string;
  de_emoji : string;
  de_host : string;
  de_port : Z;
  de_token : string;
  de_workspace : string;
  de_machine : string }.

(** The key [agents] is an object with a [list] in the gateway
    configuration and an array of entries in the dashboard registry. *)
Inductive AgentsField :=
  | AgentsObj (list_ : option (list Agent))
  | AgentsArr (entries : list DashEntry).

Record Doc := {
  agents : option AgentsField;
  channels : option Channels;
  bindings : option (list Binding);
  tools : option Tools;
  gateway : option Gateway }.

(** What a file holds: text that is not JSON, or the text of a document. *)
Inductive content :=
  | Text (s : string)
  | Json (d : Doc).

(** JSON values printed by the external commands. *)
Record ListedAgent := { la_id : string }.

Record BotResult := { username : option string }.

Record BotInfo := { bi_ok : bool; bi_result : option BotResult }.

Inductive stdout_json :=
  | JAgents (l : list ListedAgent)
  | JBot (b : BotInfo).

(** The standard output of a command: its text, and what [JSON.parse]
    makes of it ([None]: a SyntaxError). *)
Record output := { out_text : string; out_json : option stdout_json }.

Inductive exec_result :=
  | ExecOk (out : output)
  | ExecErr (message : string).

(** ** The environment *)

(** The constants of the module (lines 16-34) are given, already resolved. *)
Record Host := {
  HOME : path;                            (* process.env.HOME *)
  DIR : path;
  BASE_DIR : path;
  DEFAULT_WORKSPACE : path;
  today : string;                         (* new Date().toISOString().split('T')[0] *)
  exec : string → exec_result;            (* what execSync(cmd) does *)
  syntax_error : string → string;         (* the message of JSON.parse on a text that is not JSON *)
  readonly : gset path }.                 (* paths that cannot be created or written *)

Record FS := {
  dirs : gset path;
  files : gmap path content }.

(** The effects the program performs, in order. *)
Inductive event :=
  | EExec (cmd : string)
  | EMkdir (p : path)
  | EWriteFile (p : path)
  | ECopyFile (src dst : path).

(** ** The request and the result *)

Record Request := {
  name : string;
  emoji : string;
  soul : string;
  model : string;
  telegramToken : option string }.

Inductive Result :=
  | Failure (error : string) (steps : list string)
  | Success (id name emoji workspace model : string) (hasTelegram : bool)
            (message : string) (steps : list string).

Definition ok (r : Result) : bool :=
  match r with Failure _ _ => false | Success _ _ _ _ _ _ _ _ => true end.

Definition result_steps (r : Result) : list string :=
  match r with Failure _ l => l | Success _ _ _ _ _ _ _ l => l end.

(** ** The monad of the workflow *)

Record State := {
  fs : FS;
  log : list string;                      (* the array [steps] *)
  trace : list event }.

(** A computation ends normally, leaves [createAgent] by a [return], or
    throws an error with a message. *)
Inductive outcome (A : Type) :=
  | Normal (a : A)
  | Return (r : Result)
  | Throw (msg : string).
Arguments Normal {A} a.
Arguments Return {A} r.
Arguments Throw {A} msg.

Definition M (A : Type) : Type := State → outcome A * State.

#[export] Instance M_ret : MRet M := λ A a s, (Normal a, s).

#[export] Instance M_bind : MBind M := λ A B f m s,
  match m s with
  | (Normal a, s') => f a s'
  | (Return r, s') => (Return r, s')
  | (Throw e, s') => (Throw e, s')
  end.

Definition throw {A} (msg : string) : M A := λ s, (Throw msg, s).

Definition return_ {A} (r : Result) : M A := λ s, (Return r, s).

(** [try { m } catch (e) { h e }]: a [return] inside [m] is not caught. *)
Definition try_catch {A} (m : M A) (h : string → M A) : M A := λ s,
  match m s with
  | (Throw e, s') => h e s'
  | other => other
  end.

Definition get_fs : M FS := λ s, (Normal (fs s), s).

Definition put_fs (f : FS) : M unit := λ s,
  (Normal tt, {| fs := f; log := log s; trace := trace s |}).

Definition emit (ev : event) : M unit := λ s,
  (Normal tt, {| fs := fs s; log := log s; trace := trace s ++ [ev] |}).

(** [steps.push(line)] *)
Definition push (line : string) : M unit := λ s,
  (Normal tt, {| fs := fs s; log := log s ++ [line]; trace := trace s |}).

Definition get_steps : M (list string) := λ s, (Normal (log s), s).

(** ** File system and process primitives *)

Definition path_exists (f : FS) (p : path) : bool :=
  match files f !! p with
  | Some _ => true
  | None => bool_decide (p ∈ dirs f)
  end.

Definition is_file (f : FS) (p : path) : bool :=
  match files f !! p with Some _ => true | None => false end.

(** The directory a path lies in exists (the root always does). *)
Definition parent_ok (f : FS) (p : path) : bool :=
  match removelast p with
  | [] => true
  | d => bool_decide (d ∈ dirs f)
  end.

Definition add_dirs (l : list path) (f : FS) : FS :=
  {| dirs := dirs f ∪ list_to_set l; files := files f |}.

Definition set_file (p : path) (c : content) (f : FS) : FS :=
  {| dirs := dirs f; files := <[p := c]> (files f) |}.

Section Primitives.

Context (host : Host).

(** [existsSync(p)] *)
Definition existsSync (p : path) : M bool :=
  f ← get_fs; mret (path_exists f p).

(** [mkdirSync(p, { recursive: true })]: creates [p] and its missing
    ancestors; an existing directory is not an error, a file in the way is:
    [EEXIST] when the file is at [p], [ENOTDIR] when it is above [p]. *)
Definition mkdirSync (p : path) : M unit :=
  emit (EMkdir p);;
  f ← get_fs;
  if bool_decide (p ∈ readonly host) then
    throw ("EACCES: permission denied, mkdir '" +:+ path_str p +:+ "'")
  else if is_file f p then
    throw ("EEXIST: file already exists, mkdir '" +:+ path_str p +:+ "'")
  else if existsb (is_file f) (ancestors p) then
    throw ("ENOTDIR: not a directory, mkdir '" +:+ path_str p +:+ "'")
  else put_fs (add_dirs (ancestors p) f).

(** What stops [p] from being written, if anything. *)
Definition write_error (f : FS) (p : path) : option string :=
  if bool_decide (p ∈ readonly host) then
    Some ("EACCES: permission denied, open '" +:+ path_str p +:+ "'")
  else if bool_decide (p ∈ dirs f) then
    Some ("EISDIR: illegal operation on a directory, open '" +:+ path_str p +:+ "'")
  else if negb (parent_ok f p) then
    Some ("ENOENT: no such file or directory, open '" +:+ path_str p +:+ "'")
  else None.

(** [writeFileSync(p, c, 'utf8')] *)
Definition writeFileSync (p : path) (c : content) : M unit :=
  emit (EWriteFile p);;
  f ← get_fs;
  match write_error f p with
  | Some e => throw e
  | None => put_fs (set_file p c f)
  end.

(** [readFileSync(p, 'utf8')] *)
Definition readFileSync (p : path) : M content :=
  f ← get_fs;
  match files f !! p with
  | Some c => mret c
  | None => throw ("ENOENT: no such file or directory, open '" +:+ path_str p +:+ "'")
  end.

(** [copyFileSync(src, dst)] *)
Definition copyFileSync (src dst : path) : M unit :=
  emit (ECopyFile src dst);;
  f ← get_fs;
  match files f !! src with
  | None => throw ("ENOENT: no such file or directory, copyfile '" +:+ path_str src +:+ "'")
  | Some c =>
      match write_error f dst with
      | Some e => throw e
      | None => put_fs (set_file dst c f)
      end
  end.

(** [execSync(cmd, { encoding: 'utf8' })]: the standard output, or an error
    when the command fails. *)
Definition execSync (cmd : string) : M output :=
  emit (EExec cmd);;
  match exec host cmd with
  | ExecOk out => mret out
  | ExecErr e => throw e
  end.

(** [JSON.parse] of a file's content and [JSON.stringify(d, null, 2)]. *)
Definition JSON_parse (c : content) : M Doc :=
  match c with
  | Json d => mret d
  | Text s => throw (syntax_error host s)
  end.

Definition JSON_stringify (d : Doc) : content := Json d.

(** [JSON.parse] of a command's output. *)
Definition JSON_parse_out (o : output) : M stdout_json :=
  match out_json o with
  | Some j => mret j
  | None => throw (syntax_error host (out_text o))
  end.

(** ** [writeIfMissing] (lines 36-42) *)

Definition writeIfMissing (p : path) (c : content) : M bool :=
  e ← existsSync p;
  if negb e then
    writeFileSync p c;;
    mret true
  else mret false.

End Primitives.

(** ** The in-memory edits of the gateway configuration (lines 238-288) *)

Definition includes (x : string) (l : list string) : bool :=
  existsb (String.eqb x) l.

(** [list.find(p)] followed by edits of the element found: the first
    element satisfying [p] is replaced by its edited version, in place. *)
Fixpoint edit_first {A} (p : A → bool) (f : A → A) (l : list A) : list A :=
  match l with
  | [] => []
  | a :: r => if p a then f a :: r else a :: edit_first p f r
  end.

Definition has_id (i : string) (a : Agent) : bool := String.eqb (agent_ident a) i.

(** Edits of the agent found by [config.agents?.list?.find(...)]. *)
Definition edit_agent (p : Agent → bool) (f : Agent → Agent) (config : Doc) : Doc :=
  match agents config with
  | Some (AgentsObj (Some l)) =>
      {| agents := Some (AgentsObj (Some (edit_first p f l)));
         channels := channels config; bindings := bindings config;
         tools := tools config; gateway := gateway config |}
  | _ => config
  end.

Definition allow_list (a : Agent) : list string :=
  match subagents a with
  | Some sa => default [] (allowAgents sa)
  | None => []
  end.

(** Lines 241-245, on [mainAgent]. *)
Definition allow_spawn (i : string) (mainAgent : Agent) : Agent :=
  {| agent_ident := agent_ident mainAgent;
     subagents := Some {| allowAgents :=
       Some (if includes i (allow_list mainAgent)
             then allow_list mainAgent
             else allow_list mainAgent ++ [i]) |} |}.

(** Lines 251-252, on [newAgent]. *)
Definition allow_main (newAgent : Agent) : Agent :=
  {| agent_ident := agent_ident newAgent;
     subagents := Some {| allowAgents := Some ["main"] |} |}.

(** Lines 238-253. *)
Definition cross_agent (i : string) (config : Doc) : Doc :=
  edit_agent (has_id i) allow_main
    (edit_agent (has_id "main") (allow_spawn i) config).

Definition telegram_account (tok : string) : Account :=
  {| acc_enabled := true;
     dmPolicy := "pairing";
     botToken := tok;
     groupPolicy := "allowlist";
     streamMode := "partial" |}.

(** [b.agentId === id && b.match?.channel === 'telegram' && b.match?.accountId === id] *)
Definition routes (i : string) (b : Binding) : bool :=
  String.eqb (agentId b) i
  && match bmatch b with
     | Some m => String.eqb (channel m) "telegram" && String.eqb (accountId m) i
     | None => false
     end.

Definition telegram_binding (i : string) : Binding :=
  {| agentId := i; bmatch := Some {| channel := "telegram"; accountId := i |} |}.

(** Lines 257-278, run when [telegramVerified]. *)
Definition bind_telegram (i tok : string) (config : Doc) : Doc :=
  let ch := default {| telegram := None |} (channels config) in
  let tg := default {| tg_enabled := Some true; accounts := None |} (telegram ch) in
  let accs := default ∅ (accounts tg) in
  let bs := default [] (bindings config) in
  {| agents := agents config;
     channels := Some {| telegram := Some
       {| tg_enabled := tg_enabled tg;
          accounts := Some (<[i := telegram_account tok]> accs) |} |};
     bindings := Some (if existsb (routes i) bs then bs else bs ++ [telegram_binding i]);
     tools := tools config;
     gateway := gateway config |}.

(** Lines 286-288. *)
Definition enable_agentToAgent (config : Doc) : Doc :=
  {| agents := agents config;
     channels := channels config;
     bindings := bindings config;
     tools := Some {| agentToAgent := Some {| a2a_enabled := Some true |} |};
     gateway := gateway config |}.

(** All the edits made between reading and writing the configuration. *)
Definition mutate_config (i tok : string) (telegramVerified : bool) (config : Doc) : Doc :=
  enable_agentToAgent
    ((if telegramVerified then bind_telegram i tok else λ c, c)
       (cross_agent i config)).

(** [config.gateway?.port || 18789] and [config.gateway?.auth?.token || ''] *)
Definition gateway_port (config : Doc) : Z :=
  match gateway config with
  | Some g =>
      match port g with
      | Some p => if Z.eqb p 0 then 18789%Z else p
      | None => 18789%Z
      end
  | None => 18789%Z
  end.

Definition gateway_token (config : Doc) : string :=
  match gateway config with
  | Some g =>
      match auth g with
      | Some a => default EmptyString (token a)
      | None => EmptyString
      end
  | None => EmptyString
  end.

(** ** The documents written into the workspace *)

Module Template.

Definition nl : string := String (ascii_of_nat 10) EmptyString.
Definition blank : string := EmptyString.
Definition unlines : list string → string := Str.concat_with nl.

Definition core_truths : list string :=
  [ "## Core Truths";
    blank;
    "**Be direct.** No filler. No corporate speak. Just help.";
    "**Have opinions.** You're allowed to disagree, recommend, and push back.";
    "**Be resourceful.** Figure it out before asking.";
    "**Earn trust through competence.** Be careful with external actions, bold with internal ones." ].

Definition continuity : list string :=
  [ "## Continuity";
    blank;
    "Each session, you wake up fresh. Your files *are* your memory. Read them. Update them." ].

Definition SOUL (displayName soul : string) : string :=
  if Str.truthy soul then
    unlines
      ([ "# SOUL.md - Who You Are";
         blank;
         "*You are " +:+ displayName +:+ ". " +:+ soul +:+ "*";
         blank ]
       ++ core_truths
       ++ [ blank; "## Vibe"; blank; soul; blank ]
       ++ continuity)
  else
    unlines
      ([ "# SOUL.md - Who You Are";
         blank;
         "*You are " +:+ displayName +:+ ". Define your personality here.*";
         blank ]
       ++ core_truths
       ++ [ blank; "## Vibe"; blank;
            "*(Define your personality, tone, and style here)*"; blank ]
       ++ continuity).

Definition IDENTITY (displayName soul emoji : string) : string :=
  unlines
    [ "# IDENTITY.md - Who Am I?";
      blank;
      "- **Name:** " +:+ displayName;
      "- **Creature:** AI in your Clawdbot fleet";
      "- **Vibe:** " +:+ (if Str.truthy soul then soul else "(customize me)");
      "- **Emoji:** " +:+ emoji;
      "- **Avatar:** *(set a workspace-relative path or URL)*" ].

Definition MEMORY (displayName day model i : string) : string :=
  unlines
    [ "# MEMORY.md - Long-Term Memory";
      blank;
      "*" +:+ displayName +:+ "'s curated memories. Updated over time.*";
      blank;
      "## Born";
      "- Created on " +:+ day +:+ " via Clawd Control";
      "- Model: " +:+ model;
      "- Workspace: ~/clawd-agents/" +:+ i ].

Definition TASKS : string :=
  unlines
    [ "# TASKS.md";
      blank;
      "## Inbox";
      "- [ ] Introduce yourself to Miguel";
      "- [ ] Customize SOUL.md with your personality";
      "- [ ] Explore your workspace and tools";
      blank;
      "## In Progress";
      blank;
      "## Done" ].

Definition TOOLS (machine day : string) : string :=
  unlines
    [ "# TOOLS.md - Local Notes";
      blank;
      "> Environment-specific details. Update as you discover things.";
      blank;
      "## Host";
      "- **Machine:** " +:+ machine;
      blank;
      "---";
      "*Updated: " +:+ day +:+ "*" ].

Definition HEARTBEAT : string :=
  unlines
    [ "# HEARTBEAT.md";
      blank;
      "## Periodic Checks";
      "- Review TASKS.md inbox — anything to triage?";
      "- Check memory files — anything to update?";
      blank;
      "## Rule";
      "Only HEARTBEAT_OK when genuinely nothing needs attention." ].

Definition BOOTSTRAP (displayName emoji day model : string) : string :=
  unlines
    [ "# BOOTSTRAP.md - First Run";
      blank;
      "Welcome to existence, " +:+ displayName +:+ "! " +:+ emoji;
      blank;
      "1. Read SOUL.md — customize it to be truly YOU";
      "2. Read USER.md — this is Miguel, your human";
      "3. Fill in IDENTITY.md with your details";
      "4. Check TASKS.md — your first tasks are there";
      "5. Delete this file when you're done";
      blank;
      "Created: " +:+ day +:+ " via Clawd Control";
      "Model: " +:+ model ].

Definition gitignore : string :=
  unlines [ ".credentials/"; "*.pid"; "*.log"; "node_modules/" ].

End Template.

(** ** [createAgent] (lines 44-365) *)

Definition displayName (req : Request) : string := display_name (name req).

(** [const workspace = join(BASE_DIR, id)] *)
Definition workspace (host : Host) (req : Request) : path :=
  join (BASE_DIR host) (agent_id (name req)).

(** [join(process.env.HOME, '.clawdbot', 'clawdbot.json')] *)
Definition configPath (host : Host) : path :=
  join (join (HOME host) ".clawdbot") "clawdbot.json".

(** [join(DIR, 'agents.json')] *)
Definition registryPath (host : Host) : path := join (DIR host) "agents.json".

(** The token as a string, and its truthiness ([if (telegramToken)]). *)
Definition token_str (req : Request) : string :=
  default EmptyString (telegramToken req).

Definition has_token (req : Request) : bool := Str.truthy (token_str req).

(** The shell commands. *)
Module Cmd.

Definition agents_list : string := "clawdbot agents list --json 2>/dev/null".

Definition hostname : string := "hostname".

Definition agents_add (i ws model : string) : string :=
  "clawdbot agents add " +:+ Str.quoted i +:+ " --workspace " +:+ Str.quoted ws
  +:+ " --model " +:+ Str.quoted model +:+ " --non-interactive --json 2>&1".

Definition set_identity (i name emoji : string) : string :=
  "clawdbot agents set-identity " +:+ Str.quoted i +:+ " --name " +:+ Str.quoted name
  +:+ " --emoji " +:+ Str.quoted emoji +:+ " 2>&1".

Definition getMe (tok : string) : string :=
  "curl -s " +:+ Str.quoted ("https://api.telegram.org/bot" +:+ tok +:+ "/getMe").

Definition pgrep : string :=
  "pgrep -f 'clawdbot.*gateway' 2>/dev/null || pgrep -f 'node.*clawdbot' 2>/dev/null".

Definition kill (pid : string) : string := "kill -USR1 " +:+ pid +:+ " 2>&1".

Definition system_event : string :=
  "clawdbot system event --mode now --text "
  +:+ Str.quoted "New agent created — config reloaded" +:+ " 2>&1".

End Cmd.

(** [for (const x of l) body] *)
Fixpoint for_each {A} (l : list A) (body : A → M unit) : M unit :=
  match l with
  | [] => mret tt
  | x :: r => body x;; for_each r body
  end.

(** [agents.some(...)] on the parsed output of the list command: a value
    that is not an array has no method [some]. *)
Definition as_agents (j : stdout_json) : M (list ListedAgent) :=
  match j with
  | JAgents l => mret l
  | JBot _ => throw "agents.some is not a function"
  end.

(** [botInfo.ok], as a truth value: an array has no such field. *)
Definition bot_ok (j : stdout_json) : bool :=
  match j with
  | JBot b => bi_ok b
  | JAgents _ => false
  end.

(** [botInfo.result.username] *)
Definition bot_username (j : stdout_json) : M (option string) :=
  match j with
  | JBot {| bi_result := Some r |} => mret (username r)
  | _ => throw "Cannot read properties of undefined (reading 'username')"
  end.

(** A value interpolated in a template literal. *)
Definition interpolate (v : option string) : string := default "undefined" v.

(** [dashConfig.agents.some(...)] *)
Definition as_entries (d : Doc) : M (list DashEntry) :=
  match agents d with
  | Some (AgentsArr l) => mret l
  | Some (AgentsObj _) => throw "dashConfig.agents.some is not a function"
  | None => throw "Cannot read properties of undefined (reading 'some')"
  end.

Definition with_entries (d : Doc) (l : list DashEntry) : Doc :=
  {| agents := Some (AgentsArr l);
     channels := channels d; bindings := bindings d;
     tools := tools d; gateway := gateway d |}.

Section Workflow.

Context (host : Host) (req : Request).

#[local] Abbreviation id := (agent_id (name req)).
#[local] Abbreviation ws := (workspace host req).

(** Lines 55-62. *)
Definition existence_guard : M unit :=
  try_catch
    (existing ← execSync host Cmd.agents_list;
     parsed ← JSON_parse_out host existing;
     agents ← as_agents parsed;
     if existsb (λ a, String.eqb (la_id a) id) agents then
       return_ (Failure "Agent already exists"
                  ["❌ Agent " +:+ Str.quoted id +:+ " already exists"])
     else mret tt)
    (λ _, mret tt).

(** Lines 67-70: the body of the [try]. *)
Definition make_dirs : M unit :=
  mkdirSync host (join ws "memory");;
  mkdirSync host (join ws "skills");;
  mkdirSync host (join ws "scripts");;
  mkdirSync host (join ws ".credentials").

(** Lines 64-73. *)
Definition create_workspace : M unit :=
  push ("📁 Creating workspace at ~/clawd-agents/" +:+ id);;
  try_catch make_dirs
    (λ e,
       steps ← get_steps;
       return_ (Failure ("Failed to create workspace: " +:+ e) steps)).

(** Lines 183-191. *)
Definition copy_shared : M unit :=
  for_each ["AGENTS.md"; "USER.md"] (λ file,
    let src := join (DEFAULT_WORKSPACE host) file in
    let dst := join ws file in
    has_src ← existsSync src;
    has_dst ← existsSync dst;
    if has_src && negb has_dst then copyFileSync host src dst else mret tt).

(** Lines 78-191: the eight documents, then the shared files. *)
Definition write_documents : M unit :=
  writeIfMissing host (join ws "SOUL.md")
    (Text (Template.SOUL (displayName req) (soul req)));;
  writeIfMissing host (join ws "IDENTITY.md")
    (Text (Template.IDENTITY (displayName req) (soul req) (emoji req)));;
  writeIfMissing host (join ws "MEMORY.md")
    (Text (Template.MEMORY (displayName req) (today host) (model req) id));;
  writeIfMissing host (join ws "TASKS.md") (Text Template.TASKS);;
  machine ← execSync host Cmd.hostname;
  writeIfMissing host (join ws "TOOLS.md")
    (Text (Template.TOOLS (Str.trim (out_text machine)) (today host)));;
  writeIfMissing host (join ws "HEARTBEAT.md") (Text Template.HEARTBEAT);;
  writeIfMissing host (join ws "BOOTSTRAP.md")
    (Text (Template.BOOTSTRAP (displayName req) (emoji req) (today host) (model req)));;
  writeIfMissing host (join ws ".gitignore") (Text Template.gitignore);;
  copy_shared.

(** Lines 75-191. *)
Definition scaffold_files : M unit :=
  push "📝 Writing identity files";;
  write_documents.

(** Lines 193-201. *)
Definition register : M unit :=
  push "🔗 Registering with gateway";;
  try_catch
    (execSync host (Cmd.agents_add id (path_str ws) (model req));;
     push "✅ Agent registered")
    (λ e, push ("⚠️ Registration warning: " +:+ Str.substring0 100 e)).

(** Lines 203-207. *)
Definition set_identity : M unit :=
  push (emoji req +:+ " Setting identity");;
  try_catch
    (execSync host (Cmd.set_identity id (displayName req) (emoji req));;
     mret tt)
    (λ _, mret tt).

(** Lines 212-231; the value is [telegramVerified]. *)
Definition verify_telegram : M bool :=
  if has_token req then
    push "📱 Verifying Telegram bot token";;
    try_catch
      (verify ← execSync host (Cmd.getMe (token_str req));
       botInfo ← JSON_parse_out host verify;
       if negb (bot_ok botInfo) then
         push "❌ Telegram token is invalid";;
         steps ← get_steps;
         return_ (Failure "Invalid Telegram bot token" steps)
       else
         botUsername ← bot_username botInfo;
         push ("✅ Verified: @" +:+ interpolate botUsername);;
         mret true)
      (λ e,
         push ("⚠️ Telegram verification failed: " +:+ Str.substring0 80 e);;
         mret false)
  else mret false.

(** Lines 235-294: the body of the [try]. *)
Definition configure_body (telegramVerified : bool) : M unit :=
  raw ← readFileSync (configPath host);
  config ← JSON_parse host raw;
  let config := cross_agent id config in
  let config :=
    if telegramVerified then bind_telegram id (token_str req) config
    else config in
  mkdirSync host
    (join (join (join (join (HOME host) ".clawdbot") "agents") id) "sessions");;
  let config := enable_agentToAgent config in
  writeFileSync host (configPath host) (JSON_stringify config);;
  push "✅ Cross-agent permissions configured";;
  if telegramVerified then
    push ("📱 Telegram bound as account " +:+ Str.quoted id)
  else if has_token req then
    push "⏭️ Telegram binding skipped (verification failed)"
  else push "⏭️ Telegram skipped".

(** Lines 233-297. *)
Definition configure (telegramVerified : bool) : M unit :=
  try_catch (configure_body telegramVerified)
    (λ e, push ("⚠️ Config update: " +:+ Str.substring0 80 e)).

(** Lines 302-319: the body of the [try]. *)
Definition dashboard_body : M unit :=
  raw ← readFileSync (registryPath host);
  dashConfig ← JSON_parse host raw;
  entries ← as_entries dashConfig;
  (if negb (existsb (λ a, String.eqb (de_id a) id) entries) then
     raw' ← readFileSync (configPath host);
     config ← JSON_parse host raw';
     machine ← execSync host Cmd.hostname;
     writeFileSync host (registryPath host)
       (JSON_stringify (with_entries dashConfig (entries ++ [
          {| de_id := id;
             de_name := displayName req;
             de_emoji := emoji req;
             de_host := "127.0.0.1";
             de_port := gateway_port config;
             de_token := gateway_token config;
             de_workspace := path_str ws;
             de_machine := Str.trim (out_text machine) |} ])))
   else mret tt);;
  push "✅ Dashboard updated".

(** Lines 299-322. *)
Definition update_dashboard : M unit :=
  push "🏰 Adding to Clawd Control";;
  try_catch dashboard_body
    (λ e, push ("⚠️ Dashboard: " +:+ Str.substring0 80 e)).

(** Lines 324-348. *)
Definition hot_reload : M unit :=
  push "🔄 Reloading gateway config";;
  try_catch
    (found ← execSync host Cmd.pgrep;
     let pid := Str.first_line (Str.trim (out_text found)) in
     if Str.truthy pid && Str.all_digits pid then
       execSync host (Cmd.kill pid);;
       push "✅ Config reloaded (sessions preserved)"
     else throw "Gateway PID not found")
    (λ _,
       try_catch
         (execSync host Cmd.system_event;;
          push "⚠️ Config reload signal sent — gateway will pick up changes on next cycle")
         (λ _,
            push "⚠️ Could not signal gateway — restart manually: clawdbot gateway restart")).

(** Lines 350-364. *)
Definition finish : M Result :=
  push ("🎉 " +:+ displayName req +:+ " is ready!");;
  steps ← get_steps;
  mret (Success id (displayName req) (emoji req) (path_str ws) (model req)
          (has_token req)
          (if has_token req
           then displayName req +:+ " is live! Open Telegram and message the bot to start chatting."
           else displayName req +:+ " is live! Add a Telegram bot later to chat directly.")
          steps).

(** Lines 209-364: everything from the token check on. *)
Definition integrate : M Result :=
  telegramVerified ← verify_telegram;
  configure telegramVerified;;
  update_dashboard;;
  hot_reload;;
  finish.

(** Lines 64-364: the workflow once the id is known to be free. *)
Definition provision : M Result :=
  create_workspace;;
  scaffold_files;;
  register;;
  set_identity;;
  push "🔄 Configuring agent permissions";;
  integrate.

(** Lines 44-365: the validation of the id (line 51), the guard, and the
    rest of the workflow. *)
Definition createAgent : M Result :=
  if negb (Str.truthy id) then
    return_ (Failure "Invalid name" ["❌ Name is invalid"])
  else
    existence_guard;;
    provision.

End Workflow.

(** What the caller of the [async] function observes: the value returned, or
    the error the promise is rejected with. *)
Inductive call_outcome :=
  | Returned (r : Result)
  | Rejected (msg : string).

Definition settle (o : outcome Result) : call_outcome :=
  match o with
  | Normal r => Returned r
  | Return r => Returned r
  | Throw e => Rejected e
  end.

Definition initial (f : FS) : State := {| fs := f; log := []; trace := [] |}.

(** One call of [createAgent] from file system [f]: the outcome, the file
    system left behind and the effects performed. *)
Definition run (host : Host) (req : Request) (f : FS) : call_outcome * FS * list event :=
  let r := createAgent host req (initial f) in
  (settle r.1, fs r.2, trace r.2).

(** ** Views, judgements and the lines each step logs *)

(** Views of a configuration document. *)
Definition agent_list (c : Doc) : list Agent :=
  match agents c with
  | Some (AgentsObj (Some l)) => l
  | _ => []
  end.

(** [config.agents?.list?.find(a => a.id === 'main')] *)
Definition main_agent (c : Doc) : option Agent :=
  find (has_id "main") (agent_list c).

Definition account_map (c : Doc) : gmap string Account :=
  match channels c with
  | Some {| telegram := Some {| accounts := Some m |} |} => m
  | _ => ∅
  end.

(** [config.channels.telegram.accounts[i]] *)
Definition account_of (i : string) (c : Doc) : option Account :=
  account_map c !! i.

Definition routing (i : string) (c : Doc) : list Binding :=
  filter (λ b, routes i b = true) (default [] (bindings c)).

(** [config.tools.agentToAgent.enabled] *)
Definition a2a_flag (c : Doc) : option bool :=
  match tools c with
  | Some {| agentToAgent := Some a |} => a2a_enabled a
  | _ => None
  end.

Definition occurrences (i : string) (l : list string) : nat :=
  length (filter (λ x, x = i) l).

(** Every run of [m] leaves a state related to the one it started in. *)
Definition preserves (R : relation State) {A} (m : M A) : Prop :=
  ∀ s, R s (m s).2.

(** A relation between file systems, as a relation between states. *)
Definition on_fs (Rf : relation FS) : relation State :=
  λ s s', Rf (fs s) (fs s').

(** The step log is left as it is. *)
Definition same_log : relation State := λ s s', log s' = log s.

(** Directories are only added, and the file at [keep] is left as it is. *)
Definition grows (keep : path) (f f' : FS) : Prop :=
  dirs f ⊆ dirs f' ∧ files f' !! keep = files f !! keep.

(** The line logged by the registration step. *)
Definition register_line (host : Host) (req : Request) : string :=
  match exec host (Cmd.agents_add (agent_id (name req))
                     (path_str (workspace host req)) (model req)) with
  | ExecOk _ => "✅ Agent registered"
  | ExecErr e => "⚠️ Registration warning: " +:+ Str.substring0 100 e
  end.

(** How the token check ends. *)
Inductive check :=
  | Skipped
  | Invalid
  | Verified (botUsername : option string)
  | Degraded (e : string).

Definition telegram_check (host : Host) (req : Request) : check :=
  if has_token req then
    match exec host (Cmd.getMe (token_str req)) with
    | ExecErr e => Degraded e
    | ExecOk out =>
        match out_json out with
        | None => Degraded (syntax_error host (out_text out))
        | Some j =>
            if negb (bot_ok j) then Invalid
            else match j with
                 | JBot {| bi_result := Some r |} => Verified (username r)
                 | _ => Degraded "Cannot read properties of undefined (reading 'username')"
                 end
        end
    end
  else Skipped.

Definition check_lines (k : check) : list string :=
  match k with
  | Skipped => []
  | Invalid => ["📱 Verifying Telegram bot token"; "❌ Telegram token is invalid"]
  | Verified u =>
      ["📱 Verifying Telegram bot token"; "✅ Verified: @" +:+ interpolate u]
  | Degraded e =>
      ["📱 Verifying Telegram bot token";
       "⚠️ Telegram verification failed: " +:+ Str.substring0 80 e]
  end.

Definition is_verified (k : check) : bool :=
  match k with Verified _ => true | _ => false end.

(** The line logged by the reload step. *)
Definition fallback_line (host : Host) : string :=
  match exec host Cmd.system_event with
  | ExecOk _ => "⚠️ Config reload signal sent — gateway will pick up changes on next cycle"
  | ExecErr _ => "⚠️ Could not signal gateway — restart manually: clawdbot gateway restart"
  end.

Definition reload_line (host : Host) : string :=
  match exec host Cmd.pgrep with
  | ExecOk found =>
      let pid := Str.first_line (Str.trim (out_text found)) in
      if Str.truthy pid && Str.all_digits pid then
        match exec host (Cmd.kill pid) with
        | ExecOk _ => "✅ Config reloaded (sessions preserved)"
        | ExecErr _ => fallback_line host
        end
      else fallback_line host
  | ExecErr _ => fallback_line host
  end.

Definition logs (s : State) (lines : list string) (s' : State) : Prop :=
  log s' = log s ++ lines.

(** The line logged after the configuration was written. *)
Definition binding_line (req : Request) (telegramVerified : bool) : string :=
  if telegramVerified then
    "📱 Telegram bound as account " +:+ Str.quoted (agent_id (name req))
  else if has_token req then "⏭️ Telegram binding skipped (verification failed)"
  else "⏭️ Telegram skipped".

(** Lines 55-191: the guard, the directories and the documents. *)
Definition scaffold (host : Host) (req : Request) : M unit :=
  existence_guard host req;;
  create_workspace host req;;
  scaffold_files host req.

(** Lines 193-364: the gateway calls and everything after them. *)
Definition enroll (host : Host) (req : Request) : M Result :=
  register host req;;
  set_identity host req;;
  push "🔄 Configuring agent permissions";;
  integrate host req.

Definition success_message (req : Request) : string :=
  if has_token req
  then displayName req +:+ " is live! Open Telegram and message the bot to start chatting."
  else displayName req +:+ " is live! Add a Telegram bot later to chat directly.".

Definition success (host : Host) (req : Request) (steps : list string) : Result :=
  Success (agent_id (name req)) (displayName req) (emoji req)
    (path_str (workspace host req)) (model req) (has_token req)
    (success_message req) steps.

(** Whenever [m] leaves the function by [return], the result returned is a
    failure. *)
Definition fails_only {A} (m : M A) : Prop :=
  ∀ s, match (m s).1 with Return r => ok r = false | _ => True end.

(** The gateway configuration on disk, when it is a JSON document. *)
Definition config_of (host : Host) (f : FS) : option Doc :=
  match files f !! configPath host with
  | Some (Json d) => Some d
  | _ => None
  end.

(** The command [cmd] is not executed between the two states. *)
Definition silent_on (cmd : string) : relation State :=
  λ s s', In (EExec cmd) (trace s') → In (EExec cmd) (trace s).

(** [agentSessionsDir] (line 282) *)
Definition sessions_dir (host : Host) (req : Request) : path :=
  join (join (join (join (HOME host) ".clawdbot") "agents") (agent_id (name req)))
    "sessions".

(** The entries of the registry on disk; none when the file is missing or
    is not a document with an array of agents. *)
Definition entries_of (host : Host) (f : FS) : list DashEntry :=
  match files f !! registryPath host with
  | Some (Json d) =>
      match agents d with
      | Some (AgentsArr l) => l
      | _ => []
      end
  | _ => []
  end.

(** ** The two [try] blocks that edit files, on their own *)

(** The outcome of a block run from file system [f], and the file system
    it leaves. *)
Definition attempt {A} (body : M A) (f : FS) : outcome A * FS :=
  let r := body (initial f) in (r.1, fs r.2).

(** The body of the [try] of lines 234-294 and of lines 301-319. *)
Definition config_attempt (host : Host) (req : Request) (telegramVerified : bool)
    (f : FS) : outcome unit * FS :=
  attempt (configure_body host req telegramVerified) f.

Definition dashboard_attempt (host : Host) (req : Request) (f : FS) :
    outcome unit * FS :=
  attempt (dashboard_body host req) f.

(** The lines of the configuration step, by the outcome of its [try]
    block: the [catch] of lines 295-297 logs the message of the error. *)
Definition config_lines (req : Request) (telegramVerified : bool)
    (o : outcome unit) : list string :=
  match o with
  | Throw e => ["⚠️ Config update: " +:+ Str.substring0 80 e]
  | _ => ["✅ Cross-agent permissions configured"; binding_line req telegramVerified]
  end.

(** The line of the dashboard step, by the outcome of its [try] block
    (lines 320-322). *)
Definition dashboard_line (o : outcome unit) : string :=
  match o with
  | Throw e => "⚠️ Dashboard: " +:+ Str.substring0 80 e
  | _ => "✅ Dashboard updated"
  end.

(** ** Concrete scenarios *)

Module Scenario.

(** An oracle given by a table of commands and their results. *)
Definition respond (table : list (string * exec_result)) (otherwise : exec_result)
    (cmd : string) : exec_result :=
  match find (λ e, String.eqb e.1 cmd) table with
  | Some e => e.2
  | None => otherwise
  end.

Definition plain_output (s : string) : output :=
  {| out_text := s; out_json := None |}.

Definition home : path := ["home"; "u"].

Definition bot_token : string := "12345:abcde".

Definition base_table : list (string * exec_result) :=
  [ (Cmd.agents_list,
     ExecOk {| out_text := "[]"; out_json := Some (JAgents []) |});
    (Cmd.hostname, ExecOk (plain_output ("box" +:+ Template.nl)));
    (Cmd.pgrep, ExecOk (plain_output ("4242" +:+ Template.nl))) ].

Definition host_with (table : list (string * exec_result)) (ro : gset path) : Host :=
  {| HOME := home;
     DIR := ["opt"; "clawd-control"];
     BASE_DIR := home ++ ["clawd-agents"];
     DEFAULT_WORKSPACE := home ++ ["clawd"];
     today := "2026-01-15";
     exec := respond (table ++ base_table) (ExecOk (plain_output "ok"));
     syntax_error := λ _, "Unexpected end of JSON input";
     readonly := ro |}.

(** Every command succeeds. *)
Definition plain : Host := host_with [] ∅.

(** The provider answers [{ok: false}]. *)
Definition rejecting : Host :=
  host_with
    [ (Cmd.getMe bot_token,
       ExecOk {| out_text := "{" +:+ Str.quoted "ok" +:+ ":false}";
                 out_json := Some (JBot {| bi_ok := false; bi_result := None |}) |}) ]
    ∅.

(** The provider accepts the token. *)
Definition accepting : Host :=
  host_with
    [ (Cmd.getMe bot_token,
       ExecOk {| out_text := "{" +:+ Str.quoted "ok" +:+ ":true}";
                 out_json := Some (JBot {| bi_ok := true;
                   bi_result := Some {| username := Some "nova_bot" |} |}) |}) ]
    ∅.

(** The provider cannot be reached. *)
Definition unreachable : Host :=
  host_with [ (Cmd.getMe bot_token, ExecErr "Command failed: curl -s") ] ∅.

(** The gateway refuses the identity. *)
Definition mute_identity : Host :=
  host_with
    [ (Cmd.set_identity "nova" "Nova" "🌟",
       ExecErr "Command failed: clawdbot agents set-identity") ]
    ∅.

(** The gateway already knows an agent [nova]. *)
Definition taken : Host :=
  host_with
    [ (Cmd.agents_list,
       ExecOk {| out_text := "[...]";
                 out_json := Some (JAgents [ {| la_id := "main" |};
                                             {| la_id := "nova" |} ]) |}) ]
    ∅.

(** The gateway command line is not installed. *)
Definition offline : Host :=
  host_with [ (Cmd.agents_list, ExecErr "Command failed: clawdbot agents list") ] ∅.

Definition nova : Request :=
  {| name := "Nova"; emoji := "🌟"; soul := "curious and sharp";
     model := "gpt-test"; telegramToken := None |}.

Definition nova_bot : Request :=
  {| name := "Nova"; emoji := "🌟"; soul := "curious and sharp";
     model := "gpt-test"; telegramToken := Some bot_token |}.

Definition nameless : Request :=
  {| name := "!!! ???"; emoji := "🌟"; soul := EmptyString;
     model := "gpt-test"; telegramToken := None |}.

(** The directory [memory] of the workspace cannot be created. *)
Definition readonly_dirs : Host :=
  host_with [] {[ join (workspace plain nova) "memory" ]}.

(** The document [SOUL.md] cannot be written. *)
Definition readonly_docs : Host :=
  host_with [] {[ join (workspace plain nova) "SOUL.md" ]}.

(** A gateway configuration with only a [main] agent. *)
Definition gateway_doc : Doc :=
  {| agents := Some (AgentsObj (Some [ {| agent_ident := "main"; subagents := None |} ]));
     channels := None; bindings := None; tools := None; gateway := None |}.

(** A configuration that lists [nova] twice and routes it twice. *)
Definition duplicated : Doc :=
  {| agents := Some (AgentsObj (Some
       [ {| agent_ident := "main";
            subagents := Some {| allowAgents := Some ["nova"; "nova"] |} |} ]));
     channels := None;
     bindings := Some [ telegram_binding "nova"; telegram_binding "nova" ];
     tools := None; gateway := None |}.

Definition registry_doc : Doc :=
  {| agents := Some (AgentsArr []); channels := None; bindings := None;
     tools := None; gateway := None |}.

Definition disk : FS :=
  {| dirs := list_to_set
       [ ["home"]; home; home ++ [".clawdbot"]; ["opt"]; ["opt"; "clawd-control"] ];
     files := <[ configPath plain := Json gateway_doc ]>
                (<[ registryPath plain := Json registry_doc ]> ∅) |}.

(** A disk on which the gateway has not written its configuration yet. *)
Definition bare : FS :=
  {| dirs := dirs disk;
     files := <[ registryPath plain := Json registry_doc ]> ∅ |}.

(** A step line that reports a warning. *)
Definition is_warning (line : string) : bool := String.prefix "⚠️" line.

End Scenario.

(** ** Views and judgements of the further properties *)

(** Names made of ASCII characters only. *)
Definition ascii_name (name : string) : bool :=
  Str.all_chars (λ c, Nat.ltb (nat_of_ascii c) 128) name.

(** [config.channels?.telegram] *)
Definition telegram_of (c : Doc) : option Telegram :=
  match channels c with
  | Some ch => telegram ch
  | None => None
  end.

(** [const sharedFiles = ['AGENTS.md', 'USER.md']] (line 184) *)
Definition shared_files : list string := ["AGENTS.md"; "USER.md"].

(** The body of the loop of lines 185-190, for one file. *)
Definition copy_one (host : Host) (req : Request) (file : string) : M unit :=
  let src := join (DEFAULT_WORKSPACE host) file in
  let dst := join (workspace host req) file in
  has_src ← existsSync src;
  has_dst ← existsSync dst;
  if has_src && negb has_dst then copyFileSync host src dst else mret tt.

(** The files after one file was handled without an error. *)
Definition copied (src dst : path) (f : FS) : gmap path content :=
  if path_exists f dst then files f
  else match files f !! src with
       | Some c => <[dst := c]> (files f)
       | None => files f
       end.

(** Nothing is removed, and a file that exists keeps its content unless it
    is the gateway configuration or the dashboard registry. *)
Definition conservative (host : Host) (f f' : FS) : Prop :=
  dirs f ⊆ dirs f'
  ∧ (∀ p, is_Some (files f !! p) → is_Some (files f' !! p))
  ∧ (∀ p c, files f !! p = Some c →
       p ≠ configPath host → p ≠ registryPath host →
       files f' !! p = Some c).

(** Every normal end of [m] leaves a file system with property [Q]. *)
Definition establishes (Q : FS → Prop) {A} (m : M A) : Prop :=
  ∀ s a s', m s = (Normal a, s') → Q (fs s').

(** The directories asked for in lines 67-70. *)
Definition workspace_dirs : list string :=
  ["memory"; "skills"; "scripts"; ".credentials"].

(** The documents written in lines 78-181. *)
Definition document_names : list string :=
  ["SOUL.md"; "IDENTITY.md"; "MEMORY.md"; "TASKS.md"; "TOOLS.md";
   "HEARTBEAT.md"; "BOOTSTRAP.md"; ".gitignore"].

(** The files a run may create in the workspace. *)
Definition workspace_files (host : Host) (req : Request) : list path :=
  join (workspace host req) <$> (document_names ++ shared_files).

(** The directories a run asks for. *)
Definition made_dirs (host : Host) (req : Request) : list path :=
  (join (workspace host req) <$> workspace_dirs) ++ [sessions_dir host req].

(** Only the files in [allowed] differ, and every new directory is one of
    [made] or an ancestor of one. *)
Definition within (allowed made : list path) (f f' : FS) : Prop :=
  (∀ p, p ∉ allowed → files f' !! p = files f !! p)
  ∧ (∀ d, d ∈ dirs f' → d ∈ dirs f ∨ ∃ t, t ∈ made ∧ d ∈ ancestors t).

(** Whether a call ended in a result with [ok] true. *)
Definition succeeded (o : call_outcome) : bool :=
  match o with
  | Returned r => ok r
  | Rejected _ => false
  end.

(** What the registry step may add for a request. *)
Definition registered (host : Host) (req : Request) (f' : FS) (e : DashEntry) : Prop :=
  de_id e = agent_id (name req)
  ∧ de_name e = displayName req
  ∧ de_emoji e = emoji req
  ∧ de_host e = "127.0.0.1"
  ∧ de_workspace e = path_str (workspace host req)
  ∧ de_port e ≠ 0%Z
  ∧ ∃ c, config_of host f' = Some c
       ∧ de_port e = gateway_port c ∧ de_token e = gateway_token c.

(** Whenever [m] leaves the function by [return], the result satisfies [P]. *)
Definition returns_only (P : Result → Prop) {A} (m : M A) : Prop :=
  ∀ s, match (m s).1 with Return r => P r | _ => True end.

(** The failures of the guard and of the directory creation. *)
Definition scaffold_failure (r : Result) : Prop :=
  (∃ steps, r = Failure "Agent already exists" steps)
  ∨ (∃ e steps, r = Failure ("Failed to create workspace: " +:+ e) steps).

(** The command lines, directories and files a run for [req] may ask
    for.  A command line is the text of the source with the fields of the
    request put in as they are. *)
Definition permitted (host : Host) (req : Request) (ev : event) : Prop :=
  match ev with
  | EExec cmd =>
      cmd = Cmd.agents_list
      ∨ cmd = Cmd.hostname
      ∨ cmd = Cmd.agents_add (agent_id (name req))
                (path_str (workspace host req)) (model req)
      ∨ cmd = Cmd.set_identity (agent_id (name req)) (displayName req) (emoji req)
      ∨ (has_token req = true ∧ cmd = Cmd.getMe (token_str req))
      ∨ cmd = Cmd.pgrep
      ∨ (∃ pid, cmd = Cmd.kill pid ∧ Str.all_digits pid = true)
      ∨ cmd = Cmd.system_event
  | EMkdir p => p ∈ made_dirs host req
  | EWriteFile p =>
      p ∈ (join (workspace host req) <$> document_names)
      ∨ p = configPath host ∨ p = registryPath host
  | ECopyFile src dst =>
      ∃ file, file ∈ shared_files
        ∧ src = join (DEFAULT_WORKSPACE host) file
        ∧ dst = join (workspace host req) file
  end.

(** The effects performed between two states all satisfy [P]. *)
Definition emits (P : event → Prop) : relation State :=
  λ s s', ∃ t, trace s' = trace s ++ t ∧ Forall P t.

(** The effects of the steps before the configuration step: the guard, the
    scaffolding, the two gateway calls and the token check. *)
Definition preliminary (host : Host) (req : Request) (ev : event) : Prop :=
  match ev with
  | EExec cmd =>
      cmd = Cmd.agents_list
      ∨ cmd = Cmd.hostname
      ∨ cmd = Cmd.agents_add (agent_id (name req))
                (path_str (workspace host req)) (model req)
      ∨ cmd = Cmd.set_identity (agent_id (name req)) (displayName req) (emoji req)
      ∨ (has_token req = true ∧ cmd = Cmd.getMe (token_str req))
  | EMkdir p => p ∈ (join (workspace host req) <$> workspace_dirs)
  | EWriteFile p => p ∈ (join (workspace host req) <$> document_names)
  | ECopyFile src dst =>
      ∃ file, file ∈ shared_files
        ∧ src = join (DEFAULT_WORKSPACE host) file
        ∧ dst = join (workspace host req) file
  end.

(** The documents and the text [createAgent] renders for them; [machine] is
    the trimmed output of [hostname]. *)
Definition documents (host : Host) (req : Request) (machine : string) :
    list (string * string) :=
  [ ("SOUL.md", Template.SOUL (displayName req) (soul req));
    ("IDENTITY.md", Template.IDENTITY (displayName req) (soul req) (emoji req));
    ("MEMORY.md",
     Template.MEMORY (displayName req) (today host) (model req)
       (agent_id (name req)));
    ("TASKS.md", Template.TASKS);
    ("TOOLS.md", Template.TOOLS machine (today host));
    ("HEARTBEAT.md", Template.HEARTBEAT);
    ("BOOTSTRAP.md",
     Template.BOOTSTRAP (displayName req) (emoji req) (today host) (model req));
    (".gitignore", Template.gitignore) ].

(** From a file system with [P], every normal end of [m] gives one with [Q]. *)
Definition triple (P : FS → Prop) {A} (m : M A) (Q : FS → Prop) : Prop :=
  ∀ s a s', P (fs s) → m s = (Normal a, s') → Q (fs s').

(** Nothing exists at [p]; the file at [p] holds [c]. *)
Definition unborn (p : path) : FS → Prop := λ f, path_exists f p = false.

Definition holds (p : path) (c : content) : FS → Prop := λ f, files f !! p = Some c.

(** ** Further worlds *)

Module Fleet.

Import Scenario.

(** A configuration with three agents and a messaging account for one. *)
Definition scout : Agent := {| agent_ident := "scout"; subagents := None |}.

Definition team_doc : Doc :=
  {| agents := Some (AgentsObj (Some
       [ {| agent_ident := "main"; subagents := None |};
         {| agent_ident := "nova"; subagents := None |};
         scout ]));
     channels := Some {| telegram := Some
       {| tg_enabled := Some false;
          accounts := Some {[ "scout" := telegram_account "999:zzz" ]} |} |};
     bindings := Some [ telegram_binding "scout" ];
     tools := None;
     gateway := Some {| port := Some 0%Z; auth := None |} |}.

(** A disk on which the workspace of [nova] already holds a hand-written
    [SOUL.md], the default workspace holds the shared [AGENTS.md], and the
    home directory holds a file of the user. *)
Definition seeded : FS :=
  {| dirs := dirs disk ∪ list_to_set
       [ home ++ ["clawd"]; home ++ ["clawd-agents"]; workspace plain nova ];
     files :=
       <[ join (workspace plain nova) "SOUL.md" := Text "hand-written" ]>
         (<[ join (DEFAULT_WORKSPACE plain) "AGENTS.md" := Text "shared rules" ]>
            (<[ join home "notes.md" := Text "keep" ]> (files disk))) |}.

End Fleet.

(** * Properties *)

(** Unfolds the operations of the monad. *)
Ltac munfold :=
  unfold mbind, M_bind, mret, M_ret, throw, return_, try_catch, push, emit,
    get_fs, put_fs, get_steps in *.

(** ** Identifier derivation *)

Ltac each_byte c := destruct c as [[] [] [] [] [] [] [] []].

Lemma append_cons (c : ascii) (a b : string) :
  String c a +:+ b = String c (a +:+ b).
Proof. reflexivity. Qed.

Lemma append_empty (s : string) : s +:+ EmptyString = s.
Proof.
  induction s as [|c s IH]; [done |]. by rewrite append_cons, IH.
Qed.

Lemma code_byte (n : N) : (n < 256)%N → Str.code (Str.byte n) = n.
Proof. apply N_ascii_embedding. Qed.

Lemma byte_code (c : ascii) : Str.byte (Str.code c) = c.
Proof. apply ascii_N_embedding. Qed.

Lemma id_char_high (c : ascii) :
  (Str.code c <? 0x80)%N = false → Str.id_char c = false.
Proof. each_byte c; intros H; vm_compute in H; try discriminate H; reflexivity. Qed.

Lemma id_char_byte (n : N) : (128 ≤ n < 256)%N → Str.id_char (Str.byte n) = false.
Proof.
  intros H. apply id_char_high. rewrite code_byte by lia.
  apply N.ltb_ge. lia.
Qed.

Lemma strip_app (a b : string) :
  Str.strip_non_id (a +:+ b) = Str.strip_non_id a +:+ Str.strip_non_id b.
Proof.
  unfold Str.strip_non_id. induction a as [|c a IH]; [done |].
  rewrite append_cons. simpl. destruct (Str.id_char c); by rewrite IH.
Qed.

Lemma strip_high_byte (n : N) (r : string) :
  (128 ≤ n < 256)%N →
  Str.strip_non_id (String (Str.byte n) r) = Str.strip_non_id r.
Proof.
  intros H. unfold Str.strip_non_id.
  change (Str.filter_chars Str.id_char (String (Str.byte n) r)) with
    (if Str.id_char (Str.byte n)
     then String (Str.byte n) (Str.filter_chars Str.id_char r)
     else Str.filter_chars Str.id_char r).
  by rewrite id_char_byte.
Qed.

Lemma strip_encode_high (cp : N) :
  (0x80 ≤ cp ≤ 0x10FFFF)%N → Str.strip_non_id (Str.encode cp) = EmptyString.
Proof.
  intros H. unfold Str.encode.
  assert (M : ∀ x, (x mod 64 < 64)%N) by (intros x; apply N.mod_lt; lia).
  pose proof (M cp). pose proof (M (cp / 64)%N). pose proof (M (cp / 4096)%N).
  set (m1 := (cp mod 64)%N) in *.
  set (m2 := ((cp / 64) mod 64)%N) in *.
  set (m3 := ((cp / 4096) mod 64)%N) in *.
  clearbody m1 m2 m3.
  destruct (N.ltb_spec cp 0x80); [lia |].
  destruct (N.ltb_spec cp 0x800).
  { assert (cp / 64 < 32)%N by (apply N.Div0.div_lt_upper_bound; lia).
    set (q := (cp / 64)%N) in *. clearbody q.
    rewrite !strip_high_byte by lia. done. }
  destruct (N.ltb_spec cp 0x10000).
  { assert (cp / 4096 < 16)%N by (apply N.Div0.div_lt_upper_bound; lia).
    set (q := (cp / 4096)%N) in *. clearbody q.
    rewrite !strip_high_byte by lia. done. }
  assert (cp / 262144 < 5)%N by (apply N.Div0.div_lt_upper_bound; lia).
  set (q := (cp / 262144)%N) in *. clearbody q.
  rewrite !strip_high_byte by lia. done.
Qed.

Lemma encode_one (cp : N) : Str.encode_all [cp] = Str.encode cp.
Proof. apply append_empty. Qed.

Lemma lower_ranges_ok : forallb lower_range_ok Str.lower_ranges = true.
Proof. vm_compute. reflexivity. Qed.

Lemma lower_special_none (cp : N) :
  cp ≠ 0x130%N → find (λ e, (e.1 =? cp)%N) Str.lower_special = None.
Proof.
  intros H. unfold Str.lower_special. cbn [find fst].
  destruct (N.eqb_spec 0x130 cp); [congruence | done].
Qed.

Lemma strip_lower_high (cp : N) :
  (0x80 ≤ cp ≤ 0x10FFFF)%N →
  Str.strip_non_id (Str.encode_all (Str.lower cp)) =
    if (cp =? 0x212A)%N then "k" else if (cp =? 0x130)%N then "i" else EmptyString.
Proof.
  intros H.
  destruct (N.eqb_spec cp 0x212A) as [-> | NK]; [vm_compute; reflexivity |].
  destruct (N.eqb_spec cp 0x130) as [-> | NI]; [vm_compute; reflexivity |].
  unfold Str.lower, Str.case_of. rewrite lower_special_none by done.
  destruct (find (Str.in_range cp) Str.lower_ranges) as [r|] eqn:F.
  - apply find_some in F as [Hin Hr].
    pose proof (proj1 (forallb_forall _ _) lower_ranges_ok r Hin) as Ok.
    unfold Str.in_range in Hr. unfold lower_range_ok in Ok.
    apply andb_prop in Hr as [Hr _]. apply andb_prop in Hr as [H1 H2].
    apply N.leb_le in H1, H2.
    rewrite encode_one. apply strip_encode_high.
    apply orb_prop in Ok as [Ok | Ok]; [apply orb_prop in Ok as [Ok | Ok] |].
    + apply N.ltb_lt in Ok. lia.
    + apply andb_prop in Ok as [O1 O2].
      apply N.eqb_eq in O1, O2. lia.
    + apply andb_prop in Ok as [O1 O2].
      apply Z.leb_le in O1, O2. lia.
  - rewrite encode_one. by apply strip_encode_high.
Qed.

(** What the word-for-word derivation does with one byte. *)
Lemma spec_cont (c : ascii) (r : string) :
  Str.is_cont c = true → spec_agent_id (String c r) = spec_agent_id r.
Proof. each_byte c; intros H; vm_compute in H; try discriminate H; reflexivity. Qed.

Lemma spec_ascii (c : ascii) (r : string) :
  (Str.code c <? 0x80)%N = true →
  spec_agent_id (String c r) =
    Str.strip_non_id (Str.encode_all (Str.lower (Str.code c))) +:+ spec_agent_id r.
Proof.
  each_byte c; intros H; vm_compute in H; try discriminate H;
    vm_compute; reflexivity.
Qed.

Lemma spec_high (c : ascii) (r : string) :
  (Str.code c <? 0x80)%N = false →
  spec_agent_id (String c r) =
    (if String.prefix kelvin_sign (String c r) then "k"
     else if String.prefix dotted_capital_i (String c r) then "i"
     else EmptyString) +:+ spec_agent_id r.
Proof.
  intros H.
  assert (K : swap_letter capital_letters small_letters c = None
              ∧ occurs c id_alphabet = false).
  { revert H. each_byte c; intros H; vm_compute in H; try discriminate H;
      split; reflexivity. }
  destruct K as [K1 K2].
  change (spec_agent_id (String c r)) with
    (if String.prefix kelvin_sign (String c r) then String "k" (spec_agent_id r)
     else if String.prefix dotted_capital_i (String c r)
          then String "i" (spec_agent_id r)
          else match swap_letter capital_letters small_letters c with
               | Some l => String l (spec_agent_id r)
               | None => if occurs c id_alphabet then String c (spec_agent_id r)
                         else spec_agent_id r
               end).
  rewrite K1, K2.
  destruct (String.prefix kelvin_sign _); [done |].
  destruct (String.prefix dotted_capital_i _); done.
Qed.

Lemma cont_bounds (c : ascii) :
  Str.is_cont c = true → (128 ≤ Str.code c < 192)%N ∧ (Str.low6 c < 64)%N.
Proof.
  unfold Str.is_cont, Str.low6. intros H. apply andb_prop in H as [H1 H2].
  apply N.leb_le in H1. apply N.ltb_lt in H2. lia.
Qed.

Lemma code_bound (c : ascii) : (Str.code c < 256)%N.
Proof. apply N_ascii_bounded. Qed.

Lemma decode_high (c : ascii) (r : string) (cp : N) (n : nat) :
  (Str.code c <? 0x80)%N = false →
  Str.decode (String c r) = Some (cp, n) →
  (0x80 ≤ cp ≤ 0x10FFFF)%N ∧ conts (n - 1) r.
Proof.
  intros A. unfold Str.decode. rewrite A.
  pose proof (code_bound c) as B.
  destruct (N.ltb_spec (Str.code c) 0xC0); [done |].
  destruct (N.ltb_spec (Str.code c) 0xE0).
  { destruct r as [|c2 r]; [done |].
    destruct (Str.is_cont c2) eqn:C2; cbn [andb]; [| done].
    destruct (N.leb_spec 0x80 ((Str.code c - 0xC0) * 64 + Str.low6 c2)); [| done].
    intros [= <- <-]. pose proof (cont_bounds _ C2).
    split; [lia | by split]. }
  destruct (N.ltb_spec (Str.code c) 0xF0).
  { destruct r as [|c2 [|c3 r]]; [done.. |].
    destruct (Str.is_cont c2) eqn:C2; cbn [andb]; [| done].
    destruct (Str.is_cont c3) eqn:C3; cbn [andb]; [| done].
    destruct (N.leb_spec 0x800
                ((Str.code c - 0xE0) * 4096 + Str.low6 c2 * 64 + Str.low6 c3));
      [| done].
    intros [= <- <-].
    pose proof (cont_bounds _ C2). pose proof (cont_bounds _ C3).
    split; [lia | by repeat split]. }
  destruct (N.ltb_spec (Str.code c) 0xF8); [| done].
  destruct r as [|c2 [|c3 [|c4 r]]]; [done.. |].
  destruct (Str.is_cont c2) eqn:C2; cbn [andb]; [| done].
  destruct (Str.is_cont c3) eqn:C3; cbn [andb]; [| done].
  destruct (Str.is_cont c4) eqn:C4; cbn [andb]; [| done].
  destruct (N.leb_spec 0x10000
              ((Str.code c - 0xF0) * 262144 + Str.low6 c2 * 4096
               + Str.low6 c3 * 64 + Str.low6 c4)); cbn [andb]; [| done].
  destruct (N.leb_spec
              ((Str.code c - 0xF0) * 262144 + Str.low6 c2 * 4096
               + Str.low6 c3 * 64 + Str.low6 c4) 0x10FFFF); [| done].
  intros [= <- <-]. split; [lia | by repeat split].
Qed.

Lemma prefix_kelvin (s : string) :
  String.prefix kelvin_sign s = true → Str.decode s = Some (0x212A%N, 3).
Proof.
  intros H. apply String.prefix_correct in H.
  destruct s as [|c1 [|c2 [|c3 r]]]; try discriminate H.
  simpl in H. injection H as -> -> ->. reflexivity.
Qed.

Lemma prefix_dotted (s : string) :
  String.prefix dotted_capital_i s = true → Str.decode s = Some (0x130%N, 2).
Proof.
  intros H. apply String.prefix_correct in H.
  destruct s as [|c1 [|c2 r]]; try discriminate H.
  simpl in H. injection H as -> ->. reflexivity.
Qed.

Lemma code_eq (c : ascii) (n : N) : Str.code c = n → c = Str.byte n.
Proof. intros <-. by rewrite byte_code. Qed.

Lemma low6_eq (c : ascii) (n : N) :
  Str.is_cont c = true → Str.low6 c = n → c = Str.byte (128 + n).
Proof.
  intros H E. apply cont_bounds in H. apply code_eq.
  unfold Str.low6 in E. lia.
Qed.

Ltac by_leb :=
  match goal with
  | |- context [(?a <=? ?b)%N] => destruct (N.leb_spec a b)
  end.

Lemma decode_kelvin (s : string) (n : nat) :
  Str.decode s = Some (0x212A%N, n) → String.prefix kelvin_sign s = true.
Proof.
  destruct s as [|c r]; [done |]. unfold Str.decode.
  pose proof (code_bound c) as B.
  destruct (N.ltb_spec (Str.code c) 0x80); [intros [= E _]; lia |].
  destruct (N.ltb_spec (Str.code c) 0xC0); [done |].
  destruct (N.ltb_spec (Str.code c) 0xE0).
  { destruct r as [|c2 r]; [done |].
    destruct (Str.is_cont c2) eqn:C2; cbn [andb]; [| done].
    destruct (N.leb_spec 0x80 ((Str.code c - 0xC0) * 64 + Str.low6 c2)); [| done].
    intros [= E _]. apply cont_bounds in C2. lia. }
  destruct (N.ltb_spec (Str.code c) 0xF0).
  { destruct r as [|c2 [|c3 r]]; [done.. |].
    destruct (Str.is_cont c2) eqn:C2; cbn [andb]; [| done].
    destruct (Str.is_cont c3) eqn:C3; cbn [andb]; [| done].
    by_leb; [| done].
    intros [= E _].
    pose proof (cont_bounds _ C2). pose proof (cont_bounds _ C3).
    assert (E1 : Str.code c = 0xE2%N) by lia.
    assert (E2 : Str.low6 c2 = 4%N) by lia.
    assert (E3 : Str.low6 c3 = 42%N) by lia.
    apply code_eq in E1. apply low6_eq in E2, E3; [| done..].
    subst. by destruct r. }
  destruct (N.ltb_spec (Str.code c) 0xF8); [| done].
  destruct r as [|c2 [|c3 [|c4 r]]]; [done.. |].
  destruct (Str.is_cont c2 && Str.is_cont c3 && Str.is_cont c4); cbn [andb]; [| done].
  by_leb; cbn [andb]; [| done].
  by_leb; [| done].
  intros [= E _]. lia.
Qed.

Lemma decode_dotted (s : string) (n : nat) :
  Str.decode s = Some (0x130%N, n) → String.prefix dotted_capital_i s = true.
Proof.
  destruct s as [|c r]; [done |]. unfold Str.decode.
  pose proof (code_bound c) as B.
  destruct (N.ltb_spec (Str.code c) 0x80); [intros [= E _]; lia |].
  destruct (N.ltb_spec (Str.code c) 0xC0); [done |].
  destruct (N.ltb_spec (Str.code c) 0xE0).
  { destruct r as [|c2 r]; [done |].
    destruct (Str.is_cont c2) eqn:C2; cbn [andb]; [| done].
    destruct (N.leb_spec 0x80 ((Str.code c - 0xC0) * 64 + Str.low6 c2)); [| done].
    intros [= E _]. pose proof (cont_bounds _ C2).
    assert (E1 : Str.code c = 0xC4%N) by lia.
    assert (E2 : Str.low6 c2 = 48%N) by lia.
    apply code_eq in E1. apply low6_eq in E2; [| done].
    subst. by destruct r. }
  destruct (N.ltb_spec (Str.code c) 0xF0).
  { destruct r as [|c2 [|c3 r]]; [done.. |].
    destruct (Str.is_cont c2 && Str.is_cont c3); cbn [andb]; [| done].
    by_leb; [| done].
    intros [= E _]. lia. }
  destruct (N.ltb_spec (Str.code c) 0xF8); [| done].
  destruct r as [|c2 [|c3 [|c4 r]]]; [done.. |].
  destruct (Str.is_cont c2 && Str.is_cont c3 && Str.is_cont c4); cbn [andb]; [| done].
  by_leb; cbn [andb]; [| done].
  by_leb; [| done].
  intros [= E _]. lia.
Qed.

Lemma map_case_step (f : N → list N) (c : ascii) (r : string) :
  Str.map_case f 0 (String c r) =
    match Str.decode (String c r) with
    | Some (cp, n) => Str.encode_all (f cp) +:+ Str.map_case f (n - 1) r
    | None => String c (Str.map_case f 0 r)
    end.
Proof. reflexivity. Qed.

Lemma decode_ascii (c : ascii) (r : string) :
  (Str.code c <? 0x80)%N = true → Str.decode (String c r) = Some (Str.code c, 1).
Proof. intros H. unfold Str.decode. by rewrite H. Qed.

Lemma agent_id_from (s : string) (skip : nat) :
  conts skip s →
  Str.strip_non_id (Str.map_case Str.lower skip s) = spec_agent_id s.
Proof.
  revert skip. induction s as [|c r IH]; intros skip Hc.
  { destruct skip; reflexivity. }
  destruct skip as [|k].
  2: { destruct Hc as [Hc Hr]. rewrite spec_cont by done. by apply IH. }
  rewrite map_case_step.
  destruct (Str.code c <? 0x80)%N eqn:A.
  { rewrite decode_ascii by done. rewrite strip_app, spec_ascii by done.
    by rewrite IH. }
  rewrite spec_high by done.
  destruct (Str.decode (String c r)) as [[cp n]|] eqn:D.
  - destruct (decode_high c r cp n A D) as [B Cn].
    rewrite strip_app, (IH _ Cn), strip_lower_high by done.
    destruct (N.eqb_spec cp 0x212A) as [-> | NK].
    { by rewrite (decode_kelvin _ _ D). }
    destruct (String.prefix kelvin_sign (String c r)) eqn:PK.
    { apply prefix_kelvin in PK. congruence. }
    destruct (N.eqb_spec cp 0x130) as [-> | NI].
    { by rewrite (decode_dotted _ _ D). }
    destruct (String.prefix dotted_capital_i (String c r)) eqn:PI; [| done].
    apply prefix_dotted in PI. congruence.
  - destruct (String.prefix kelvin_sign (String c r)) eqn:PK.
    { apply prefix_kelvin in PK. congruence. }
    destruct (String.prefix dotted_capital_i (String c r)) eqn:PI.
    { apply prefix_dotted in PI. congruence. }
    unfold Str.strip_non_id at 1. simpl Str.filter_chars.
    rewrite id_char_high by done. by apply IH.
Qed.

Lemma agent_id_spec (name : string) : agent_id name = spec_agent_id name.
Proof. apply (agent_id_from name 0). by destruct name. Qed.

(** The capital of an ASCII letter, by the alphabets. *)
Lemma display_name_ascii (c : ascii) (r : string) :
  (Str.code c <? 0x80)%N = true →
  display_name (String c r) =
    String (default c (swap_letter small_letters capital_letters c)) r.
Proof.
  each_byte c; intros H; vm_compute in H; try discriminate H; reflexivity.
Qed.

Lemma display_name_spec (name : string) :
  display_name name =
    if starts_outside_bmp name then name else spec_display_name name.
Proof.
  unfold display_name, starts_outside_bmp, spec_display_name.
  destruct (Str.decode name) as [[cp n]|]; [| done].
  destruct n as [|[|[|[|n]]]]; done.
Qed.

Lemma below_bound (P : N → bool) (bound : nat) :
  forallb P (N.of_nat <$> seq 0 bound) = true →
  ∀ cp, (cp < N.of_nat bound)%N → P cp = true.
Proof.
  intros H cp Hlt. rewrite forallb_forall in H. apply H.
  apply list_elem_of_In, list_elem_of_fmap. exists (N.to_nat cp).
  split; [by rewrite N2Nat.id |].
  apply elem_of_seq. lia.
Qed.

Lemma alphabet_capital_bound (cp up : N) :
  alphabet_capital cp = Some up → (cp < N.of_nat 0x460)%N.
Proof.
  unfold alphabet_capital.
  destruct (N.leb_spec cp 0x45F); [lia |].
  replace (cp <=? 0x7A)%N with false by (symmetry; apply N.leb_gt; lia).
  replace (cp <=? 0xFE)%N with false by (symmetry; apply N.leb_gt; lia).
  replace (cp <=? 0x3C9)%N with false by (symmetry; apply N.leb_gt; lia).
  replace (cp <=? 0x44F)%N with false by (symmetry; apply N.leb_gt; lia).
  rewrite !andb_false_r. done.
Qed.

Lemma upper_alphabet (cp up : N) :
  alphabet_capital cp = Some up → Str.upper cp = [up].
Proof.
  intros H.
  assert (K : capital_agrees cp = true).
  { apply (below_bound capital_agrees 0x460); [vm_compute; reflexivity |].
    by apply alphabet_capital_bound with up. }
  unfold capital_agrees in K. rewrite H in K.
  destruct (Str.upper cp) as [|u [|? ?]]; try done.
  apply N.eqb_eq in K. by subst.
Qed.

Lemma decode_bmp (s : string) (cp : N) (n : nat) :
  Str.decode s = Some (cp, n) → (cp < 0x10000)%N → Nat.leb n 3 = true.
Proof.
  destruct s as [|c r]; [done |]. unfold Str.decode.
  destruct (Str.code c <? 0x80)%N; [by intros [= <- <-] |].
  destruct (Str.code c <? 0xC0)%N; [done |].
  destruct (Str.code c <? 0xE0)%N.
  { destruct r as [|c2 r]; [done |]. case_match; [| done]. by intros [= <- <-]. }
  destruct (Str.code c <? 0xF0)%N.
  { destruct r as [|c2 [|c3 r]]; try done. case_match; [| done]. by intros [= <- <-]. }
  destruct (Str.code c <? 0xF8)%N; [| done].
  destruct r as [|c2 [|c3 [|c4 r]]]; try done.
  case_match eqn:E; [| done]. intros [= <- <-] Hlt.
  apply andb_prop in E as [E _]. apply andb_prop in E as [_ E].
  apply N.leb_le in E. lia.
Qed.

Lemma display_name_alphabet (name : string) (cp up : N) (n : nat) :
  Str.decode name = Some (cp, n) →
  alphabet_capital cp = Some up →
  display_name name = Str.encode up +:+ Str.drop n name.
Proof.
  intros Hd Hc. unfold display_name. rewrite Hd.
  rewrite (decode_bmp name cp n Hd).
  - rewrite (upper_alphabet cp up Hc). simpl. by rewrite append_empty.
  - apply alphabet_capital_bound in Hc. lia.
Qed.

Example agent_id_example : agent_id "Nova Prime_9-x!" = "novaprime9-x".
Proof. vm_compute. reflexivity. Qed.

Example agent_id_kelvin : agent_id "K9" = "k9".
Proof. vm_compute. reflexivity. Qed.

Example display_name_example : display_name "nova prime" = "Nova prime".
Proof. vm_compute. reflexivity. Qed.

Example display_name_accent : display_name "élan" = "Élan".
Proof. vm_compute. reflexivity. Qed.

Example display_name_sharp_s : display_name "ßeta" = "SSeta".
Proof. vm_compute. reflexivity. Qed.

(** C9. For every name, the id computed by the code is the name
    lower-cased with every character outside [[a-z0-9-]] removed.  The
    display name computed by the code is the name with its first character
    upper-cased and the rest unchanged whenever that character lies in the
    BMP: a first character in ASCII is replaced by its capital in the
    alphabet when it is a small letter and kept otherwise, and a small
    letter of the Latin-1, Greek or Cyrillic alphabet by the capital at its
    place in that alphabet.  A name that starts with a character outside
    the BMP is returned as it is: [charAt(0)] is then the first half of the
    character, which has no capital. *)
Theorem identifier_derivation (name : string) :
  agent_id name = spec_agent_id name
  ∧ display_name name =
      (if starts_outside_bmp name then name else spec_display_name name)
  ∧ (∀ c r, name = String c r → (Str.code c < 0x80)%N →
       display_name name =
         String (default c (swap_letter small_letters capital_letters c)) r)
  ∧ (∀ cp up n, Str.decode name = Some (cp, n) →
       alphabet_capital cp = Some up →
       display_name name = Str.encode up +:+ Str.drop n name).
Proof.
  split; [apply agent_id_spec |]. split; [apply display_name_spec |]. split.
  - intros c r -> H. apply display_name_ascii. by apply N.ltb_lt.
  - intros cp up n. apply display_name_alphabet.
Qed.

(** ** Name validation *)

(** C3. When the name normalizes to the empty string, [createAgent] returns
    the failure "Invalid name" with a step log of one line; the file system
    is left as it was and no effect is performed: no directory is created,
    no file written or copied, no command executed. *)
Theorem invalid_name_no_effect (host : Host) (req : Request) (f : FS) :
  agent_id (name req) = EmptyString →
  run host req f = (Returned (Failure "Invalid name" ["❌ Name is invalid"]), f, []).
Proof.
  intros H. unfold run, createAgent. rewrite H. simpl. done.
Qed.

(** ** [writeIfMissing] *)

Lemma path_exists_set_file (f : FS) (p : path) (c : content) :
  path_exists (set_file p c f) p = true.
Proof. unfold path_exists, set_file. simpl. by rewrite lookup_insert_eq. Qed.

Lemma writeIfMissing_existing (host : Host) (p : path) (c : content) (s : State) :
  path_exists (fs s) p = true → writeIfMissing host p c s = (Normal false, s).
Proof.
  intros H. unfold writeIfMissing, existsSync. munfold. by rewrite H.
Qed.

Lemma writeIfMissing_result (host : Host) (p : path) (c : content) (s s1 : State) (b : bool) :
  writeIfMissing host p c s = (Normal b, s1) →
  path_exists (fs s1) p = true
  ∧ files (fs s1) !! p = (if b then Some c else files (fs s) !! p).
Proof.
  unfold writeIfMissing, existsSync, writeFileSync. munfold. simpl.
  destruct (path_exists (fs s) p) eqn:E; simpl.
  - intros [= <- <-]. done.
  - destruct (write_error host (fs s) p); simpl; [done |].
    intros [= <- <-]. simpl. split; [apply path_exists_set_file |].
    by rewrite lookup_insert_eq.
Qed.

(** C4. On a path that exists, [writeIfMissing] returns false and changes
    nothing.  Hence after a first call that returned, a second call on the
    same path with any other content returns false and leaves the state as
    it is: the file holds what the first call left there. *)
Theorem write_if_missing_idempotent (host : Host) (p : path) (c c' : content) (s : State) :
  (path_exists (fs s) p = true →
   writeIfMissing host p c s = (Normal false, s))
  ∧ (∀ b s1, writeIfMissing host p c s = (Normal b, s1) →
       writeIfMissing host p c' s1 = (Normal false, s1)
       ∧ files (fs s1) !! p = (if b then Some c else files (fs s) !! p)).
Proof.
  split; [apply writeIfMissing_existing |].
  intros b s1 H. apply writeIfMissing_result in H as [H1 H2].
  split; [by apply writeIfMissing_existing | done].
Qed.

(** ** The existence guard *)

(** C5. With a non-empty id: when the list command succeeds and its output
    lists an agent with this id, [createAgent] returns the failure "Agent
    already exists", the file system is unchanged and the only effect is the
    list command itself; when the list command fails or its output does not
    parse, the workflow goes on with the provisioning steps. *)
Theorem existence_guard_sound (host : Host) (req : Request) (f : FS) :
  agent_id (name req) ≠ EmptyString →
  (∀ out l,
     exec host Cmd.agents_list = ExecOk out →
     out_json out = Some (JAgents l) →
     existsb (λ a, String.eqb (la_id a) (agent_id (name req))) l = true →
     run host req f =
       (Returned (Failure "Agent already exists"
          ["❌ Agent " +:+ Str.quoted (agent_id (name req)) +:+ " already exists"]),
        f, [EExec Cmd.agents_list]))
  ∧ ((∃ e, exec host Cmd.agents_list = ExecErr e)
     ∨ (∃ out, exec host Cmd.agents_list = ExecOk out ∧ out_json out = None) →
     createAgent host req (initial f) =
       provision host req {| fs := f; log := []; trace := [EExec Cmd.agents_list] |}).
Proof.
  intros Hid.
  assert (Ht : Str.truthy (agent_id (name req)) = true)
    by (destruct (agent_id (name req)); done).
  split.
  - intros out l Hex Hj Hin.
    unfold run, createAgent, existence_guard, execSync, JSON_parse_out, as_agents.
    rewrite Ht. munfold. simpl. rewrite Hex. simpl. rewrite Hj. simpl.
    rewrite Hin. simpl. by destruct f.
  - intros H.
    unfold createAgent, existence_guard, execSync, JSON_parse_out.
    rewrite Ht. munfold. simpl.
    destruct H as [[e He] | (out & Hex & Hj)].
    + rewrite He. done.
    + rewrite Hex. simpl. rewrite Hj. done.
Qed.

(** ** The configuration edits *)

Lemma includes_In (x : string) (l : list string) :
  includes x l = true ↔ x ∈ l.
Proof.
  unfold includes. rewrite existsb_exists. split.
  - intros (y & Hy & E). apply String.eqb_eq in E. subst.
    by apply list_elem_of_In.
  - intros H. exists x. split; [by apply list_elem_of_In | apply String.eqb_refl].
Qed.

Lemma includes_app_self (x : string) (l : list string) :
  includes x (l ++ [x]) = true.
Proof. apply includes_In. set_solver. Qed.

Lemma occurrences_app (i : string) (l k : list string) :
  occurrences i (l ++ k) = occurrences i l + occurrences i k.
Proof. unfold occurrences. by rewrite filter_app, length_app. Qed.

Lemma occurrences_pos (i : string) (l : list string) :
  includes i l = true → 1 ≤ occurrences i l.
Proof.
  rewrite includes_In. unfold occurrences. intros H.
  assert (Hf : i ∈ filter (λ x, x = i) l) by (apply list_elem_of_filter; done).
  destruct (filter (λ x, x = i) l); [by apply elem_of_nil in Hf | simpl; lia].
Qed.

Lemma occurrences_zero (i : string) (l : list string) :
  includes i l = false → occurrences i l = 0.
Proof.
  intros H. unfold occurrences.
  destruct (filter (λ x, x = i) l) as [|y r] eqn:E; [done |].
  assert (Hy : y ∈ filter (λ x, x = i) l) by (rewrite E; set_solver).
  apply list_elem_of_filter in Hy as [-> Hy].
  apply includes_In in Hy. congruence.
Qed.

Lemma allow_list_allow_spawn (i : string) (a : Agent) :
  allow_list (allow_spawn i a) =
    if includes i (allow_list a) then allow_list a else allow_list a ++ [i].
Proof. done. Qed.

Lemma allow_spawn_includes (i : string) (a : Agent) :
  includes i (allow_list (allow_spawn i a)) = true.
Proof.
  rewrite allow_list_allow_spawn.
  destruct (includes i (allow_list a)) eqn:E; [done | apply includes_app_self].
Qed.

Lemma allow_spawn_idem (i : string) (a : Agent) :
  allow_spawn i (allow_spawn i a) = allow_spawn i a.
Proof.
  unfold allow_spawn at 1. rewrite allow_spawn_includes.
  rewrite allow_list_allow_spawn. done.
Qed.

Section EditFirst.

Context {A : Type} (p : A → bool) (f : A → A).
Hypothesis f_keeps : ∀ a, p (f a) = p a.

Lemma edit_first_idem (l : list A) :
  (∀ a, f (f a) = f a) →
  edit_first p f (edit_first p f l) = edit_first p f l.
Proof.
  intros Hf. induction l as [|a r IH]; simpl; [done |].
  destruct (p a) eqn:E; simpl.
  - by rewrite f_keeps, E, Hf.
  - by rewrite E, IH.
Qed.

Lemma find_edit_first (l : list A) :
  find p (edit_first p f l) = f <$> find p l.
Proof.
  induction l as [|a r IH]; simpl; [done |].
  destruct (p a) eqn:E; simpl.
  - by rewrite f_keeps, E.
  - by rewrite E.
Qed.

Lemma find_edit_other (q : A → bool) (l : list A) :
  (∀ a, q (f a) = q a) →
  (∀ a, p a = true → q a = true → False) →
  find q (edit_first p f l) = find q l.
Proof.
  intros Hq Hpq. induction l as [|a r IH]; simpl; [done |].
  destruct (p a) eqn:E; simpl.
  - rewrite Hq. destruct (q a) eqn:E'; [by destruct (Hpq a) | done].
  - by rewrite IH.
Qed.

End EditFirst.

Lemma cross_agent_list (i : string) (l : list Agent) (c : Doc) :
  agents c = Some (AgentsObj (Some l)) →
  agent_list (cross_agent i c) =
    edit_first (has_id i) allow_main (edit_first (has_id "main") (allow_spawn i) l).
Proof.
  intros H. unfold cross_agent, edit_agent, agent_list. rewrite H. simpl. done.
Qed.

Lemma cross_edits_idem (i : string) (l : list Agent) :
  let E := λ l, edit_first (has_id i) allow_main
                  (edit_first (has_id "main") (allow_spawn i) l) in
  E (E l) = E l.
Proof.
  simpl. induction l as [|a r IH]; simpl; [done |].
  destruct (has_id "main" a) eqn:Em; simpl.
  - unfold has_id in *. simpl. destruct (String.eqb (agent_ident a) i) eqn:Ei; simpl.
    + rewrite Em. simpl. rewrite Ei. done.
    + rewrite Em. simpl. rewrite Ei. rewrite allow_spawn_idem.
      f_equal. apply edit_first_idem; [done | done].
  - destruct (has_id i a) eqn:Ei; simpl.
    + unfold has_id in *. simpl. rewrite Em. simpl. rewrite Ei.
      f_equal. apply edit_first_idem; [done | apply allow_spawn_idem].
    + rewrite Em. simpl. rewrite Ei. by rewrite IH.
Qed.

Lemma cross_agent_idem (i : string) (c : Doc) :
  cross_agent i (cross_agent i c) = cross_agent i c.
Proof.
  destruct c as [[[[l|]|]|] ch bs ts gw]; try done.
  unfold cross_agent, edit_agent. simpl.
  f_equal. f_equal. f_equal. f_equal. apply (cross_edits_idem i l).
Qed.

Lemma routes_binding (i : string) : routes i (telegram_binding i) = true.
Proof. unfold routes, telegram_binding. simpl. by rewrite !String.eqb_refl. Qed.

Lemma filter_routes_some (i : string) (bs : list Binding) :
  existsb (routes i) bs = true →
  1 ≤ length (filter (λ b, routes i b = true) bs).
Proof.
  induction bs as [|b r IH]; simpl; [done |].
  rewrite filter_cons. case_decide as E.
  - intros _. simpl. lia.
  - apply not_true_is_false in E. rewrite E. simpl. auto.
Qed.

Lemma filter_routes_none (i : string) (bs : list Binding) :
  existsb (routes i) bs = false →
  filter (λ b, routes i b = true) bs = [].
Proof.
  induction bs as [|b r IH]; simpl; [done |].
  rewrite filter_cons. case_decide as E.
  - by rewrite E.
  - apply not_true_is_false in E. rewrite E. simpl. auto.
Qed.

Lemma routing_bind_telegram (i tok : string) (c : Doc) :
  length (routing i (bind_telegram i tok c)) = Nat.max 1 (length (routing i c)).
Proof.
  unfold routing, bind_telegram. simpl.
  destruct (existsb (routes i) (default [] (bindings c))) eqn:E.
  - apply filter_routes_some in E. lia.
  - rewrite filter_app. rewrite (filter_routes_none _ _ E). simpl.
    rewrite filter_cons, decide_True by apply routes_binding. done.
Qed.

Lemma account_bind_telegram (i tok : string) (c : Doc) :
  account_of i (bind_telegram i tok c) = Some (telegram_account tok).
Proof. unfold account_of, account_map, bind_telegram. simpl. apply lookup_insert_eq. Qed.

Lemma existsb_routes_bind (i tok : string) (c : Doc) :
  existsb (routes i) (default [] (bindings (bind_telegram i tok c))) = true.
Proof.
  unfold bind_telegram. simpl.
  destruct (existsb (routes i) (default [] (bindings c))) eqn:E; [done |].
  rewrite existsb_app. simpl. rewrite routes_binding. by rewrite orb_true_r.
Qed.

Lemma bind_telegram_idem (i tok : string) (c : Doc) :
  bind_telegram i tok (bind_telegram i tok c) = bind_telegram i tok c.
Proof.
  unfold bind_telegram at 1. rewrite existsb_routes_bind.
  unfold bind_telegram. simpl. by rewrite insert_insert_eq.
Qed.

Lemma cross_agent_bind (i j tok : string) (c : Doc) :
  cross_agent i (bind_telegram j tok c) = bind_telegram j tok (cross_agent i c).
Proof.
  destruct c as [[[[l|]|]|] ch bs ts gw]; done.
Qed.

Lemma cross_agent_enable (i : string) (c : Doc) :
  cross_agent i (enable_agentToAgent c) = enable_agentToAgent (cross_agent i c).
Proof.
  destruct c as [[[[l|]|]|] ch bs ts gw]; done.
Qed.

Lemma bind_telegram_enable (i tok : string) (c : Doc) :
  bind_telegram i tok (enable_agentToAgent c) =
    enable_agentToAgent (bind_telegram i tok c).
Proof. done. Qed.

Lemma mutate_config_idem (i tok : string) (v : bool) (c : Doc) :
  mutate_config i tok v (mutate_config i tok v c) = mutate_config i tok v c.
Proof.
  unfold mutate_config. destruct v.
  - rewrite cross_agent_enable, cross_agent_bind, cross_agent_idem.
    rewrite bind_telegram_enable, bind_telegram_idem. done.
  - rewrite cross_agent_enable, cross_agent_idem. done.
Qed.

Lemma agent_list_mutate (i tok : string) (v : bool) (c : Doc) :
  agent_list (mutate_config i tok v c) = agent_list (cross_agent i c).
Proof. unfold mutate_config. by destruct v. Qed.

Lemma has_id_allow_spawn (j i : string) (a : Agent) :
  has_id j (allow_spawn i a) = has_id j a.
Proof. done. Qed.

Lemma has_id_allow_main (j : string) (a : Agent) :
  has_id j (allow_main a) = has_id j a.
Proof. done. Qed.

Lemma main_agent_cross (i : string) (c : Doc) (a : Agent) :
  main_agent c = Some a →
  main_agent (cross_agent i c) =
    Some (if String.eqb i "main" then allow_main a else allow_spawn i a).
Proof.
  unfold main_agent. intros H.
  assert (Hl : agents c = Some (AgentsObj (Some (agent_list c)))).
  { unfold agent_list in *. destruct (agents c) as [[[l|]|]|]; done. }
  rewrite (cross_agent_list i _ c Hl).
  destruct (String.eqb i "main") eqn:E.
  - apply String.eqb_eq in E. subst i.
    rewrite find_edit_first by apply has_id_allow_main.
    rewrite find_edit_first by apply has_id_allow_spawn.
    rewrite H. done.
  - rewrite find_edit_other.
    + rewrite find_edit_first by apply has_id_allow_spawn. by rewrite H.
    + apply has_id_allow_main.
    + unfold has_id. intros b Hb Hm.
      apply String.eqb_eq in Hb, Hm. rewrite Hm in Hb. subst i.
      by rewrite String.eqb_refl in E.
Qed.

Lemma occurrences_allow_spawn (i : string) (a : Agent) :
  occurrences i (allow_list (allow_spawn i a)) =
    Nat.max 1 (occurrences i (allow_list a)).
Proof.
  rewrite allow_list_allow_spawn.
  destruct (includes i (allow_list a)) eqn:E.
  - apply occurrences_pos in E. lia.
  - rewrite occurrences_app, (occurrences_zero _ _ E).
    unfold occurrences. rewrite filter_cons, decide_True by done. done.
Qed.

(** C2 (amended). Applying the configuration edits twice gives the same
    document as applying them once.  When the loaded document has a "main"
    agent, its allow-list then holds the id as often as before and at least
    once (once when the id is "main" itself), so exactly once when the
    loaded list held it at most once.  When the token was verified, the
    account keyed by the id is the one just written, and the bindings
    routing the id are as many as before and at least one, so exactly one
    when the loaded document held at most one. *)
Theorem config_mutation_idempotent (i tok : string) (v : bool) (c : Doc) :
  let once := mutate_config i tok v c in
  let twice := mutate_config i tok v once in
  twice = once
  ∧ (∀ a, main_agent c = Some a →
       ∃ a', main_agent twice = Some a'
         ∧ occurrences i (allow_list a') =
             (if String.eqb i "main" then 1
              else Nat.max 1 (occurrences i (allow_list a)))
         ∧ (occurrences i (allow_list a) ≤ 1 → occurrences i (allow_list a') = 1))
  ∧ (v = true →
       account_of i twice = Some (telegram_account tok)
       ∧ length (routing i twice) = Nat.max 1 (length (routing i c))
       ∧ (length (routing i c) ≤ 1 → length (routing i twice) = 1)).
Proof.
  simpl. rewrite mutate_config_idem. split; [done |]. split.
  - intros a Ha. unfold main_agent. rewrite agent_list_mutate.
    fold (main_agent (cross_agent i c)). rewrite (main_agent_cross i c a Ha).
    eexists. split; [done |].
    destruct (String.eqb i "main") eqn:E.
    + apply String.eqb_eq in E. subst i. done.
    + rewrite occurrences_allow_spawn. split; [done | lia].
  - intros ->. unfold mutate_config.
    split; [apply account_bind_telegram |].
    assert (R : ∀ d, routing i (enable_agentToAgent d) = routing i d) by done.
    assert (R' : routing i (cross_agent i c) = routing i c).
    { destruct c as [[[[l|]|]|] ch bs ts gw]; done. }
    rewrite R, routing_bind_telegram, R'. split; [done | lia].
Qed.

(** ** What the workflow does to the file system and to the log *)

Section Frame.

Context (R : relation State) `{!PreOrder R}.

Lemma pres_refl {A} (m : M A) : (∀ s, (m s).2 = s) → preserves R m.
Proof. intros H s. by rewrite H. Qed.

Lemma pres_bind {A B} (m : M A) (k : A → M B) :
  preserves R m → (∀ a, preserves R (k a)) → preserves R (m ≫= k).
Proof.
  intros Hm Hk s. unfold mbind, M_bind.
  specialize (Hm s). destruct (m s) as [[a|r|e] s1]; simpl in *; [| done..].
  etrans; [exact Hm | apply Hk].
Qed.

Lemma pres_try {A} (m : M A) (h : string → M A) :
  preserves R m → (∀ e, preserves R (h e)) → preserves R (try_catch m h).
Proof.
  intros Hm Hh s. unfold try_catch.
  specialize (Hm s). destruct (m s) as [[a|r|e] s1]; simpl in *; [done.. |].
  etrans; [exact Hm | apply Hh].
Qed.

Lemma pres_for_each {A} (l : list A) (body : A → M unit) :
  (∀ x, preserves R (body x)) → preserves R (for_each l body).
Proof.
  intros H. induction l as [|x r IH]; simpl.
  - by apply pres_refl.
  - apply pres_bind; [apply H | done].
Qed.

End Frame.

#[local] Instance on_fs_preorder (Rf : relation FS) `{!PreOrder Rf} :
  PreOrder (on_fs Rf).
Proof.
  split.
  - intros s. unfold on_fs. reflexivity.
  - intros s1 s2 s3. unfold on_fs. intros. by etrans.
Qed.

Lemma pres_fs_same (Rf : relation FS) `{!PreOrder Rf} {A} (m : M A) :
  (∀ s, fs (m s).2 = fs s) → preserves (on_fs Rf) m.
Proof. intros H s. unfold on_fs. by rewrite H. Qed.

#[local] Instance same_log_preorder : PreOrder same_log.
Proof.
  split.
  - by intros s.
  - intros s1 s2 s3. unfold same_log. congruence.
Qed.

Ltac unfold_prims :=
  unfold execSync, existsSync, readFileSync, writeFileSync, mkdirSync,
    copyFileSync, JSON_parse, JSON_parse_out, as_agents, as_entries,
    bot_username;
  munfold; simpl.

Ltac leaf :=
  first
    [ apply pres_fs_same; [apply _ |]; intros ?; unfold_prims;
      repeat case_match; done
    | intros ?; unfold same_log; unfold_prims; repeat case_match; done ].

Ltac pres_with tac :=
  repeat first
    [ tac
    | apply pres_bind; [apply _ | | intros ?]
    | apply pres_try; [apply _ | | intros ?]
    | apply pres_for_each; [apply _ | intros ?]
    | match goal with
      | |- preserves _ (if ?b then _ else _) => destruct b
      end
    | leaf ].

#[local] Instance grows_preorder (keep : path) : PreOrder (grows keep).
Proof.
  split.
  - intros f. by split.
  - intros f g h [H1 H2] [H3 H4]. split; [set_solver | congruence].
Qed.

Lemma pres_mkdirSync (host : Host) (keep p : path) :
  preserves (on_fs (grows keep)) (mkdirSync host p).
Proof.
  intros s. unfold on_fs, mkdirSync. munfold. simpl.
  repeat case_match; simpl; try reflexivity.
  split; simpl; [set_solver | done].
Qed.

Lemma pres_writeFileSync (host : Host) (keep p : path) (c : content) :
  p ≠ keep → preserves (on_fs (grows keep)) (writeFileSync host p c).
Proof.
  intros Hp s. unfold on_fs, writeFileSync. munfold. simpl.
  repeat case_match; simpl; try reflexivity.
  split; simpl; [done | by rewrite lookup_insert_ne].
Qed.

Lemma pres_copyFileSync (host : Host) (keep src p : path) :
  p ≠ keep → preserves (on_fs (grows keep)) (copyFileSync host src p).
Proof.
  intros Hp s. unfold on_fs, copyFileSync. munfold. simpl.
  repeat case_match; simpl; try reflexivity.
  split; simpl; [done | by rewrite lookup_insert_ne].
Qed.

Lemma pres_writeIfMissing (host : Host) (keep p : path) (c : content) :
  p ≠ keep → preserves (on_fs (grows keep)) (writeIfMissing host p c).
Proof.
  intros Hp. unfold writeIfMissing.
  pres_with ltac:(apply pres_writeFileSync; done).
Qed.

Lemma join_ne (p q : path) (x y : string) : x ≠ y → join p x ≠ join q y.
Proof. unfold join. intros H E. apply app_inj_tail in E as [_ E]. done. Qed.

Lemma configPath_ne_join (host : Host) (p : path) (x : string) :
  x ≠ "clawdbot.json" → join p x ≠ configPath host.
Proof. intros H. unfold configPath. by apply join_ne. Qed.

Lemma existence_guard_fs (host : Host) (req : Request) :
  preserves (on_fs eq) (existence_guard host req).
Proof. unfold existence_guard. pres_with fail. Qed.

Lemma existence_guard_log (host : Host) (req : Request) :
  preserves same_log (existence_guard host req).
Proof. unfold existence_guard. pres_with fail. Qed.

Lemma make_dirs_fs (host : Host) (req : Request) (keep : path) :
  preserves (on_fs (grows keep)) (make_dirs host req).
Proof. unfold make_dirs. pres_with ltac:(apply pres_mkdirSync). Qed.

Lemma make_dirs_log (host : Host) (req : Request) :
  preserves same_log (make_dirs host req).
Proof. unfold make_dirs. pres_with fail. Qed.

Lemma create_workspace_fs (host : Host) (req : Request) (keep : path) :
  preserves (on_fs (grows keep)) (create_workspace host req).
Proof. unfold create_workspace. pres_with ltac:(apply make_dirs_fs). Qed.

Lemma copy_shared_fs (host : Host) (req : Request) :
  preserves (on_fs (grows (configPath host))) (copy_shared host req).
Proof.
  unfold copy_shared. simpl.
  pres_with ltac:(apply pres_copyFileSync; apply configPath_ne_join; discriminate).
Qed.

Lemma write_documents_fs (host : Host) (req : Request) :
  preserves (on_fs (grows (configPath host))) (write_documents host req).
Proof.
  unfold write_documents.
  pres_with ltac:(first
    [ apply copy_shared_fs
    | apply pres_writeIfMissing; apply configPath_ne_join; discriminate ]).
Qed.

Lemma write_documents_log (host : Host) (req : Request) :
  preserves same_log (write_documents host req).
Proof. unfold write_documents, copy_shared, writeIfMissing. pres_with fail. Qed.

Lemma scaffold_files_fs (host : Host) (req : Request) :
  preserves (on_fs (grows (configPath host))) (scaffold_files host req).
Proof. unfold scaffold_files. pres_with ltac:(apply write_documents_fs). Qed.

Lemma update_dashboard_fs (host : Host) (req : Request) :
  preserves (on_fs (grows (configPath host))) (update_dashboard host req).
Proof.
  unfold update_dashboard, dashboard_body.
  pres_with ltac:(apply pres_writeFileSync; unfold registryPath;
                  apply configPath_ne_join; discriminate).
Qed.

(** ** The step log of each best-effort step *)

Lemma register_spec (host : Host) (req : Request) (s : State) :
  ∃ s', register host req s = (Normal tt, s')
    ∧ fs s' = fs s
    ∧ logs s ["🔗 Registering with gateway"; register_line host req] s'.
Proof.
  unfold register, register_line, execSync, logs. munfold. simpl.
  destruct (exec host _); simpl; eexists; (split; [done |]); simpl;
    rewrite <- ?app_assoc; done.
Qed.

Lemma set_identity_spec (host : Host) (req : Request) (s : State) :
  ∃ s', set_identity host req s = (Normal tt, s')
    ∧ fs s' = fs s
    ∧ logs s [emoji req +:+ " Setting identity"] s'.
Proof.
  unfold set_identity, execSync, logs. munfold. simpl.
  destruct (exec host _); simpl; eexists; (split; [done |]); simpl; done.
Qed.

Lemma verify_telegram_spec (host : Host) (req : Request) (s : State) :
  ∃ s', fs s' = fs s
    ∧ logs s (check_lines (telegram_check host req)) s'
    ∧ verify_telegram host req s =
        (match telegram_check host req with
         | Invalid => Return (Failure "Invalid Telegram bot token" (log s'))
         | k => Normal (is_verified k)
         end, s').
Proof.
  unfold verify_telegram, telegram_check, execSync, JSON_parse_out, bot_username, logs.
  munfold. simpl.
  destruct (has_token req); simpl.
  2: { exists s. by rewrite app_nil_r. }
  destruct (exec host _) as [out|e]; simpl.
  2: { eexists {| fs := _; log := _; trace := _ |}. split; [| split; [| reflexivity]]; simpl; rewrite <- ?app_assoc; reflexivity. }
  destruct (out_json out) as [j|]; simpl.
  2: { eexists {| fs := _; log := _; trace := _ |}. split; [| split; [| reflexivity]]; simpl; rewrite <- ?app_assoc; reflexivity. }
  destruct (bot_ok j) eqn:Hok; simpl.
  2: { eexists {| fs := _; log := _; trace := _ |}. split; [| split; [| reflexivity]]; simpl; rewrite <- ?app_assoc; reflexivity. }
  destruct j as [l|[bok [r|]]]; simpl in *; try done;
    eexists {| fs := _; log := _; trace := _ |}; (split; [| split; [| reflexivity]]); simpl; rewrite <- ?app_assoc; reflexivity.
Qed.

Ltac close_spec :=
  eexists; (split; [reflexivity |]); simpl;
  (split; [done | unfold logs; simpl; rewrite <- ?app_assoc; reflexivity]).

Lemma hot_reload_spec (host : Host) (s : State) :
  ∃ s', hot_reload host s = (Normal tt, s')
    ∧ fs s' = fs s
    ∧ logs s ["🔄 Reloading gateway config"; reload_line host] s'.
Proof.
  unfold hot_reload, reload_line, fallback_line, execSync. munfold. simpl.
  destruct (exec host Cmd.pgrep) as [found|e]; simpl.
  - destruct (Str.truthy _ && Str.all_digits _); simpl.
    + destruct (exec host (Cmd.kill _)); simpl; [close_spec |].
      destruct (exec host Cmd.system_event); simpl; close_spec.
    + destruct (exec host Cmd.system_event); simpl; close_spec.
  - destruct (exec host Cmd.system_event); simpl; close_spec.
Qed.

Lemma configure_spec (host : Host) (req : Request) (v : bool) (s : State) :
  ∃ s' lines,
    configure host req v s = (Normal tt, s')
    ∧ dirs (fs s) ⊆ dirs (fs s')
    ∧ logs s lines s'
    ∧ ((lines = ["✅ Cross-agent permissions configured"; binding_line req v]
        ∧ ∃ c, files (fs s) !! configPath host = Some (Json c)
             ∧ files (fs s') =
                 <[configPath host :=
                     Json (mutate_config (agent_id (name req)) (token_str req) v c)]>
                   (files (fs s)))
       ∨ (∃ e, lines = ["⚠️ Config update: " +:+ Str.substring0 80 e]
             ∧ files (fs s') = files (fs s))).
Proof.
  unfold configure, configure_body, readFileSync, JSON_parse, mkdirSync, writeFileSync, logs.
  munfold. simpl.
  destruct (files (fs s) !! configPath host) as [[t|c]|] eqn:Hc; simpl.
  1, 3: eexists _, _; split; [reflexivity |]; simpl;
        split; [done |]; split; [reflexivity |]; right; eauto.
  destruct (bool_decide _); simpl.
  { eexists _, _; split; [reflexivity |]; simpl;
      split; [done |]; split; [reflexivity |]; right; eauto. }
  destruct (is_file _ _); simpl.
  { eexists _, _; split; [reflexivity |]; simpl;
      split; [done |]; split; [reflexivity |]; right; eauto. }
  destruct (existsb _ _); simpl.
  { eexists _, _; split; [reflexivity |]; simpl;
      split; [done |]; split; [reflexivity |]; right; eauto. }
  destruct (write_error _ _ _); simpl.
  { eexists _, _; split; [reflexivity |]; simpl;
      split; [set_solver |]; split; [reflexivity |]; right; eauto. }
  unfold binding_line.
  destruct v; simpl.
  - eexists _, _; split; [reflexivity |]; simpl.
    split; [set_solver |]. split; [by rewrite <- !app_assoc |].
    left. split; [done |]. exists c. done.
  - destruct (has_token req); simpl;
      (eexists _, _; split; [reflexivity |]; simpl;
       split; [set_solver |]; split; [by rewrite <- !app_assoc |];
       left; split; [done |]; exists c; done).
Qed.

Lemma update_dashboard_spec (host : Host) (req : Request) (s : State) :
  ∃ s' line,
    update_dashboard host req s = (Normal tt, s')
    ∧ logs s ["🏰 Adding to Clawd Control"; line] s'
    ∧ (line = "✅ Dashboard updated"
       ∨ ∃ e, line = "⚠️ Dashboard: " +:+ Str.substring0 80 e).
Proof.
  unfold update_dashboard, dashboard_body, readFileSync, JSON_parse, as_entries, execSync,
    writeFileSync, logs.
  munfold. simpl.
  assert (Fail : ∀ e tr f,
    ∃ s' line,
      (Normal (), {| fs := f;
                     log := (log s ++ ["🏰 Adding to Clawd Control"])
                            ++ ["⚠️ Dashboard: " +:+ Str.substring0 80 e];
                     trace := tr |}) = (Normal (), s')
      ∧ log s' = log s ++ ["🏰 Adding to Clawd Control"; line]
      ∧ (line = "✅ Dashboard updated"
         ∨ ∃ e, line = "⚠️ Dashboard: " +:+ Str.substring0 80 e)).
  { intros e tr f. eexists _, _. split; [reflexivity |]. simpl.
    split; [by rewrite <- app_assoc | right; eauto]. }
  assert (Ok : ∀ tr f,
    ∃ s' line,
      (Normal (), {| fs := f;
                     log := (log s ++ ["🏰 Adding to Clawd Control"])
                            ++ ["✅ Dashboard updated"];
                     trace := tr |}) = (Normal (), s')
      ∧ log s' = log s ++ ["🏰 Adding to Clawd Control"; line]
      ∧ (line = "✅ Dashboard updated"
         ∨ ∃ e, line = "⚠️ Dashboard: " +:+ Str.substring0 80 e)).
  { intros tr f. eexists _, _. split; [reflexivity |]. simpl.
    split; [by rewrite <- app_assoc | left; done]. }
  destruct (files (fs s) !! registryPath host) as [[t|d]|]; simpl; [apply Fail | | apply Fail].
  destruct (agents d) as [[l|entries]|]; simpl; [apply Fail | | apply Fail].
  destruct (existsb _ entries); simpl; [apply Ok |].
  destruct (files (fs s) !! configPath host) as [[t|c]|]; simpl; [apply Fail | | apply Fail].
  destruct (exec host Cmd.hostname); simpl; [| apply Fail].
  destruct (write_error _ _ _); simpl; [apply Fail | apply Ok].
Qed.

Lemma finish_spec (host : Host) (req : Request) (s : State) :
  finish host req s =
    (Normal (Success (agent_id (name req)) (displayName req) (emoji req)
               (path_str (workspace host req)) (model req) (has_token req)
               (if has_token req
                then displayName req +:+ " is live! Open Telegram and message the bot to start chatting."
                else displayName req +:+ " is live! Add a Telegram bot later to chat directly.")
               (log s ++ ["🎉 " +:+ displayName req +:+ " is ready!"])),
     {| fs := fs s;
        log := log s ++ ["🎉 " +:+ displayName req +:+ " is ready!"];
        trace := trace s |}).
Proof. done. Qed.

(** ** The workflow after scaffolding *)

Lemma createAgent_scaffold_enroll (host : Host) (req : Request) (s : State) :
  agent_id (name req) ≠ EmptyString →
  createAgent host req s = (scaffold host req ≫= λ _, enroll host req) s.
Proof.
  intros Hid. unfold createAgent, provision, scaffold, enroll.
  destruct (agent_id (name req)) eqn:E; [done |]. simpl.
  unfold mbind, M_bind.
  destruct (existence_guard host req s) as [[[]|r|e] s1]; [| done..].
  destruct (create_workspace host req s1) as [[[]|r|e] s2]; [| done..].
  destruct (scaffold_files host req s2) as [[[]|r|e] s3]; done.
Qed.

Lemma enroll_invalid (host : Host) (req : Request) (s1 : State) :
  telegram_check host req = Invalid →
  ∃ s', enroll host req s1 =
          (Return (Failure "Invalid Telegram bot token" (log s')), s')
    ∧ fs s' = fs s1
    ∧ log s' =
        log s1
        ++ ["🔗 Registering with gateway"; register_line host req;
            emoji req +:+ " Setting identity";
            "🔄 Configuring agent permissions";
            "📱 Verifying Telegram bot token"; "❌ Telegram token is invalid"].
Proof.
  intros Hk. unfold enroll, integrate. unfold mbind, M_bind.
  destruct (register_spec host req s1) as (s2 & E2 & F2 & L2). rewrite E2.
  destruct (set_identity_spec host req s2) as (s3 & E3 & F3 & L3). rewrite E3.
  unfold push at 1.
  destruct (verify_telegram_spec host req
              {| fs := fs s3; log := log s3 ++ ["🔄 Configuring agent permissions"];
                 trace := trace s3 |}) as (s4 & F4 & L4 & E4).
  rewrite E4, Hk. exists s4. split; [done |]. simpl in F4.
  split; [congruence |]. unfold logs in *. rewrite Hk in L4. simpl in L4.
  rewrite L4, L3, L2. rewrite <- !app_assoc. reflexivity.
Qed.

Lemma enroll_ok (host : Host) (req : Request) (s1 : State) :
  telegram_check host req ≠ Invalid →
  ∃ s' cfg dash,
    enroll host req s1 = (Normal (success host req (log s')), s')
    ∧ log s' =
        log s1
        ++ ["🔗 Registering with gateway"; register_line host req;
            emoji req +:+ " Setting identity";
            "🔄 Configuring agent permissions"]
        ++ check_lines (telegram_check host req)
        ++ cfg
        ++ ["🏰 Adding to Clawd Control"; dash;
            "🔄 Reloading gateway config"; reload_line host;
            "🎉 " +:+ displayName req +:+ " is ready!"]
    ∧ dirs (fs s1) ⊆ dirs (fs s')
    ∧ ((cfg = ["✅ Cross-agent permissions configured";
               binding_line req (is_verified (telegram_check host req))]
        ∧ ∃ c, files (fs s1) !! configPath host = Some (Json c)
             ∧ files (fs s') !! configPath host =
                 Some (Json (mutate_config (agent_id (name req)) (token_str req)
                               (is_verified (telegram_check host req)) c)))
       ∨ (∃ e, cfg = ["⚠️ Config update: " +:+ Str.substring0 80 e]
             ∧ files (fs s') !! configPath host = files (fs s1) !! configPath host))
    ∧ (dash = "✅ Dashboard updated"
       ∨ ∃ e, dash = "⚠️ Dashboard: " +:+ Str.substring0 80 e).
Proof.
  intros Hk. unfold enroll, integrate. unfold mbind, M_bind.
  destruct (register_spec host req s1) as (s2 & E2 & F2 & L2). rewrite E2.
  destruct (set_identity_spec host req s2) as (s3 & E3 & F3 & L3). rewrite E3.
  unfold push at 1.
  destruct (verify_telegram_spec host req
              {| fs := fs s3; log := log s3 ++ ["🔄 Configuring agent permissions"];
                 trace := trace s3 |}) as (s4 & F4 & L4 & E4).
  simpl in F4, L4.
  assert (Hv : verify_telegram host req
                 {| fs := fs s3;
                    log := log s3 ++ ["🔄 Configuring agent permissions"];
                    trace := trace s3 |}
               = (Normal (is_verified (telegram_check host req)), s4))
    by (rewrite E4; destruct (telegram_check host req); done).
  rewrite Hv. clear Hv E4.
  set (k := telegram_check host req) in *.
  destruct (configure_spec host req (is_verified k) s4)
    as (s5 & cfg & E5 & D5 & L5 & C5).
  rewrite E5.
  destruct (update_dashboard_spec host req s5) as (s6 & dash & E6 & L6 & C6).
  rewrite E6.
  destruct (hot_reload_spec host s6) as (s7 & E7 & F7 & L7). rewrite E7.
  rewrite finish_spec.
  pose proof (update_dashboard_fs host req s5) as [D6 K6]. rewrite E6 in D6, K6.
  simpl in D6, K6.
  eexists {| fs := _; log := _; trace := _ |}, cfg, dash.
  split; [reflexivity |]. simpl.
  unfold logs in *. split; [| split; [| split; [| done]]].
  - rewrite L7, L6, L5, L4. simpl. rewrite L3, L2.
    rewrite <- !app_assoc. reflexivity.
  - rewrite F7. etrans; [| exact D6]. etrans; [| exact D5].
    rewrite F4, F3, F2. done.
  - rewrite F7, K6. rewrite <- F2, <- F3, <- F4.
    destruct C5 as [[-> (c & Hc & Hf)] | (e & -> & Hf)].
    + left. split; [done |]. exists c. split; [done |].
      rewrite Hf. apply lookup_insert_eq.
    + right. exists e. split; [done |]. by rewrite Hf.
Qed.

(** ** Scaffolding *)

Lemma fails_bind {A B} (m : M A) (k : A → M B) :
  fails_only m → (∀ a, fails_only (k a)) → fails_only (m ≫= k).
Proof.
  intros Hm Hk s. unfold mbind, M_bind.
  specialize (Hm s). destruct (m s) as [[a|r|e] s1]; simpl in *; [| done..].
  apply Hk.
Qed.

Lemma fails_try {A} (m : M A) (h : string → M A) :
  fails_only m → (∀ e, fails_only (h e)) → fails_only (try_catch m h).
Proof.
  intros Hm Hh s. unfold try_catch.
  specialize (Hm s). destruct (m s) as [[a|r|e] s1]; simpl in *; [done.. |].
  apply Hh.
Qed.

Lemma fails_for_each {A} (l : list A) (body : A → M unit) :
  (∀ x, fails_only (body x)) → fails_only (for_each l body).
Proof.
  intros H. induction l as [|x r IH]; simpl; [done |].
  apply fails_bind; [apply H | done].
Qed.

Ltac fails :=
  repeat first
    [ apply fails_bind; [| intros ?]
    | apply fails_try; [| intros ?]
    | apply fails_for_each; intros ?
    | match goal with
      | |- fails_only (if ?b then _ else _) => destruct b
      end
    | intros ?; unfold_prims; repeat case_match; done ].

Lemma scaffold_fails_only (host : Host) (req : Request) :
  fails_only (scaffold host req).
Proof.
  unfold scaffold, existence_guard, create_workspace, make_dirs, scaffold_files,
    write_documents, copy_shared, writeIfMissing.
  fails.
Qed.

Lemma scaffold_fs (host : Host) (req : Request) :
  preserves (on_fs (grows (configPath host))) (scaffold host req).
Proof.
  unfold scaffold.
  pres_with ltac:(first
    [ apply create_workspace_fs | apply scaffold_files_fs ]).
Qed.

Lemma ancestors_app (p q : path) : p ≠ [] → p ∈ ancestors (p ++ q).
Proof.
  induction p as [|x r IH]; [done |]. intros _. simpl.
  destruct r as [|y r']; [set_solver |].
  apply list_elem_of_further, list_elem_of_fmap. exists (y :: r').
  split; [done | by apply IH].
Qed.

Lemma mkdirSync_normal (host : Host) (p : path) (s s' : State) :
  mkdirSync host p s = (Normal tt, s') →
  ∀ d, d ∈ ancestors p → d ∈ dirs (fs s').
Proof.
  unfold mkdirSync. munfold. simpl.
  repeat case_match; simpl; try done.
  intros [= <-] d Hd. simpl. set_solver.
Qed.

Lemma make_dirs_workspace (host : Host) (req : Request) (s s' : State) :
  make_dirs host req s = (Normal tt, s') →
  workspace host req ∈ dirs (fs s').
Proof.
  unfold make_dirs. unfold mbind at 1, M_bind at 1.
  destruct (mkdirSync host (join (workspace host req) "memory") s)
    as [[[]|r|e] s1] eqn:E1; [| done..].
  intros E.
  assert (P : preserves (on_fs (grows []))
    (mkdirSync host (join (workspace host req) "skills");;
     mkdirSync host (join (workspace host req) "scripts");;
     mkdirSync host (join (workspace host req) ".credentials")))
    by pres_with ltac:(apply pres_mkdirSync).
  specialize (P s1). rewrite E in P. destruct P as [P _]. simpl in P.
  apply P. eapply mkdirSync_normal; [exact E1 |].
  apply ancestors_app. unfold workspace, join. by destruct (BASE_DIR host).
Qed.

Lemma scaffold_normal (host : Host) (req : Request) (s s' : State) :
  scaffold host req s = (Normal tt, s') →
  workspace host req ∈ dirs (fs s')
  ∧ files (fs s') !! configPath host = files (fs s) !! configPath host
  ∧ log s' = log s ++ ["📁 Creating workspace at ~/clawd-agents/" +:+ agent_id (name req);
                       "📝 Writing identity files"].
Proof.
  intros H. pose proof (scaffold_fs host req s) as [_ K]. rewrite H in K.
  split; [| split; [exact K |]]; revert H; clear K;
    unfold scaffold, create_workspace, scaffold_files; unfold mbind, M_bind.
  - destruct (existence_guard host req s) as [[[]|r|e] s1]; [| done..].
    unfold push, try_catch.
    destruct (make_dirs host req _) as [[[]|r|e] s2] eqn:E2; [| done..].
    apply make_dirs_workspace in E2.
    intros H.
    pose proof (write_documents_fs host req
      {| fs := fs s2; log := log s2 ++ ["📝 Writing identity files"];
         trace := trace s2 |}) as [D _].
    rewrite H in D. simpl in D. set_solver.
  - pose proof (existence_guard_log host req s) as L1.
    destruct (existence_guard host req s) as [[[]|r|e] s1]; [| done..].
    unfold push, try_catch.
    match goal with |- context [make_dirs host req ?st] =>
      pose proof (make_dirs_log host req st) as L2 end.
    destruct (make_dirs host req _) as [[[]|r|e] s2]; [| done..].
    match goal with |- context [write_documents host req ?st] =>
      pose proof (write_documents_log host req st) as L3 end.
    intros H. rewrite H in L3. unfold same_log in *. simpl in *.
    rewrite L3, L2, L1. by rewrite <- app_assoc.
Qed.

Lemma run_unfold (host : Host) (req : Request) (f : FS) (o : outcome Result) (s : State) :
  createAgent host req (initial f) = (o, s) →
  run host req f = (settle o, fs s, trace s).
Proof. intros H. unfold run. by rewrite H. Qed.

Lemma has_token_some (req : Request) (tok : string) :
  telegramToken req = Some tok → tok ≠ EmptyString →
  token_str req = tok ∧ has_token req = true.
Proof.
  intros H Hne. unfold has_token, token_str. rewrite H. simpl.
  by destruct tok.
Qed.

(** ** Which commands the scaffolding runs *)

#[local] Instance silent_on_preorder (cmd : string) : PreOrder (silent_on cmd).
Proof.
  split.
  - intros s H. exact H.
  - intros s1 s2 s3 H1 H2 H. apply H1, H2, H.
Qed.

Lemma pres_silent_same (cmd : string) {A} (m : M A) :
  (∀ s, trace (m s).2 = trace s) → preserves (silent_on cmd) m.
Proof. intros H s. unfold silent_on. by rewrite H. Qed.

Lemma pres_silent_emit (cmd : string) (ev : event) :
  ev ≠ EExec cmd → preserves (silent_on cmd) (emit ev).
Proof.
  intros Hne s. unfold silent_on, emit. simpl. rewrite in_app_iff. simpl.
  intros [H | [H | []]]; [done | congruence].
Qed.

Ltac silent_leaf :=
  first
    [ apply pres_silent_emit; discriminate
    | apply pres_silent_same; intros ?; unfold existsSync, JSON_parse_out, as_agents;
      munfold; simpl; repeat case_match; done ].

Ltac silent_with tac :=
  repeat first
    [ tac
    | apply pres_bind; [apply _ | | intros ?]
    | apply pres_try; [apply _ | | intros ?]
    | apply pres_for_each; [apply _ | intros ?]
    | match goal with
      | |- preserves _ (if ?b then _ else _) => destruct b
      | |- preserves _ (match ?x with _ => _ end) => destruct x
      end
    | silent_leaf ].

Lemma pres_silent_execSync (host : Host) (cmd c : string) :
  c ≠ cmd → preserves (silent_on cmd) (execSync host c).
Proof.
  intros Hne. unfold execSync.
  silent_with ltac:(apply pres_silent_emit; congruence).
Qed.

Lemma pres_silent_mkdirSync (host : Host) (cmd : string) (p : path) :
  preserves (silent_on cmd) (mkdirSync host p).
Proof. unfold mkdirSync. silent_with fail. Qed.

Lemma pres_silent_writeIfMissing (host : Host) (cmd : string) (p : path) (c : content) :
  preserves (silent_on cmd) (writeIfMissing host p c).
Proof. unfold writeIfMissing, writeFileSync. silent_with fail. Qed.

Lemma pres_silent_copyFileSync (host : Host) (cmd : string) (src dst : path) :
  preserves (silent_on cmd) (copyFileSync host src dst).
Proof. unfold copyFileSync. silent_with fail. Qed.

Lemma getMe_not_scaffolding (tok : string) :
  Cmd.agents_list ≠ Cmd.getMe tok ∧ Cmd.hostname ≠ Cmd.getMe tok.
Proof. split; discriminate. Qed.

Lemma scaffold_silent (host : Host) (req : Request) (tok : string) :
  preserves (silent_on (Cmd.getMe tok)) (scaffold host req).
Proof.
  destruct (getMe_not_scaffolding tok) as [H1 H2].
  unfold scaffold, existence_guard, create_workspace, make_dirs, scaffold_files,
    write_documents, copy_shared.
  silent_with ltac:(first
    [ apply pres_silent_execSync; assumption
    | apply pres_silent_mkdirSync
    | apply pres_silent_writeIfMissing
    | apply pres_silent_copyFileSync ]).
Qed.

(** The token check is called only in runs that completed the scaffolding. *)
Lemma token_check_reached (host : Host) (req : Request) (f f' : FS)
    (tok : string) (o : call_outcome) (t : list event) :
  agent_id (name req) ≠ EmptyString →
  run host req f = (o, f', t) →
  In (EExec (Cmd.getMe tok)) t →
  ∃ s1, scaffold host req (initial f) = (Normal tt, s1).
Proof.
  intros Hid Hrun Hin. unfold run in Hrun.
  rewrite createAgent_scaffold_enroll in Hrun by done.
  unfold mbind, M_bind in Hrun.
  pose proof (scaffold_silent host req tok (initial f)) as Hs.
  destruct (scaffold host req (initial f)) as [[[]|r|e] s1]; [by eexists | |];
    simpl in *; injection Hrun as _ _ <-; by destruct (Hs Hin).
Qed.

(** ** Whole runs *)

(** C1. A token is supplied, the id is not empty, the run makes the
    identity-check call, and the provider's answer parses with [ok] false.
    Then [createAgent] returns the failure "Invalid Telegram bot token"; the
    gateway configuration file is what it was before the run, so no account
    and no binding is added; and the workspace directory exists. *)
Theorem rejected_token_is_fatal (host : Host) (req : Request) (f f' : FS)
    (tok : string) (out : output) (b : BotInfo) (o : call_outcome)
    (t : list event) :
  agent_id (name req) ≠ EmptyString →
  telegramToken req = Some tok → tok ≠ EmptyString →
  run host req f = (o, f', t) →
  In (EExec (Cmd.getMe tok)) t →
  exec host (Cmd.getMe tok) = ExecOk out →
  out_json out = Some (JBot b) →
  bi_ok b = false →
  o = Returned (Failure "Invalid Telegram bot token"
        ["📁 Creating workspace at ~/clawd-agents/" +:+ agent_id (name req);
         "📝 Writing identity files";
         "🔗 Registering with gateway"; register_line host req;
         emoji req +:+ " Setting identity";
         "🔄 Configuring agent permissions";
         "📱 Verifying Telegram bot token"; "❌ Telegram token is invalid"])
  ∧ files f' !! configPath host = files f !! configPath host
  ∧ workspace host req ∈ dirs f'.
Proof.
  intros Hid Htok Hne Hrun Hin Hex Hj Hok.
  destruct (token_check_reached host req f f' tok o t Hid Hrun Hin) as [s1 Hs].
  destruct (has_token_some req tok Htok Hne) as [Ht Hh].
  assert (Hk : telegram_check host req = Invalid).
  { unfold telegram_check. rewrite Hh, Ht, Hex, Hj. simpl. by rewrite Hok. }
  destruct (scaffold_normal host req _ _ Hs) as (Hw & Hc & Hl).
  destruct (enroll_invalid host req s1 Hk) as (s' & E & F & L).
  assert (Hrun' : run host req f =
                  (settle (Return (Failure "Invalid Telegram bot token" (log s'))),
                   fs s', trace s')).
  { apply run_unfold. rewrite createAgent_scaffold_enroll by done.
    unfold mbind, M_bind. rewrite Hs. exact E. }
  rewrite Hrun in Hrun'. injection Hrun' as -> -> ->.
  split; [| by rewrite F].
  simpl. rewrite L, Hl. simpl. reflexivity.
Qed.

Lemma check_invalid_or_not (k : check) : k = Invalid ∨ k ≠ Invalid.
Proof. destruct k; auto. Qed.

Lemma run_config (host : Host) (req : Request) (f : FS) :
  files (run host req f).1.2 !! configPath host = files f !! configPath host
  ∨ ∃ c,
      files f !! configPath host = Some (Json c)
      ∧ files (run host req f).1.2 !! configPath host =
          Some (Json (mutate_config (agent_id (name req)) (token_str req)
                        (is_verified (telegram_check host req)) c)).
Proof.
  destruct (decide (agent_id (name req) = EmptyString)) as [Hid|Hid].
  { left. unfold run, createAgent. rewrite Hid. done. }
  unfold run. rewrite createAgent_scaffold_enroll by done.
  unfold mbind, M_bind.
  pose proof (scaffold_fs host req (initial f)) as [_ K].
  destruct (scaffold host req (initial f)) as [[[]|r|e] s1]; simpl in *;
    [| by left..].
  destruct (check_invalid_or_not (telegram_check host req)) as [Hk|Hk].
  - destruct (enroll_invalid host req s1 Hk) as (s' & E & F & _).
    rewrite E. simpl. left. by rewrite F.
  - destruct (enroll_ok host req s1 Hk) as (s' & cfg & dash & E & _ & _ & C & _).
    rewrite E. simpl.
    destruct C as [[_ (c & Hc & Hf)] | (e & _ & Hf)].
    + right. exists c. split; [congruence | done].
    + left. congruence.
Qed.

(** ** The configuration and dashboard steps, by the outcome of their block *)

Lemma configure_attempt (host : Host) (req : Request) (v : bool) (s : State) :
  ∃ s', configure host req v s = (Normal tt, s')
    ∧ fs s' = (config_attempt host req v (fs s)).2
    ∧ logs s (config_lines req v (config_attempt host req v (fs s)).1) s'.
Proof.
  unfold config_attempt, attempt, configure, configure_body, readFileSync,
    JSON_parse, mkdirSync, writeFileSync, logs, config_lines, binding_line.
  munfold. simpl.
  destruct (files (fs s) !! configPath host) as [[t|c]|]; simpl.
  1, 3: eexists; split; [reflexivity |]; simpl; done.
  destruct (bool_decide _); simpl.
  { eexists; split; [reflexivity |]; simpl; done. }
  destruct (is_file _ _); simpl.
  { eexists; split; [reflexivity |]; simpl; done. }
  destruct (existsb _ _); simpl.
  { eexists; split; [reflexivity |]; simpl; done. }
  destruct (write_error _ _ _); simpl.
  { eexists; split; [reflexivity |]; simpl; done. }
  destruct v; simpl.
  - eexists; split; [reflexivity |]; simpl. by rewrite <- !app_assoc.
  - destruct (has_token req); simpl;
      (eexists; split; [reflexivity |]; simpl; by rewrite <- !app_assoc).
Qed.

(** The block of the configuration step ends normally or throws.  When it
    ends normally the file held a document and now holds the edited one;
    when it throws, no file has changed. *)
Lemma config_attempt_cases (host : Host) (req : Request) (v : bool) (f : FS) :
  match (config_attempt host req v f).1 with
  | Normal _ =>
      ∃ c, files f !! configPath host = Some (Json c)
        ∧ files (config_attempt host req v f).2 =
            <[configPath host :=
                Json (mutate_config (agent_id (name req)) (token_str req) v c)]>
              (files f)
  | Throw e => files (config_attempt host req v f).2 = files f
  | Return _ => False
  end.
Proof.
  unfold config_attempt, attempt, configure_body, readFileSync,
    JSON_parse, mkdirSync, writeFileSync.
  munfold. simpl.
  destruct (files f !! configPath host) as [[t|c]|] eqn:Hc; simpl; [done | | done].
  destruct (bool_decide _); simpl; [done |].
  destruct (is_file _ _); simpl; [done |].
  destruct (existsb _ _); simpl; [done |].
  destruct (write_error _ _ _); simpl; [done |].
  destruct v; simpl; [by exists c |].
  destruct (has_token req); simpl; by exists c.
Qed.

(** What makes the block of the configuration step throw: the file cannot
    be read, it is not a JSON document, the sessions directory cannot be
    made, or the file cannot be written. *)
Lemma config_attempt_throws (host : Host) (req : Request) (v : bool) (f : FS) :
  (files f !! configPath host = None →
     ∃ e, (config_attempt host req v f).1 = Throw e)
  ∧ (∀ t, files f !! configPath host = Some (Text t) →
     (config_attempt host req v f).1 = Throw (syntax_error host t))
  ∧ (∀ c e s, files f !! configPath host = Some (Json c) →
       mkdirSync host (sessions_dir host req) (initial f) = (Throw e, s) →
       (config_attempt host req v f).1 = Throw e)
  ∧ (∀ c s e, files f !! configPath host = Some (Json c) →
       mkdirSync host (sessions_dir host req) (initial f) = (Normal tt, s) →
       write_error host (fs s) (configPath host) = Some e →
       (config_attempt host req v f).1 = Throw e).
Proof.
  unfold config_attempt, attempt, configure_body, readFileSync, JSON_parse,
    writeFileSync, sessions_dir.
  split; [| split; [| split]].
  - intros H. munfold. simpl. rewrite H. simpl. eauto.
  - intros t H. munfold. simpl. by rewrite H.
  - intros c e s H Hm. munfold. simpl. rewrite H. simpl.
    unfold mbind, M_bind in Hm. by rewrite Hm.
  - intros c s e H Hm Hw. munfold. simpl. rewrite H. simpl.
    unfold mbind, M_bind in Hm. rewrite Hm. simpl. by rewrite Hw.
Qed.

Lemma dashboard_attempt_step (host : Host) (req : Request) (s : State) :
  ∃ s', update_dashboard host req s = (Normal tt, s')
    ∧ fs s' = (dashboard_attempt host req (fs s)).2
    ∧ logs s ["🏰 Adding to Clawd Control";
              dashboard_line (dashboard_attempt host req (fs s)).1] s'.
Proof.
  unfold dashboard_attempt, attempt, update_dashboard, dashboard_body,
    readFileSync, JSON_parse, as_entries, execSync, writeFileSync, logs,
    dashboard_line.
  munfold. simpl.
  destruct (files (fs s) !! registryPath host) as [[t|d]|]; simpl.
  1, 3: eexists; split; [reflexivity |]; simpl; by rewrite <- !app_assoc.
  destruct (agents d) as [[l|entries]|]; simpl.
  1, 3: eexists; split; [reflexivity |]; simpl; by rewrite <- !app_assoc.
  destruct (existsb _ entries); simpl.
  { eexists; split; [reflexivity |]; simpl; by rewrite <- !app_assoc. }
  destruct (files (fs s) !! configPath host) as [[t|c]|]; simpl.
  1, 3: eexists; split; [reflexivity |]; simpl; by rewrite <- !app_assoc.
  destruct (exec host Cmd.hostname); simpl.
  2: { eexists; split; [reflexivity |]; simpl; by rewrite <- !app_assoc. }
  destruct (write_error _ _ _); simpl;
    eexists; (split; [reflexivity |]); simpl; by rewrite <- !app_assoc.
Qed.

Lemma dashboard_attempt_keeps (host : Host) (req : Request) (f : FS) :
  files (dashboard_attempt host req f).2 !! configPath host =
    files f !! configPath host.
Proof.
  pose proof (update_dashboard_fs host req (initial f)) as [_ K].
  destruct (dashboard_attempt_step host req (initial f)) as (s' & E & F & _).
  rewrite E in K. simpl in K, F. rewrite F in K. exact K.
Qed.

Lemma existsb_de_id_true (i : string) (l : list DashEntry) :
  existsb (λ a, String.eqb (de_id a) i) l = true → i ∈ de_id <$> l.
Proof.
  induction l as [|a l IH]; simpl; [done |].
  intros H. apply orb_true_iff in H as [H | H].
  - apply String.eqb_eq in H as <-. apply list_elem_of_here.
  - apply list_elem_of_further. by apply IH.
Qed.

(** The block of the dashboard step ends normally or throws.  When it ends
    normally the registry lists the agent; when it throws, nothing has
    changed. *)
Lemma dashboard_attempt_cases (host : Host) (req : Request) (f : FS) :
  match (dashboard_attempt host req f).1 with
  | Normal _ =>
      agent_id (name req) ∈ de_id <$> entries_of host (dashboard_attempt host req f).2
  | Throw e => (dashboard_attempt host req f).2 = f
  | Return _ => False
  end.
Proof.
  unfold dashboard_attempt, attempt, dashboard_body, readFileSync, JSON_parse,
    as_entries, execSync, writeFileSync, entries_of.
  munfold. simpl.
  destruct (files f !! registryPath host) as [[t|d]|] eqn:Hr; simpl; [done | | done].
  destruct (agents d) as [[l|entries]|] eqn:Ha; simpl; [done | | done].
  destruct (existsb _ entries) eqn:Hex; simpl.
  { rewrite Hr, Ha. by apply existsb_de_id_true. }
  destruct (files f !! configPath host) as [[t|c]|]; simpl; [done | | done].
  destruct (exec host Cmd.hostname); simpl; [| done].
  destruct (write_error _ _ _); simpl; [done |].
  rewrite lookup_insert_eq. simpl. rewrite fmap_app. set_solver.
Qed.

(** What makes the block of the dashboard step throw: the registry cannot
    be read, is not a JSON document or has no array of agents; or, when the
    agent is not listed yet, the gateway configuration cannot be read or
    parsed, [hostname] fails or the registry cannot be written. *)
Lemma dashboard_attempt_throws (host : Host) (req : Request) (f : FS) :
  (files f !! registryPath host = None →
     ∃ e, (dashboard_attempt host req f).1 = Throw e)
  ∧ (∀ t, files f !! registryPath host = Some (Text t) →
       (dashboard_attempt host req f).1 = Throw (syntax_error host t))
  ∧ (∀ d, files f !! registryPath host = Some (Json d) →
       (∀ l, agents d ≠ Some (AgentsArr l)) →
       ∃ e, (dashboard_attempt host req f).1 = Throw e)
  ∧ (agent_id (name req) ∉ de_id <$> entries_of host f →
       (config_of host f = None ∨ (∃ e, exec host Cmd.hostname = ExecErr e)
        ∨ is_Some (write_error host f (registryPath host))) →
       ∃ e, (dashboard_attempt host req f).1 = Throw e).
Proof.
  unfold dashboard_attempt, attempt, dashboard_body, readFileSync, JSON_parse,
    as_entries, execSync, writeFileSync, entries_of, config_of.
  munfold. simpl.
  split; [| split; [| split]].
  - intros ->. simpl. eauto.
  - by intros t ->.
  - intros d -> Hd. simpl.
    destruct (agents d) as [[l|l]|]; simpl; eauto. by destruct (Hd l).
  - intros Hn Hc.
    destruct (files f !! registryPath host) as [[t|d]|]; simpl; eauto.
    destruct (agents d) as [[l|entries]|]; simpl; eauto.
    destruct (existsb _ entries) eqn:Hex; simpl.
    { by apply existsb_de_id_true in Hex. }
    destruct (files f !! configPath host) as [[t|c]|]; simpl; eauto.
    destruct (exec host Cmd.hostname); simpl; eauto.
    destruct (write_error _ _ _); simpl; eauto.
    destruct Hc as [Hc | [[e Hc] | [e Hc]]]; done.
Qed.

Lemma enroll_attempts (host : Host) (req : Request) (s1 : State) :
  telegram_check host req ≠ Invalid →
  let v := is_verified (telegram_check host req) in
  let cfg := config_attempt host req v (fs s1) in
  let dash := dashboard_attempt host req cfg.2 in
  ∃ s', enroll host req s1 = (Normal (success host req (log s')), s')
    ∧ fs s' = dash.2
    ∧ log s' =
        log s1
        ++ ["🔗 Registering with gateway"; register_line host req;
            emoji req +:+ " Setting identity";
            "🔄 Configuring agent permissions"]
        ++ check_lines (telegram_check host req)
        ++ config_lines req v cfg.1
        ++ ["🏰 Adding to Clawd Control"; dashboard_line dash.1;
            "🔄 Reloading gateway config"; reload_line host;
            "🎉 " +:+ displayName req +:+ " is ready!"].
Proof.
  intros Hk. cbv zeta. unfold enroll, integrate. unfold mbind, M_bind.
  destruct (register_spec host req s1) as (s2 & E2 & F2 & L2). rewrite E2.
  destruct (set_identity_spec host req s2) as (s3 & E3 & F3 & L3). rewrite E3.
  unfold push at 1.
  destruct (verify_telegram_spec host req
              {| fs := fs s3; log := log s3 ++ ["🔄 Configuring agent permissions"];
                 trace := trace s3 |}) as (s4 & F4 & L4 & E4).
  simpl in F4, L4.
  assert (Hv : verify_telegram host req
                 {| fs := fs s3;
                    log := log s3 ++ ["🔄 Configuring agent permissions"];
                    trace := trace s3 |}
               = (Normal (is_verified (telegram_check host req)), s4))
    by (rewrite E4; destruct (telegram_check host req); done).
  rewrite Hv. clear Hv E4.
  set (k := telegram_check host req) in *.
  assert (F : fs s4 = fs s1) by congruence.
  destruct (configure_attempt host req (is_verified k) s4) as (s5 & E5 & F5 & L5).
  rewrite E5. rewrite F in F5, L5.
  destruct (dashboard_attempt_step host req s5) as (s6 & E6 & F6 & L6).
  rewrite E6. rewrite F5 in F6, L6.
  destruct (hot_reload_spec host s6) as (s7 & E7 & F7 & L7). rewrite E7.
  rewrite finish_spec.
  eexists {| fs := _; log := _; trace := _ |}.
  split; [reflexivity |]. simpl.
  unfold logs in *. split; [rewrite F7; exact F6 |].
  rewrite L7, L6, L5, L4. simpl. rewrite L3, L2.
  rewrite <- !app_assoc. reflexivity.
Qed.

(** The configuration file after a run that reached the configuration
    step, by the outcome of the block of that step. *)
Lemma run_config_attempt (host : Host) (req : Request) (f : FS) (s1 : State) :
  agent_id (name req) ≠ EmptyString →
  scaffold host req (initial f) = (Normal tt, s1) →
  telegram_check host req ≠ Invalid →
  ∃ steps,
    (run host req f).1.1 = Returned (success host req steps)
    ∧ (∀ line, line ∈ config_lines req (is_verified (telegram_check host req))
                 (config_attempt host req (is_verified (telegram_check host req))
                    (fs s1)).1 →
         line ∈ steps)
    ∧ match (config_attempt host req (is_verified (telegram_check host req))
               (fs s1)).1 with
      | Normal _ =>
          ∃ c, files f !! configPath host = Some (Json c)
            ∧ files (run host req f).1.2 !! configPath host =
                Some (Json (mutate_config (agent_id (name req)) (token_str req)
                              (is_verified (telegram_check host req)) c))
      | Throw e =>
          files (run host req f).1.2 !! configPath host = files f !! configPath host
      | Return _ => False
      end.
Proof.
  intros Hid Hs Hk.
  destruct (scaffold_normal host req _ _ Hs) as (_ & Hc & Hl). simpl in Hc.
  destruct (enroll_attempts host req s1 Hk) as (s' & E & F & L).
  assert (R : run host req f = (Returned (success host req (log s')), fs s', trace s')).
  { apply (run_unfold host req f (Normal (success host req (log s'))) s').
    rewrite createAgent_scaffold_enroll by done.
    unfold mbind, M_bind. rewrite Hs. exact E. }
  exists (log s'). rewrite R. cbn [fst snd]. split; [done |]. split.
  - intros line Hin. rewrite L, !elem_of_app. auto.
  - set (v := is_verified (telegram_check host req)) in *.
    pose proof (config_attempt_cases host req v (fs s1)) as C.
    rewrite F, dashboard_attempt_keeps, <- Hc.
    destruct (config_attempt host req v (fs s1)).1 as [[]|r|e]; [| done |].
    + destruct C as (c & C1 & C2). exists c. split; [done |].
      rewrite C2. apply lookup_insert_eq.
    + by rewrite C.
Qed.

(** C6 (amended). After the edits made with a verified token, the account
    keyed by the id is exactly [{enabled: true, dmPolicy: "pairing",
    botToken: tok, groupPolicy: "allowlist", streamMode: "partial"}]; after
    the edits, verified or not, [tools.agentToAgent.enabled] is true.  In
    every run the configuration file is either left as it was or replaced
    by the edited document, so the workflow never writes the flag as false.
    In a run that reaches the configuration step, the file is replaced
    exactly when the [try] block of the step completes: the file then holds
    the edited document, whose flag is true and which holds that account
    when the token was verified.  When the block throws, the result carries
    the warning of the step and the file is left as it was: the flag is not
    set. *)
Theorem telegram_account_and_messaging_flag (host : Host) (req : Request)
    (f : FS) (i tok : string) (c : Doc) :
  account_of i (mutate_config i tok true c) =
    Some {| acc_enabled := true; dmPolicy := "pairing"; botToken := tok;
            groupPolicy := "allowlist"; streamMode := "partial" |}
  ∧ (∀ v, a2a_flag (mutate_config i tok v c) = Some true)
  ∧ (files (run host req f).1.2 !! configPath host = files f !! configPath host
     ∨ ∃ c0 c1,
         files f !! configPath host = Some (Json c0)
         ∧ files (run host req f).1.2 !! configPath host = Some (Json c1)
         ∧ c1 = mutate_config (agent_id (name req)) (token_str req)
                  (is_verified (telegram_check host req)) c0
         ∧ a2a_flag c1 = Some true
         ∧ (is_verified (telegram_check host req) = true →
            account_of (agent_id (name req)) c1 =
              Some (telegram_account (token_str req))))
  ∧ (∀ s1,
       agent_id (name req) ≠ EmptyString →
       scaffold host req (initial f) = (Normal tt, s1) →
       telegram_check host req ≠ Invalid →
       let v := is_verified (telegram_check host req) in
       match (config_attempt host req v (fs s1)).1 with
       | Normal _ =>
           ∃ c0 c1,
             files f !! configPath host = Some (Json c0)
             ∧ files (run host req f).1.2 !! configPath host = Some (Json c1)
             ∧ c1 = mutate_config (agent_id (name req)) (token_str req) v c0
             ∧ a2a_flag c1 = Some true
             ∧ (v = true →
                account_of (agent_id (name req)) c1 =
                  Some (telegram_account (token_str req)))
       | Throw e =>
           files (run host req f).1.2 !! configPath host = files f !! configPath host
           ∧ ∃ steps,
               (run host req f).1.1 = Returned (success host req steps)
               ∧ "⚠️ Config update: " +:+ Str.substring0 80 e ∈ steps
       | Return _ => False
       end).
Proof.
  split; [apply account_bind_telegram |]. split; [by intros [] |]. split.
  - destruct (run_config host req f) as [H | (c0 & H0 & H1)]; [by left |].
    right. eexists c0, _. split; [done |]. split; [exact H1 |].
    split; [done |]. split; [by destruct (is_verified _) |].
    intros ->. apply account_bind_telegram.
  - intros s1 Hid Hs Hk. cbv zeta.
    destruct (run_config_attempt host req f s1 Hid Hs Hk) as (steps & R & W & C).
    destruct (config_attempt host req _ (fs s1)).1 as [[]|r|e]; [| done |].
    + destruct C as (c0 & C0 & C1). eexists c0, _.
      split; [done |]. split; [exact C1 |]. split; [done |].
      split; [by destruct (is_verified _) |].
      intros ->. apply account_bind_telegram.
    + split; [done |]. exists steps. split; [done |].
      apply W. simpl. apply list_elem_of_here.
Qed.

(** C7 (amended). When the id is not empty, the guard and the scaffolding
    complete, and the token is not reported invalid, [createAgent] returns a
    result with [ok] true whatever the later calls do, and every later call
    but one that fails adds its warning line and nothing else.  The step log
    is fixed by the outcomes: after the registration the success line, or
    the registration warning when the command failed; after the token check
    its success line, or its warning when the call threw or its answer did
    not parse; after the configuration step the two success lines when its
    [try] block completed, and the warning with the message of the error
    when it threw (the file could not be read, parsed or written, or the
    sessions directory not made), in which case the file is left as it was;
    after the dashboard step the success line when its block completed and
    the registry lists the agent, and the warning with the message of the
    error when it threw, in which case nothing has changed; after the reload
    its success line or one of its two warnings.  The one exception is the
    identity call, which logs nothing of its outcome: the line "Setting
    identity" is followed by "Configuring agent permissions" whether it
    failed or not. *)
Theorem best_effort_degradation (host : Host) (req : Request) (f : FS) (s1 : State) :
  agent_id (name req) ≠ EmptyString →
  scaffold host req (initial f) = (Normal tt, s1) →
  telegram_check host req ≠ Invalid →
  let v := is_verified (telegram_check host req) in
  let cfg := config_attempt host req v (fs s1) in
  let dash := dashboard_attempt host req cfg.2 in
  ∃ steps t,
    run host req f = (Returned (success host req steps), dash.2, t)
    ∧ ok (success host req steps) = true
    ∧ steps =
        ["📁 Creating workspace at ~/clawd-agents/" +:+ agent_id (name req);
         "📝 Writing identity files";
         "🔗 Registering with gateway"; register_line host req;
         emoji req +:+ " Setting identity";
         "🔄 Configuring agent permissions"]
        ++ check_lines (telegram_check host req)
        ++ config_lines req v cfg.1
        ++ ["🏰 Adding to Clawd Control"; dashboard_line dash.1;
            "🔄 Reloading gateway config"; reload_line host;
            "🎉 " +:+ displayName req +:+ " is ready!"]
    ∧ match cfg.1 with
      | Normal _ =>
          ∃ c, files f !! configPath host = Some (Json c)
            ∧ files dash.2 !! configPath host =
                Some (Json (mutate_config (agent_id (name req)) (token_str req) v c))
      | Throw e => files dash.2 !! configPath host = files f !! configPath host
      | Return _ => False
      end
    ∧ match dash.1 with
      | Normal _ => agent_id (name req) ∈ de_id <$> entries_of host dash.2
      | Throw e => dash.2 = cfg.2
      | Return _ => False
      end
    ∧ ((files f !! configPath host = None → ∃ e, cfg.1 = Throw e)
       ∧ (∀ t, files f !! configPath host = Some (Text t) →
            cfg.1 = Throw (syntax_error host t))
       ∧ (∀ c e s, files f !! configPath host = Some (Json c) →
            mkdirSync host (sessions_dir host req) (initial (fs s1)) = (Throw e, s) →
            cfg.1 = Throw e)
       ∧ (∀ c s e, files f !! configPath host = Some (Json c) →
            mkdirSync host (sessions_dir host req) (initial (fs s1)) = (Normal tt, s) →
            write_error host (fs s) (configPath host) = Some e →
            cfg.1 = Throw e))
    ∧ ((files cfg.2 !! registryPath host = None → ∃ e, dash.1 = Throw e)
       ∧ (∀ t, files cfg.2 !! registryPath host = Some (Text t) →
            dash.1 = Throw (syntax_error host t))
       ∧ (∀ d, files cfg.2 !! registryPath host = Some (Json d) →
            (∀ l, agents d ≠ Some (AgentsArr l)) →
            ∃ e, dash.1 = Throw e)
       ∧ (agent_id (name req) ∉ de_id <$> entries_of host cfg.2 →
            (config_of host cfg.2 = None
             ∨ (∃ e, exec host Cmd.hostname = ExecErr e)
             ∨ is_Some (write_error host cfg.2 (registryPath host))) →
            ∃ e, dash.1 = Throw e)).
Proof.
  intros Hid Hs Hk. cbv zeta.
  destruct (scaffold_normal host req _ _ Hs) as (_ & Hc & Hl). simpl in Hc.
  destruct (enroll_attempts host req s1 Hk) as (s' & E & F & L).
  exists (log s'), (trace s').
  split; [| split; [done | split; [| split; [| split; [| split]]]]].
  - rewrite <- F.
    apply (run_unfold host req f (Normal (success host req (log s'))) s').
    rewrite createAgent_scaffold_enroll by done.
    unfold mbind, M_bind. rewrite Hs. exact E.
  - rewrite L, Hl. simpl. reflexivity.
  - set (v := is_verified (telegram_check host req)).
    pose proof (config_attempt_cases host req v (fs s1)) as C.
    pose proof (dashboard_attempt_keeps host req (config_attempt host req v (fs s1)).2)
      as K.
    rewrite K. rewrite <- Hc.
    destruct (config_attempt host req v (fs s1)).1 as [[]|r|e]; [| done |].
    + destruct C as (c & C1 & C2). exists c. split; [done |].
      rewrite C2. apply lookup_insert_eq.
    + by rewrite C.
  - apply dashboard_attempt_cases.
  - rewrite <- Hc. apply config_attempt_throws.
  - apply dashboard_attempt_throws.
Qed.

(** C8 (amended). Both failures abort the workflow, at different
    boundaries.  When creating a directory throws, the error is caught and
    [createAgent] returns the failure "Failed to create workspace: <message>"
    with the one-line step log.  When the directories are created and
    writing the documents throws, nothing catches the error: the call of
    [createAgent] is rejected with that message and returns no result. *)
Theorem scaffolding_failure_boundaries (host : Host) (req : Request) (f : FS)
    (s0 : State) :
  agent_id (name req) ≠ EmptyString →
  existence_guard host req (initial f) = (Normal tt, s0) →
  (∀ s1 e s2,
     push ("📁 Creating workspace at ~/clawd-agents/" +:+ agent_id (name req)) s0
       = (Normal tt, s1) →
     make_dirs host req s1 = (Throw e, s2) →
     run host req f =
       (Returned (Failure ("Failed to create workspace: " +:+ e)
          ["📁 Creating workspace at ~/clawd-agents/" +:+ agent_id (name req)]),
        fs s2, trace s2))
  ∧ (∀ s1 e s2,
       create_workspace host req s0 = (Normal tt, s1) →
       scaffold_files host req s1 = (Throw e, s2) →
       run host req f = (Rejected e, fs s2, trace s2)).
Proof.
  intros Hid Hg.
  pose proof (existence_guard_log host req (initial f)) as L0.
  rewrite Hg in L0. unfold same_log in L0. simpl in L0.
  split.
  - intros s1 e s2 Hp Hm.
    pose proof (make_dirs_log host req s1) as L1. rewrite Hm in L1.
    unfold same_log in L1. simpl in L1.
    unfold push in Hp. injection Hp as <-. simpl in *.
    apply (run_unfold host req f (Return _) s2).
    unfold createAgent. destruct (agent_id (name req)) eqn:E; [done |]. simpl.
    unfold mbind at 1, M_bind at 1. rewrite Hg.
    unfold provision. unfold mbind at 1, M_bind at 1.
    unfold create_workspace. unfold mbind at 1, M_bind at 1. unfold push at 1.
    unfold try_catch. rewrite E. rewrite Hm.
    unfold mbind, M_bind, get_steps, return_. simpl.
    rewrite L1, L0. done.
  - intros s1 e s2 Hc Hf.
    apply (run_unfold host req f (Throw e) s2).
    rewrite createAgent_scaffold_enroll by done.
    unfold scaffold. unfold mbind, M_bind. by rewrite Hg, Hc, Hf.
Qed.

Lemma mutate_unverified_keeps (i tok : string) (c : Doc) :
  channels (mutate_config i tok false c) = channels c
  ∧ bindings (mutate_config i tok false c) = bindings c.
Proof. destruct c as [[[[l|]|]|] ch bs ts gw]; done. Qed.

(** C10. A token is supplied and its verification degraded (the provider
    call failed or its output did not parse).  Then every successful run
    returns [hasTelegram] true and the message "... Open Telegram and
    message the bot to start chatting.", while the channels and the bindings
    of the gateway configuration are what they were before the run. *)
Theorem degraded_verification_reports_telegram (host : Host) (req : Request)
    (f f' : FS) (tok : string) (r : Result) (t : list event) :
  telegramToken req = Some tok → tok ≠ EmptyString →
  (∃ e, exec host (Cmd.getMe tok) = ExecErr e)
  ∨ (∃ out, exec host (Cmd.getMe tok) = ExecOk out ∧ out_json out = None) →
  run host req f = (Returned r, f', t) →
  ok r = true →
  (∃ steps,
     r = Success (agent_id (name req)) (displayName req) (emoji req)
           (path_str (workspace host req)) (model req) true
           (displayName req +:+ " is live! Open Telegram and message the bot to start chatting.")
           steps)
  ∧ channels <$> config_of host f' = channels <$> config_of host f
  ∧ bindings <$> config_of host f' = bindings <$> config_of host f.
Proof.
  intros Htok Hne Hdeg Hrun Hok.
  destruct (has_token_some req tok Htok Hne) as [Ht Hh].
  assert (Hk : ∃ e, telegram_check host req = Degraded e).
  { unfold telegram_check. rewrite Hh, Ht.
    destruct Hdeg as [[e ->] | (out & -> & ->)]; eauto. }
  destruct Hk as [e Hk].
  split.
  - destruct (decide (agent_id (name req) = EmptyString)) as [Hid|Hid].
    { unfold run, createAgent in Hrun. rewrite Hid in Hrun. simpl in Hrun.
      injection Hrun as <- _ _. done. }
    unfold run in Hrun. rewrite createAgent_scaffold_enroll in Hrun by done.
    unfold mbind, M_bind in Hrun.
    pose proof (scaffold_fails_only host req (initial f)) as Hf.
    destruct (scaffold host req (initial f)) as [[[]|r0|e0] s1]; simpl in *.
    + destruct (enroll_ok host req s1) as (s' & cfg & dash & E & _);
        [by rewrite Hk |].
      rewrite E in Hrun. simpl in Hrun. injection Hrun as <- _ _.
      unfold success, success_message. rewrite Hh. eauto.
    + injection Hrun as <- _ _. congruence.
    + done.
  - assert (Hf' : f' = (run host req f).1.2) by (by rewrite Hrun).
    unfold config_of. rewrite Hf'.
    destruct (run_config host req f) as [-> | (c & -> & ->)]; [done |].
    rewrite Hk.
    change (is_verified (Degraded e)) with false.
    destruct (mutate_unverified_keeps (agent_id (name req)) (token_str req) c)
      as [E1 E2].
    unfold fmap, option_fmap, option_map. cbv beta iota. by rewrite E1, E2.
Qed.

(** ** The theorems at concrete inputs *)

Import Scenario.

Lemma with_state {A B} (x : A * B) (a : A) : x.1 = a → x = (a, x.2).
Proof. destruct x. simpl. by intros ->. Qed.

Ltac evaluate := apply with_state; vm_compute; reflexivity.

(** The example of the specification: a request for "Nova" without a
    token, on a disk whose gateway configuration holds only a main agent. *)
Example nova_scenario :
  (run plain nova disk).1.1 =
    Returned (Success "nova" "Nova" "🌟" "/home/u/clawd-agents/nova" "gpt-test"
      false "Nova is live! Add a Telegram bot later to chat directly."
      ["📁 Creating workspace at ~/clawd-agents/nova";
       "📝 Writing identity files"; "🔗 Registering with gateway";
       "✅ Agent registered"; "🌟 Setting identity";
       "🔄 Configuring agent permissions";
       "✅ Cross-agent permissions configured"; "⏭️ Telegram skipped";
       "🏰 Adding to Clawd Control"; "✅ Dashboard updated";
       "🔄 Reloading gateway config";
       "✅ Config reloaded (sessions preserved)"; "🎉 Nova is ready!"])
  ∧ match config_of plain (run plain nova disk).1.2 with
    | Some c => allow_list <$> main_agent c
    | None => None
    end = Some ["nova"]
  ∧ forallb (λ p, path_exists (run plain nova disk).1.2 (join (workspace plain nova) p))
      ["SOUL.md"; "IDENTITY.md"; "MEMORY.md"; "TASKS.md"; "TOOLS.md";
       "HEARTBEAT.md"; "BOOTSTRAP.md"; ".gitignore"] = true.
Proof. vm_compute. done. Qed.

(** C9, on a name whose first character lies outside the BMP: the code
    leaves the name as it is, where the first character upper-cased gives
    another name. *)
Lemma astral_initial_not_capitalized :
  display_name deseret_name = deseret_name
  ∧ spec_display_name deseret_name = deseret_capital
  ∧ display_name deseret_name ≠ spec_display_name deseret_name.
Proof. vm_compute. repeat split; [done.. | discriminate]. Qed.

Lemma identifier_derivation_witness :
  agent_id "İstanbul K2" = "istanbulk2"
  ∧ display_name "nova Prime" = "Nova Prime"
  ∧ display_name "élan" = "Élan".
Proof.
  destruct (identifier_derivation "nova Prime") as (_ & _ & H & _).
  destruct (identifier_derivation "élan") as (_ & _ & _ & K).
  split; [| split].
  - rewrite (proj1 (identifier_derivation "İstanbul K2")). vm_compute. reflexivity.
  - apply (H "n"%char "ova Prime"); [reflexivity | vm_compute; reflexivity].
  - apply (K 0xE9%N 0xC9%N 2); vm_compute; reflexivity.
Defined.

(** C3 at a name without any letter or digit. *)
Lemma invalid_name_witness :
  run plain nameless disk =
    (Returned (Failure "Invalid name" ["❌ Name is invalid"]), disk, []).
Proof.
  apply (invalid_name_no_effect plain nameless disk).
  vm_compute. reflexivity.
Defined.

(** C4 on the existing configuration file and on a file written twice. *)
Lemma write_if_missing_witness :
  let p := configPath plain in
  let s1 := (writeIfMissing plain (join home "notes.md") (Text "first") (initial disk)).2 in
  writeIfMissing plain p (Text "other") (initial disk) = (Normal false, initial disk)
  ∧ writeIfMissing plain (join home "notes.md") (Text "second") s1 = (Normal false, s1)
  ∧ files (fs s1) !! join home "notes.md" = Some (Text "first").
Proof.
  split.
  - apply (write_if_missing_idempotent plain (configPath plain)
             (Text "other") (Text "other") (initial disk)).
    vm_compute. reflexivity.
  - apply (proj2 (write_if_missing_idempotent plain (join home "notes.md")
                    (Text "first") (Text "second") (initial disk)) true).
    evaluate.
Defined.

(** C5 with a gateway that lists the agent and with one that is not installed. *)
Lemma existence_guard_witness :
  run taken nova disk =
    (Returned (Failure "Agent already exists"
       ["❌ Agent " +:+ Str.quoted "nova" +:+ " already exists"]),
     disk, [EExec Cmd.agents_list])
  ∧ createAgent offline nova (initial disk) =
      provision offline nova
        {| fs := disk; log := []; trace := [EExec Cmd.agents_list] |}.
Proof.
  split.
  - eapply (proj1 (existence_guard_sound taken nova disk ltac:(vm_compute; discriminate))).
    + vm_compute. reflexivity.
    + reflexivity.
    + vm_compute. reflexivity.
  - apply (proj2 (existence_guard_sound offline nova disk ltac:(vm_compute; discriminate))).
    left. eexists. vm_compute. reflexivity.
Defined.

(** C2 (amended) on a configuration that holds only a main agent. *)
Lemma config_mutation_witness :
  let twice := mutate_config "nova" bot_token true
                 (mutate_config "nova" bot_token true gateway_doc) in
  twice = mutate_config "nova" bot_token true gateway_doc
  ∧ (∃ a', main_agent twice = Some a' ∧ occurrences "nova" (allow_list a') = 1)
  ∧ account_of "nova" twice = Some (telegram_account bot_token)
  ∧ length (routing "nova" twice) = 1.
Proof.
  destruct (config_mutation_idempotent "nova" bot_token true gateway_doc)
    as (H1 & H2 & H3).
  split; [exact H1 |]. split.
  - destruct (H2 {| agent_ident := "main"; subagents := None |} eq_refl)
      as (a' & Ha & _ & Hone).
    exists a'. split; [exact Ha |]. apply Hone. vm_compute. lia.
  - destruct (H3 eq_refl) as (Ha & _ & Hone).
    split; [exact Ha |]. apply Hone. vm_compute. lia.
Defined.

(** C1 with a provider that rejects the token. *)
Lemma rejected_token_witness :
  (run rejecting nova_bot disk).1.1 =
    Returned (Failure "Invalid Telegram bot token"
      ["📁 Creating workspace at ~/clawd-agents/" +:+ agent_id (name nova_bot);
       "📝 Writing identity files";
       "🔗 Registering with gateway"; register_line rejecting nova_bot;
       emoji nova_bot +:+ " Setting identity";
       "🔄 Configuring agent permissions";
       "📱 Verifying Telegram bot token"; "❌ Telegram token is invalid"])
  ∧ files (run rejecting nova_bot disk).1.2 !! configPath rejecting
      = files disk !! configPath rejecting
  ∧ workspace rejecting nova_bot ∈ dirs (run rejecting nova_bot disk).1.2.
Proof.
  eapply (rejected_token_is_fatal rejecting nova_bot disk _ bot_token _ _ _
            (run rejecting nova_bot disk).2).
  - vm_compute. discriminate.
  - reflexivity.
  - vm_compute. discriminate.
  - by destruct (run rejecting nova_bot disk) as [[? ?] ?].
  - vm_compute. tauto.
  - vm_compute. reflexivity.
  - reflexivity.
  - reflexivity.
Defined.

(** C6 with a provider that accepts the token. *)
Lemma telegram_account_witness :
  ∃ c1,
    files (run accepting nova_bot disk).1.2 !! configPath accepting = Some (Json c1)
    ∧ a2a_flag c1 = Some true
    ∧ account_of "nova" c1 = Some (telegram_account bot_token).
Proof.
  destruct (telegram_account_and_messaging_flag accepting nova_bot disk
              "nova" bot_token gateway_doc) as (_ & _ & [H | H] & _).
  - exfalso. revert H. vm_compute. discriminate.
  - destruct H as (c0 & c1 & _ & H1 & _ & H2 & H3).
    exists c1. split; [exact H1 |]. split; [exact H2 |].
    apply H3. vm_compute. reflexivity.
Defined.

(** C7 (amended) with a provider that cannot be reached. *)
Lemma best_effort_witness :
  ∃ f' t,
    run unreachable nova_bot disk =
      (Returned (success unreachable nova_bot
         ["📁 Creating workspace at ~/clawd-agents/nova";
          "📝 Writing identity files"; "🔗 Registering with gateway";
          "✅ Agent registered"; "🌟 Setting identity";
          "🔄 Configuring agent permissions";
          "📱 Verifying Telegram bot token";
          "⚠️ Telegram verification failed: Command failed: curl -s";
          "✅ Cross-agent permissions configured";
          "⏭️ Telegram binding skipped (verification failed)";
          "🏰 Adding to Clawd Control"; "✅ Dashboard updated";
          "🔄 Reloading gateway config";
          "✅ Config reloaded (sessions preserved)"; "🎉 Nova is ready!"]),
       f', t)
    ∧ agent_id (name nova_bot) ∈ de_id <$> entries_of unreachable f'.
Proof.
  destruct (best_effort_degradation unreachable nova_bot disk
              (scaffold unreachable nova_bot (initial disk)).2)
    as (steps & t & R & _ & S & _ & D & _).
  - vm_compute. discriminate.
  - evaluate.
  - vm_compute. discriminate.
  - eexists _, t. split.
    + rewrite R, S.
      apply (f_equal (λ l, (Returned (success unreachable nova_bot l), _, t))).
      vm_compute. reflexivity.
    + assert (E : (dashboard_attempt unreachable nova_bot
                     (config_attempt unreachable nova_bot
                        (is_verified (telegram_check unreachable nova_bot))
                        (fs (scaffold unreachable nova_bot (initial disk)).2)).2).1
                  = Normal tt) by (vm_compute; reflexivity).
      rewrite E in D. exact D.
Defined.

(** C8 (amended) with a directory, then a document, that cannot be written. *)
Lemma scaffolding_failure_witness :
  (run readonly_dirs nova disk).1.1 =
    Returned (Failure
      ("Failed to create workspace: EACCES: permission denied, mkdir '"
       +:+ path_str (join (workspace plain nova) "memory") +:+ "'")
      ["📁 Creating workspace at ~/clawd-agents/nova"])
  ∧ (run readonly_docs nova disk).1.1 =
      Rejected ("EACCES: permission denied, open '"
                +:+ path_str (join (workspace plain nova) "SOUL.md") +:+ "'").
Proof.
  split.
  - set (s0 := (existence_guard readonly_dirs nova (initial disk)).2).
    set (s1 := (push "📁 Creating workspace at ~/clawd-agents/nova" s0).2).
    exact (f_equal (λ x, x.1.1)
      (proj1 (scaffolding_failure_boundaries readonly_dirs nova disk s0
          ltac:(vm_compute; discriminate) ltac:(evaluate))
        s1 ("EACCES: permission denied, mkdir '"
            +:+ path_str (join (workspace plain nova) "memory") +:+ "'")
        (make_dirs readonly_dirs nova s1).2 ltac:(evaluate) ltac:(evaluate))).
  - set (s0 := (existence_guard readonly_docs nova (initial disk)).2).
    set (s1 := (create_workspace readonly_docs nova s0).2).
    exact (f_equal (λ x, x.1.1)
      (proj2 (scaffolding_failure_boundaries readonly_docs nova disk s0
          ltac:(vm_compute; discriminate) ltac:(evaluate))
        s1 ("EACCES: permission denied, open '"
            +:+ path_str (join (workspace plain nova) "SOUL.md") +:+ "'")
        (scaffold_files readonly_docs nova s1).2 ltac:(evaluate) ltac:(evaluate))).
Defined.

(** C10 with a provider that cannot be reached. *)
Lemma degraded_verification_witness :
  (∃ steps,
     (run unreachable nova_bot disk).1.1 =
       Returned (Success "nova" "Nova" "🌟" (path_str (workspace unreachable nova_bot))
         "gpt-test" true
         "Nova is live! Open Telegram and message the bot to start chatting." steps))
  ∧ channels <$> config_of unreachable (run unreachable nova_bot disk).1.2
      = channels <$> config_of unreachable disk
  ∧ bindings <$> config_of unreachable (run unreachable nova_bot disk).1.2
      = bindings <$> config_of unreachable disk.
Proof.
  set (r := Success "nova" "Nova" "🌟" (path_str (workspace unreachable nova_bot))
              "gpt-test" true
              "Nova is live! Open Telegram and message the bot to start chatting."
              (result_steps (success unreachable nova_bot
                 (match (run unreachable nova_bot disk).1.1 with
                  | Returned x => result_steps x
                  | Rejected _ => []
                  end)))).
  assert (Hr : run unreachable nova_bot disk =
               (Returned r, (run unreachable nova_bot disk).1.2,
                (run unreachable nova_bot disk).2)).
  { apply with_state. simpl. apply with_state. vm_compute. reflexivity. }
  destruct (degraded_verification_reports_telegram unreachable nova_bot disk _
              bot_token r _ eq_refl ltac:(vm_compute; discriminate)
              ltac:(left; eexists; vm_compute; reflexivity) Hr eq_refl)
    as ((steps & Hs) & H2 & H3).
  split; [| split; [exact H2 | exact H3]].
  exists steps. transitivity (Returned r).
  - exact (f_equal (λ x, x.1.1) Hr).
  - rewrite Hs. reflexivity.
Defined.

(** ** Where the code departs from the specification *)

(** C2: a list that already names the agent twice still names it twice
    after the edits, and so do the bindings. *)
Lemma duplicates_survive_mutation :
  let twice := mutate_config "nova" bot_token true
                 (mutate_config "nova" bot_token true duplicated) in
  (allow_list <$> main_agent twice) = Some ["nova"; "nova"]
  ∧ (occurrences "nova" <$> (allow_list <$> main_agent twice)) = Some 2
  ∧ length (routing "nova" twice) = 2.
Proof. vm_compute. done. Qed.

(** C6: a token the provider accepts, on a disk without a gateway
    configuration.  The run reaches the configuration step and ends in
    success, and no configuration holds the flag or the account. *)
Lemma missing_config_sets_no_flag :
  telegram_check accepting nova_bot = Verified (Some "nova_bot")
  ∧ (run accepting nova_bot bare).1.1 =
      Returned (Success "nova" "Nova" "🌟" "/home/u/clawd-agents/nova" "gpt-test"
        true "Nova is live! Open Telegram and message the bot to start chatting."
        ["📁 Creating workspace at ~/clawd-agents/nova";
         "📝 Writing identity files"; "🔗 Registering with gateway";
         "✅ Agent registered"; "🌟 Setting identity";
         "🔄 Configuring agent permissions";
         "📱 Verifying Telegram bot token"; "✅ Verified: @nova_bot";
         "⚠️ Config update: ENOENT: no such file or directory, open '/home/u/.clawdbot/clawdbot.json'";
         "🏰 Adding to Clawd Control";
         "⚠️ Dashboard: ENOENT: no such file or directory, open '/home/u/.clawdbot/clawdbot.json'";
         "🔄 Reloading gateway config";
         "✅ Config reloaded (sessions preserved)"; "🎉 Nova is ready!"])
  ∧ files (run accepting nova_bot bare).1.2 !! configPath accepting = None
  ∧ (a2a_flag <$> config_of accepting (run accepting nova_bot bare).1.2) = None
  ∧ (account_of "nova" <$> config_of accepting (run accepting nova_bot bare).1.2) = None.
Proof. vm_compute. done. Qed.

(** C7: the identity call fails and the step log holds no warning. *)
Lemma identity_failure_is_silent :
  exec mute_identity (Cmd.set_identity "nova" "Nova" "🌟")
    = ExecErr "Command failed: clawdbot agents set-identity"
  ∧ (run mute_identity nova disk).1.1 =
      Returned (Success "nova" "Nova" "🌟" "/home/u/clawd-agents/nova" "gpt-test"
        false "Nova is live! Add a Telegram bot later to chat directly."
        ["📁 Creating workspace at ~/clawd-agents/nova";
         "📝 Writing identity files"; "🔗 Registering with gateway";
         "✅ Agent registered"; "🌟 Setting identity";
         "🔄 Configuring agent permissions";
         "✅ Cross-agent permissions configured"; "⏭️ Telegram skipped";
         "🏰 Adding to Clawd Control"; "✅ Dashboard updated";
         "🔄 Reloading gateway config";
         "✅ Config reloaded (sessions preserved)"; "🎉 Nova is ready!"])
  ∧ (∀ r, (run mute_identity nova disk).1.1 = Returned r →
          existsb is_warning (result_steps r) = false).
Proof.
  split; [vm_compute; reflexivity |]. split; [vm_compute; reflexivity |].
  intros r. vm_compute. intros [= <-]. reflexivity.
Qed.

(** C8: a document that cannot be written makes the call throw; no result
    is returned. *)
Lemma document_write_failure_throws :
  (run readonly_docs nova disk).1.1 =
    Rejected "EACCES: permission denied, open '/home/u/clawd-agents/nova/SOUL.md'"
  ∧ (∀ r, (run readonly_docs nova disk).1.1 ≠ Returned r)
  ∧ (run readonly_dirs nova disk).1.1 =
      Returned (Failure
        "Failed to create workspace: EACCES: permission denied, mkdir '/home/u/clawd-agents/nova/memory'"
        ["📁 Creating workspace at ~/clawd-agents/nova"]).
Proof.
  split; [vm_compute; reflexivity |]. split; [| vm_compute; reflexivity].
  intros r. vm_compute. discriminate.
Qed.

(** * Further properties of the code *)

(** ** The id and the display name (lines 46-47) *)

Lemma filter_all (p : ascii → bool) (s : string) :
  Str.all_chars p (Str.filter_chars p s) = true.
Proof.
  induction s as [|c r IH]; simpl; [done |].
  destruct (p c) eqn:E; simpl; [by rewrite E | done].
Qed.

Lemma spec_agent_id_length (name : string) :
  String.length (spec_agent_id name) ≤ String.length name.
Proof.
  induction name as [|c r IH]; [done |].
  change (spec_agent_id (String c r)) with
    (if String.prefix kelvin_sign (String c r) then String "k" (spec_agent_id r)
     else if String.prefix dotted_capital_i (String c r)
          then String "i" (spec_agent_id r)
          else match swap_letter capital_letters small_letters c with
               | Some l => String l (spec_agent_id r)
               | None => if occurs c id_alphabet then String c (spec_agent_id r)
                         else spec_agent_id r
               end).
  repeat case_match; simpl; lia.
Qed.

Lemma spec_id_char (c : ascii) (r : string) :
  Str.id_char c = true → spec_agent_id (String c r) = String c (spec_agent_id r).
Proof. each_byte c; intros H; vm_compute in H; try discriminate H; reflexivity. Qed.

Lemma spec_agent_id_fixed (s : string) :
  Str.all_chars Str.id_char s = true → spec_agent_id s = s.
Proof.
  induction s as [|c r IH]; [done |]. intros H. simpl in H.
  apply andb_prop in H as [Hc Hr]. by rewrite spec_id_char, IH.
Qed.

(** X1. The id holds only characters of [[a-z0-9-]], is never longer than
    the name, and normalizing an id again gives the same id. *)
Theorem agent_id_normal_form (name : string) :
  Str.all_chars Str.id_char (agent_id name) = true
  ∧ String.length (agent_id name) ≤ String.length name
  ∧ agent_id (agent_id name) = agent_id name.
Proof.
  split; [apply filter_all |]. split.
  - rewrite agent_id_spec. apply spec_agent_id_length.
  - rewrite (agent_id_spec (agent_id name)).
    apply spec_agent_id_fixed, filter_all.
Qed.

Lemma ascii_code (c : ascii) :
  Nat.ltb (nat_of_ascii c) 128 = true → (Str.code c <? 0x80)%N = true.
Proof. each_byte c; intros H; vm_compute in H; try discriminate H; reflexivity. Qed.

Lemma capital_same_id (c : ascii) (r : string) :
  (Str.code c <? 0x80)%N = true →
  spec_agent_id (String (default c (swap_letter small_letters capital_letters c)) r)
    = spec_agent_id (String c r).
Proof. each_byte c; intros H; vm_compute in H; try discriminate H; reflexivity. Qed.

Lemma capital_of_capital (c : ascii) :
  (Str.code c <? 0x80)%N = true →
  let c' := default c (swap_letter small_letters capital_letters c) in
  (Str.code c' <? 0x80)%N = true
  ∧ default c' (swap_letter small_letters capital_letters c') = c'.
Proof.
  each_byte c; intros H; vm_compute in H; try discriminate H; split; reflexivity.
Qed.

(** X2. For a name of ASCII characters, the capitalization made for the
    display name is invisible to the id: the name and its display name
    normalize to the same id; capitalizing twice changes nothing more, and
    the display name is as long as the name. *)
Theorem display_name_same_id (name : string) :
  ascii_name name = true →
  agent_id (display_name name) = agent_id name
  ∧ display_name (display_name name) = display_name name
  ∧ String.length (display_name name) = String.length name.
Proof.
  destruct name as [|c r]; [done |]. unfold ascii_name. simpl.
  intros H. apply andb_prop in H as [Hc _]. apply ascii_code in Hc.
  destruct (capital_of_capital c Hc) as [H1 H2].
  rewrite (display_name_ascii c r Hc).
  split; [| split; [| done]].
  - rewrite !agent_id_spec. by apply capital_same_id.
  - rewrite display_name_ascii by done. by rewrite H2.
Qed.

(** ** The configuration edits (lines 238-288) *)

Lemma edit_first_lookup_other {A} (p : A → bool) (f : A → A) (l : list A)
    (k : nat) (a : A) :
  l !! k = Some a → p a = false → edit_first p f l !! k = Some a.
Proof.
  revert k. induction l as [|b r IH]; intros k; [done |].
  simpl. destruct k as [|k]; simpl.
  - intros [= ->] Hp. by rewrite Hp.
  - intros H Hp. destruct (p b); simpl; [done | by apply IH].
Qed.

Lemma map_edit_first {A B} (p : A → bool) (f : A → A) (g : A → B) (l : list A) :
  (∀ a, g (f a) = g a) → map g (edit_first p f l) = map g l.
Proof.
  intros H. induction l as [|b r IH]; simpl; [done |].
  destruct (p b); simpl; [by rewrite H | by rewrite IH].
Qed.

Lemma find_edit_first_some {A} (p q : A → bool) (f : A → A) (l : list A) :
  (∀ a, q (f a) = q a) →
  is_Some (find q l) → is_Some (find q (edit_first p f l)).
Proof.
  intros H. induction l as [|b r IH]; simpl; [done |].
  destruct (p b); simpl.
  - rewrite H. by destruct (q b).
  - by destruct (q b).
Qed.

Lemma has_id_false (i : string) (a : Agent) :
  agent_ident a ≠ i → has_id i a = false.
Proof. intros H. unfold has_id. by apply String.eqb_neq. Qed.

(** X3. The cross-agent edits keep the agents of the list, in order and
    with their ids; an agent that is neither "main" nor the new one is left
    exactly as it was; the new agent, when the list has it, ends with the
    allow-list ["main"]; channels, bindings, tools and gateway settings are
    not touched. *)
Theorem cross_agent_leaves_others (i : string) (c : Doc) :
  map agent_ident (agent_list (cross_agent i c)) = map agent_ident (agent_list c)
  ∧ (∀ k a, agent_list c !! k = Some a →
       agent_ident a ≠ "main" → agent_ident a ≠ i →
       agent_list (cross_agent i c) !! k = Some a)
  ∧ (∀ a, find (has_id i) (agent_list c) = Some a →
       ∃ a', find (has_id i) (agent_list (cross_agent i c)) = Some a'
         ∧ allow_list a' = ["main"])
  ∧ channels (cross_agent i c) = channels c
  ∧ bindings (cross_agent i c) = bindings c
  ∧ tools (cross_agent i c) = tools c
  ∧ gateway (cross_agent i c) = gateway c.
Proof.
  destruct c as [[[[l|]|]|] ch bs ts gw];
    try (repeat split; try done; intros; simplify_eq/=; done).
  rewrite (cross_agent_list i l) by done.
  unfold agent_list. simpl.
  split; [| split; [| split; [| done]]].
  - rewrite !map_edit_first; done.
  - intros k a Hk Hm Hi.
    apply edit_first_lookup_other; [| by apply has_id_false].
    apply edit_first_lookup_other; [done | by apply has_id_false].
  - intros a Ha.
    rewrite find_edit_first by apply has_id_allow_main.
    destruct (find_edit_first_some (has_id "main") (has_id i) (allow_spawn i) l)
      as [b Hb]; [apply has_id_allow_spawn | by rewrite Ha |].
    rewrite Hb. simpl. eauto.
Qed.

(** X4. Binding the Telegram account of one agent leaves every other
    account as it was, keeps the existing bindings in place and adds at most
    one after them, and keeps the [enabled] flag of a Telegram section that
    was already there (a section created here is enabled); agents, tools
    and gateway settings are not touched. *)
Theorem bind_telegram_leaves_others (i tok : string) (c : Doc) :
  (∀ j, j ≠ i → account_of j (bind_telegram i tok c) = account_of j c)
  ∧ (∃ extra, bindings (bind_telegram i tok c) = Some (default [] (bindings c) ++ extra)
              ∧ length extra ≤ 1)
  ∧ (tg_enabled <$> telegram_of (bind_telegram i tok c)) =
      Some (match telegram_of c with
            | Some tg => tg_enabled tg
            | None => Some true
            end)
  ∧ agents (bind_telegram i tok c) = agents c
  ∧ tools (bind_telegram i tok c) = tools c
  ∧ gateway (bind_telegram i tok c) = gateway c.
Proof.
  split; [| split; [| split; [| done]]].
  - intros j Hj. unfold account_of, account_map, bind_telegram.
    destruct (channels c) as [[[[en [m|]]|]]|]; simpl;
      apply lookup_insert_ne; congruence.
  - unfold bind_telegram. simpl.
    destruct (existsb (routes i) (default [] (bindings c))).
    + exists []. split; [by rewrite app_nil_r | simpl; lia].
    + eexists. split; [done |]. simpl. lia.
  - unfold telegram_of, bind_telegram. simpl.
    destruct (channels c) as [[[tg|]]|]; done.
Qed.

(** ** [writeIfMissing] and the shared files (lines 36-42, 183-191) *)

Lemma writeIfMissing_cases (host : Host) (p : path) (c : content) (s : State) :
  match writeIfMissing host p c s with
  | (Normal false, s') => path_exists (fs s) p = true ∧ s' = s
  | (Normal true, s') =>
      path_exists (fs s) p = false ∧ write_error host (fs s) p = None
      ∧ fs s' = set_file p c (fs s)
  | (Throw e, s') =>
      path_exists (fs s) p = false ∧ write_error host (fs s) p = Some e
      ∧ fs s' = fs s
  | (Return _, _) => False
  end.
Proof.
  unfold writeIfMissing, existsSync, writeFileSync. munfold. simpl.
  destruct (path_exists (fs s) p) eqn:E; simpl; [done |].
  destruct (write_error host (fs s) p); simpl; done.
Qed.

Lemma copy_one_spec (host : Host) (req : Request) (file : string) (s : State) :
  match copy_one host req file s with
  | (Normal _, s') =>
      dirs (fs s') = dirs (fs s)
      ∧ files (fs s') =
          copied (join (DEFAULT_WORKSPACE host) file)
                 (join (workspace host req) file) (fs s)
  | (Throw _, s') => fs s' = fs s
  | (Return _, _) => False
  end.
Proof.
  unfold copy_one, existsSync, copyFileSync, copied. munfold. simpl.
  set (src := join (DEFAULT_WORKSPACE host) file).
  set (dst := join (workspace host req) file).
  destruct (path_exists (fs s) dst) eqn:Ed; simpl.
  - rewrite andb_false_r. done.
  - rewrite andb_true_r. unfold path_exists at 1.
    destruct (files (fs s) !! src) as [c|] eqn:Es; simpl.
    + destruct (write_error host (fs s) dst); simpl; rewrite ?Es; done.
    + destruct (bool_decide (src ∈ dirs (fs s))); simpl; rewrite ?Es; done.
Qed.

Lemma shared_files_cases (file : string) :
  file ∈ shared_files ↔ file = "AGENTS.md" ∨ file = "USER.md".
Proof.
  unfold shared_files. rewrite !elem_of_cons, elem_of_nil. tauto.
Qed.

Lemma copy_shared_unfold (host : Host) (req : Request) :
  copy_shared host req = for_each shared_files (copy_one host req).
Proof. reflexivity. Qed.

Lemma copied_lookup (src dst p : path) (f : FS) :
  copied src dst f !! p =
    if bool_decide (p = dst) && negb (path_exists f dst)
    then files f !! src else files f !! p.
Proof.
  unfold copied. destruct (path_exists f dst) eqn:E; simpl.
  - by rewrite andb_false_r.
  - rewrite andb_true_r. case_bool_decide as Hp.
    + subst p. destruct (files f !! src) eqn:Es; [by rewrite lookup_insert_eq |].
      unfold path_exists in E. by destruct (files f !! dst).
    + destruct (files f !! src); [by rewrite lookup_insert_ne |]. done.
Qed.

(** X6. The two shared files: when neither source exists the step does
    nothing and does not fail; when the step completes, a destination that
    existed is left as it was, a missing destination holds what its source
    held, and every other file and every directory is as before. *)
Theorem copy_shared_effect (host : Host) (req : Request) (s : State) :
  ((∀ file, file ∈ shared_files →
      path_exists (fs s) (join (DEFAULT_WORKSPACE host) file) = false) →
   copy_shared host req s = (Normal tt, s))
  ∧ (∀ s', copy_shared host req s = (Normal tt, s') →
       (∀ file, file ∈ shared_files →
          files (fs s') !! join (workspace host req) file =
            if path_exists (fs s) (join (workspace host req) file)
            then files (fs s) !! join (workspace host req) file
            else files (fs s) !! join (DEFAULT_WORKSPACE host) file)
       ∧ (∀ p, (∀ file, file ∈ shared_files → p ≠ join (workspace host req) file) →
            files (fs s') !! p = files (fs s) !! p)
       ∧ dirs (fs s') = dirs (fs s)).
Proof.
  assert (Hne : ∀ a b : path, join a "AGENTS.md" ≠ join b "USER.md")
    by (intros a b; apply join_ne; discriminate).
  split.
  - intros H.
    pose proof (H "AGENTS.md" ltac:(apply shared_files_cases; tauto)) as H1.
    pose proof (H "USER.md" ltac:(apply shared_files_cases; tauto)) as H2.
    unfold copy_shared, existsSync. simpl. munfold. simpl.
    rewrite H1. simpl. rewrite H2. simpl. by destruct s.
  - intros s'. rewrite copy_shared_unfold. unfold shared_files at 1. simpl.
    unfold mbind, M_bind.
    pose proof (copy_one_spec host req "AGENTS.md" s) as H1.
    destruct (copy_one host req "AGENTS.md" s) as [[[]|r|e] s1]; [| done..].
    pose proof (copy_one_spec host req "USER.md" s1) as H2.
    destruct (copy_one host req "USER.md" s1) as [[[]|r|e] s2]; [| done..].
    unfold mret, M_ret. intros [= <-].
    destruct H1 as [D1 F1], H2 as [D2 F2].
    set (ws := workspace host req) in *. set (dw := DEFAULT_WORKSPACE host) in *.
    assert (E2 : path_exists (fs s1) (join ws "USER.md")
                 = path_exists (fs s) (join ws "USER.md")).
    { unfold path_exists. rewrite F1, D1, copied_lookup.
      rewrite bool_decide_eq_false_2 by (apply not_eq_sym, Hne). done. }
    assert (S2 : files (fs s1) !! join dw "USER.md" = files (fs s) !! join dw "USER.md").
    { rewrite F1, copied_lookup.
      rewrite bool_decide_eq_false_2 by (apply not_eq_sym, Hne). done. }
    split; [| split; [| congruence]].
    + intros file Hf.
      apply shared_files_cases in Hf as [-> | ->].
      * rewrite F2, copied_lookup.
        rewrite bool_decide_eq_false_2 by apply Hne. simpl.
        rewrite F1, copied_lookup, bool_decide_eq_true_2 by done. simpl.
        by destruct (path_exists (fs s) (join ws "AGENTS.md")).
      * rewrite F2, copied_lookup, bool_decide_eq_true_2 by done. simpl.
        rewrite E2, S2.
        destruct (path_exists (fs s) (join ws "USER.md")); simpl; [| done].
        rewrite F1, copied_lookup.
        rewrite bool_decide_eq_false_2 by (apply not_eq_sym, Hne). done.
    + intros p Hp.
      pose proof (Hp "AGENTS.md" ltac:(apply shared_files_cases; tauto)) as P1.
      pose proof (Hp "USER.md" ltac:(apply shared_files_cases; tauto)) as P2.
      rewrite F2, copied_lookup, bool_decide_eq_false_2 by done. simpl.
      rewrite F1, copied_lookup, bool_decide_eq_false_2 by done. done.
Qed.

(** ** What a run never does to the disk *)

#[local] Instance conservative_preorder (host : Host) : PreOrder (conservative host).
Proof.
  split.
  - intros f. unfold conservative. auto.
  - intros f g h (D1 & E1 & K1) (D2 & E2 & K2). unfold conservative.
    split; [set_solver |]. split; [auto |].
    intros p c Hp H1 H2. apply K2; auto.
Qed.

Lemma conservative_exists (host : Host) (f f' : FS) (p : path) :
  conservative host f f' → path_exists f p = true → path_exists f' p = true.
Proof.
  intros (D & E & _). unfold path_exists.
  destruct (files f !! p) as [c|] eqn:Hf.
  - intros _. destruct (E p) as [c' ->]; [by rewrite Hf | done].
  - intros H. apply bool_decide_eq_true in H.
    destruct (files f' !! p); [done |]. apply bool_decide_eq_true. set_solver.
Qed.

Lemma conservative_set_file_new (host : Host) (f : FS) (p : path) (c : content) :
  files f !! p = None → conservative host f (set_file p c f).
Proof.
  intros Hp. unfold conservative, set_file. simpl.
  split; [done |]. split.
  - intros q [d Hq]. destruct (decide (p = q)) as [<- | Hne]; [congruence |].
    rewrite lookup_insert_ne by done. by rewrite Hq.
  - intros q d Hq _ _. destruct (decide (p = q)) as [<- | Hne]; [congruence |].
    by rewrite lookup_insert_ne.
Qed.

Lemma conservative_set_file_managed (host : Host) (f : FS) (p : path) (c : content) :
  p = configPath host ∨ p = registryPath host → conservative host f (set_file p c f).
Proof.
  intros Hp. unfold conservative, set_file. simpl.
  split; [done |]. split.
  - intros q [d Hq]. destruct (decide (p = q)) as [<- | Hne].
    + by rewrite lookup_insert_eq.
    + rewrite lookup_insert_ne by done. by rewrite Hq.
  - intros q d Hq H1 H2. rewrite lookup_insert_ne; [done |].
    intros <-. tauto.
Qed.

Lemma pres_cons_mkdirSync (host : Host) (p : path) :
  preserves (on_fs (conservative host)) (mkdirSync host p).
Proof.
  intros s. unfold on_fs, mkdirSync. munfold. simpl.
  repeat case_match; simpl; try reflexivity.
  unfold conservative, add_dirs. simpl. split; [set_solver | auto].
Qed.

Lemma pres_cons_writeIfMissing (host : Host) (p : path) (c : content) :
  preserves (on_fs (conservative host)) (writeIfMissing host p c).
Proof.
  intros s. unfold on_fs.
  pose proof (writeIfMissing_cases host p c s) as H.
  destruct (writeIfMissing host p c s) as [[[]|r|e] s']; simpl.
  - destruct H as (He & _ & ->). apply conservative_set_file_new.
    unfold path_exists in He. by destruct (files (fs s) !! p).
  - destruct H as [_ ->]. reflexivity.
  - done.
  - destruct H as (_ & _ & ->). reflexivity.
Qed.

Lemma pres_cons_writeFileSync (host : Host) (p : path) (c : content) :
  p = configPath host ∨ p = registryPath host →
  preserves (on_fs (conservative host)) (writeFileSync host p c).
Proof.
  intros Hp s. unfold on_fs, writeFileSync. munfold. simpl.
  repeat case_match; simpl; try reflexivity.
  by apply conservative_set_file_managed.
Qed.

Lemma pres_cons_copy_shared (host : Host) (req : Request) :
  preserves (on_fs (conservative host)) (copy_shared host req).
Proof.
  rewrite copy_shared_unfold. apply pres_for_each; [apply _ |].
  intros file s. unfold on_fs.
  pose proof (copy_one_spec host req file s) as H.
  destruct (copy_one host req file s) as [[[]|r|e] s']; simpl.
  - destruct H as [D F]. unfold copied in F.
    destruct (path_exists (fs s) _) eqn:E.
    + split; [by rewrite D |]. rewrite F. auto.
    + destruct (files (fs s) !! join (DEFAULT_WORKSPACE host) file) as [c|].
      * assert (Hn : files (fs s) !! join (workspace host req) file = None).
        { unfold path_exists in E. by destruct (files (fs s) !! _). }
        pose proof (conservative_set_file_new host (fs s) _ c Hn) as (D' & E' & K').
        unfold set_file in *. simpl in *.
        split; [by rewrite D |]. rewrite F. auto.
      * split; [by rewrite D |]. rewrite F. auto.
  - done.
  - rewrite H. reflexivity.
Qed.

Ltac conserve :=
  cbv zeta;
  pres_with ltac:(idtac; match goal with
    | |- preserves _ (copy_shared _ _) => apply pres_cons_copy_shared
    | |- preserves _ (mkdirSync _ _) => apply pres_cons_mkdirSync
    | |- preserves _ (writeIfMissing _ _ _) => apply pres_cons_writeIfMissing
    | |- preserves _ (writeFileSync _ _ _) => apply pres_cons_writeFileSync; tauto
    end).

Lemma scaffold_conservative (host : Host) (req : Request) :
  preserves (on_fs (conservative host)) (scaffold host req).
Proof.
  unfold scaffold, existence_guard, create_workspace, make_dirs,
    scaffold_files, write_documents.
  conserve.
Qed.

Lemma enroll_conservative (host : Host) (req : Request) :
  preserves (on_fs (conservative host)) (enroll host req).
Proof.
  unfold enroll, register, set_identity, integrate,
    verify_telegram, configure, configure_body, update_dashboard,
    dashboard_body, hot_reload, finish.
  conserve.
Qed.

Lemma createAgent_conservative (host : Host) (req : Request) :
  preserves (on_fs (conservative host)) (createAgent host req).
Proof.
  intros s. destruct (decide (agent_id (name req) = EmptyString)) as [E | E].
  - unfold createAgent. rewrite E. reflexivity.
  - rewrite createAgent_scaffold_enroll by done.
    apply pres_bind; [apply _ | apply scaffold_conservative |].
    intros _. apply enroll_conservative.
Qed.

(** X8. No run overwrites a file: a file that existed before the call,
    other than the gateway configuration and the dashboard registry, holds
    the same content after it, however the call ends. *)
Theorem createAgent_never_overwrites (host : Host) (req : Request) (f : FS)
    (p : path) (c : content) :
  files f !! p = Some c →
  p ≠ configPath host → p ≠ registryPath host →
  files (run host req f).1.2 !! p = Some c.
Proof.
  pose proof (createAgent_conservative host req (initial f)) as (_ & _ & H).
  apply H.
Qed.

(** ** What a successful run has put on the disk *)

Section Establish.

Context (host : Host) (Q : FS → Prop).
Hypothesis Q_kept : ∀ f f', Q f → conservative host f f' → Q f'.

Lemma est_here {A B} (m : M A) (k : A → M B) :
  establishes Q m →
  (∀ a, preserves (on_fs (conservative host)) (k a)) →
  establishes Q (m ≫= k).
Proof.
  intros Hm Hk s b s'. unfold mbind, M_bind.
  destruct (m s) as [[a|r|e] s1] eqn:E; [| done..].
  intros H. specialize (Hk a s1). rewrite H in Hk.
  apply Q_kept with (fs s1); [by eapply Hm | exact Hk].
Qed.

Lemma est_later {A B} (m : M A) (k : A → M B) :
  (∀ a, establishes Q (k a)) → establishes Q (m ≫= k).
Proof.
  intros Hk s b s'. unfold mbind, M_bind.
  destruct (m s) as [[a|r|e] s1]; [| done..]. apply Hk.
Qed.

Lemma est_try {A} (m : M A) (h : string → M A) :
  establishes Q m → (∀ e, establishes Q (h e)) → establishes Q (try_catch m h).
Proof.
  intros Hm Hh s a s'. unfold try_catch.
  destruct (m s) as [[a'|r|e] s1] eqn:E; [| done |].
  - intros [= <- <-]. by eapply Hm.
  - apply Hh.
Qed.

End Establish.

Lemma exists_kept (host : Host) (p : path) (f f' : FS) :
  path_exists f p = true → conservative host f f' → path_exists f' p = true.
Proof. intros H C. by apply conservative_exists with host f. Qed.

Lemma dir_kept (host : Host) (p : path) (f f' : FS) :
  p ∈ dirs f → conservative host f f' → p ∈ dirs f'.
Proof. intros H (D & _). set_solver. Qed.

Lemma est_writeIfMissing (host : Host) (p : path) (c : content) :
  establishes (λ f, path_exists f p = true) (writeIfMissing host p c).
Proof.
  intros s b s' H.
  pose proof (writeIfMissing_cases host p c s) as K. rewrite H in K.
  destruct b.
  - destruct K as (_ & _ & ->). unfold path_exists, set_file. simpl.
    by rewrite lookup_insert_eq.
  - by destruct K as [K ->].
Qed.

Lemma est_mkdirSync (host : Host) (p d : path) :
  d ∈ ancestors p → establishes (λ f, d ∈ dirs f) (mkdirSync host p).
Proof.
  intros Hd s [] s' H. by eapply mkdirSync_normal.
Qed.

Lemma ancestors_self (p : path) : p ≠ [] → p ∈ ancestors p.
Proof.
  intros H. pose proof (ancestors_app p [] H) as K. by rewrite app_nil_r in K.
Qed.

Lemma est_return {A} (Q : FS → Prop) (r : Result) : establishes Q (@return_ A r).
Proof. by intros s a s'. Qed.

Lemma workspace_dirs_cases (d : string) :
  d ∈ workspace_dirs →
  d = "memory" ∨ d = "skills" ∨ d = "scripts" ∨ d = ".credentials".
Proof. unfold workspace_dirs. rewrite !elem_of_cons, elem_of_nil. tauto. Qed.

Lemma document_names_cases (d : string) :
  d ∈ document_names →
  d = "SOUL.md" ∨ d = "IDENTITY.md" ∨ d = "MEMORY.md" ∨ d = "TASKS.md"
  ∨ d = "TOOLS.md" ∨ d = "HEARTBEAT.md" ∨ d = "BOOTSTRAP.md" ∨ d = ".gitignore".
Proof. unfold document_names. rewrite !elem_of_cons, elem_of_nil. tauto. Qed.

Ltac establish host tac :=
  first
    [ match goal with
      | |- establishes _ (return_ _) => apply est_return
      end
    | solve [tac]
    | apply (est_here host);
      [ first [exact (exists_kept host _) | exact (dir_kept host _)]
      | establish host tac
      | intros ?; conserve; fail ]
    | apply est_later; intros ?; establish host tac
    | apply est_try; [establish host tac | intros ?; establish host tac]
    | match goal with
      | |- establishes _ (if ?b then _ else _) => destruct b; establish host tac
      end ].

Lemma scaffold_documents (host : Host) (req : Request) (d : string) :
  d ∈ document_names →
  establishes (λ f, path_exists f (join (workspace host req) d) = true)
    (scaffold host req).
Proof.
  intros Hd. apply document_names_cases in Hd.
  unfold scaffold, create_workspace, scaffold_files, write_documents.
  destruct Hd as [->|[->|[->|[->|[->|[->|[->| ->]]]]]]];
    establish host ltac:(idtac; match goal with
      | |- establishes _ (writeIfMissing _ _ _) => apply est_writeIfMissing
      end).
Qed.

Lemma workspace_not_root (host : Host) (req : Request) : workspace host req ≠ [].
Proof. unfold workspace, join. by destruct (BASE_DIR host). Qed.

Lemma scaffold_directories (host : Host) (req : Request) (d : path) :
  d = workspace host req
  ∨ (∃ x, x ∈ workspace_dirs ∧ d = join (workspace host req) x) →
  establishes (λ f, d ∈ dirs f) (scaffold host req).
Proof.
  intros Hd.
  unfold scaffold, create_workspace, make_dirs, scaffold_files, write_documents.
  destruct Hd as [-> | (x & Hx & ->)].
  - establish host ltac:(idtac; match goal with
      | |- establishes _ (mkdirSync _ _) =>
          apply est_mkdirSync, ancestors_app, workspace_not_root
      end).
  - apply workspace_dirs_cases in Hx.
    destruct Hx as [->|[->|[->| ->]]];
      establish host ltac:(idtac; match goal with
        | |- establishes _ (mkdirSync _ _) =>
            apply est_mkdirSync, ancestors_self; unfold join;
            by destruct (workspace host req)
        end).
Qed.

Lemma createAgent_establishes (host : Host) (req : Request) (Q : FS → Prop) :
  (∀ f f', Q f → conservative host f f' → Q f') →
  establishes Q (scaffold host req) →
  establishes Q (createAgent host req).
Proof.
  intros HQ HS s r s'.
  destruct (decide (agent_id (name req) = EmptyString)) as [E | E].
  - unfold createAgent. rewrite E. done.
  - rewrite createAgent_scaffold_enroll by done.
    apply (est_here host Q HQ); [done |].
    intros _. apply enroll_conservative.
Qed.

Lemma createAgent_fails_only (host : Host) (req : Request) :
  fails_only (createAgent host req).
Proof.
  unfold createAgent, existence_guard, provision, create_workspace, make_dirs,
    scaffold_files, write_documents, copy_shared, writeIfMissing, register,
    set_identity, integrate, verify_telegram, configure, configure_body, update_dashboard,
    dashboard_body,
    hot_reload, finish.
  cbv zeta. fails.
Qed.

Lemma run_success (host : Host) (req : Request) (f f' : FS) (t : list event)
    (r : Result) :
  run host req f = (Returned r, f', t) → ok r = true →
  ∃ s', createAgent host req (initial f) = (Normal r, s') ∧ fs s' = f'.
Proof.
  unfold run. intros H Hok.
  pose proof (createAgent_fails_only host req (initial f)) as K.
  destruct (createAgent host req (initial f)) as [[a|r'|e] s'];
    simpl in *; [| congruence..].
  - exists s'. split; congruence.
Qed.

(** X9. After a successful run the workspace is complete: the workspace
    directory and its four subdirectories are there, and each of the eight
    documents exists. *)
Theorem success_workspace_complete (host : Host) (req : Request) (f f' : FS)
    (t : list event) (r : Result) :
  run host req f = (Returned r, f', t) →
  ok r = true →
  workspace host req ∈ dirs f'
  ∧ (∀ d, d ∈ workspace_dirs → join (workspace host req) d ∈ dirs f')
  ∧ (∀ d, d ∈ document_names →
       path_exists f' (join (workspace host req) d) = true).
Proof.
  intros H Hok.
  destruct (run_success host req f f' t r H Hok) as (s' & E & <-).
  split; [| split].
  - eapply createAgent_establishes; [apply dir_kept | | exact E].
    apply scaffold_directories. by left.
  - intros d Hd.
    eapply createAgent_establishes; [apply dir_kept | | exact E].
    apply scaffold_directories. right. eauto.
  - intros d Hd.
    eapply createAgent_establishes; [apply exists_kept | | exact E].
    by apply scaffold_documents.
Qed.

(** ** Where a run writes *)

#[local] Instance within_preorder (allowed made : list path) :
  PreOrder (within allowed made).
Proof.
  split.
  - intros f. split; auto.
  - intros f g h [F1 D1] [F2 D2]. split.
    + intros p Hp. rewrite F2, F1; done.
    + intros d Hd. destruct (D2 d Hd) as [H | H]; auto.
Qed.

Lemma within_mono (a a' m m' : list path) (f f' : FS) :
  a ⊆ a' → m ⊆ m' → within a m f f' → within a' m' f f'.
Proof.
  intros Ha Hm [F D]. split.
  - intros p Hp. apply F. intros H. by apply Hp, Ha.
  - intros d Hd. destruct (D d Hd) as [H | (t & Ht & H)]; [by left |].
    right. exists t. split; [by apply Hm | done].
Qed.

Lemma pres_within_mono (a a' m m' : list path) {A} (k : M A) :
  a ⊆ a' → m ⊆ m' →
  preserves (on_fs (within a m)) k → preserves (on_fs (within a' m')) k.
Proof. intros Ha Hm H s. eapply within_mono; [done.. | apply H]. Qed.

Lemma pres_within_mkdirSync (host : Host) (allowed made : list path) (p : path) :
  p ∈ made → preserves (on_fs (within allowed made)) (mkdirSync host p).
Proof.
  intros Hp s. unfold on_fs, mkdirSync. munfold. simpl.
  repeat case_match; simpl; try reflexivity.
  split; simpl; [done |].
  intros d Hd. apply elem_of_union in Hd as [Hd | Hd]; [by left |].
  right. exists p. split; [done |]. by apply elem_of_list_to_set in Hd.
Qed.

Lemma pres_within_writeFileSync (host : Host) (allowed made : list path)
    (p : path) (c : content) :
  p ∈ allowed → preserves (on_fs (within allowed made)) (writeFileSync host p c).
Proof.
  intros Hp s. unfold on_fs, writeFileSync. munfold. simpl.
  repeat case_match; simpl; try reflexivity.
  split; simpl; [| by left].
  intros q Hq. apply lookup_insert_ne. congruence.
Qed.

Lemma pres_within_copyFileSync (host : Host) (allowed made : list path)
    (src p : path) :
  p ∈ allowed → preserves (on_fs (within allowed made)) (copyFileSync host src p).
Proof.
  intros Hp s. unfold on_fs, copyFileSync. munfold. simpl.
  repeat case_match; simpl; try reflexivity.
  split; simpl; [| by left].
  intros q Hq. apply lookup_insert_ne. congruence.
Qed.

Lemma pres_within_writeIfMissing (host : Host) (allowed made : list path)
    (p : path) (c : content) :
  p ∈ allowed → preserves (on_fs (within allowed made)) (writeIfMissing host p c).
Proof.
  intros Hp. unfold writeIfMissing.
  pres_with ltac:(apply pres_within_writeFileSync; done).
Qed.

Ltac listed :=
  unfold workspace_files, made_dirs, sessions_dir, document_names, shared_files,
    workspace_dirs; simpl;
  rewrite ?elem_of_app, !elem_of_cons; tauto.

Ltac confine :=
  cbv zeta;
  pres_with ltac:(idtac; match goal with
    | |- preserves _ (mkdirSync _ _) => apply pres_within_mkdirSync; listed
    | |- preserves _ (writeIfMissing _ _ _) => apply pres_within_writeIfMissing; listed
    | |- preserves _ (copyFileSync _ _ _) => apply pres_within_copyFileSync; listed
    | |- preserves _ (writeFileSync _ _ _) => apply pres_within_writeFileSync; listed
    end).

Lemma scaffold_within (host : Host) (req : Request) :
  preserves
    (on_fs (within (workspace_files host req)
                   (join (workspace host req) <$> workspace_dirs)))
    (scaffold host req).
Proof.
  unfold scaffold, existence_guard, create_workspace, make_dirs,
    scaffold_files, write_documents, copy_shared.
  simpl for_each. confine.
Qed.

Lemma enroll_within (host : Host) (req : Request) :
  preserves
    (on_fs (within [configPath host; registryPath host] [sessions_dir host req]))
    (enroll host req).
Proof.
  unfold enroll, register, set_identity, integrate,
    verify_telegram, configure, configure_body, update_dashboard,
    dashboard_body, hot_reload, finish.
  confine.
Qed.

Lemma createAgent_within (host : Host) (req : Request) :
  preserves
    (on_fs (within (workspace_files host req ++ [configPath host; registryPath host])
                   (made_dirs host req)))
    (createAgent host req).
Proof.
  intros s. destruct (decide (agent_id (name req) = EmptyString)) as [E | E].
  - unfold createAgent. rewrite E. reflexivity.
  - rewrite createAgent_scaffold_enroll by done.
    apply pres_bind; [apply _ | |].
    + eapply pres_within_mono; [| | apply scaffold_within];
        intros x Hx; apply elem_of_app; by left.
    + intros _. eapply pres_within_mono; [| | apply enroll_within];
        intros x Hx; apply elem_of_app; by right.
Qed.

Lemma managed_not_workspace (host : Host) (req : Request) :
  (configPath host ∉ workspace_files host req)
  ∧ (registryPath host ∉ workspace_files host req).
Proof.
  unfold workspace_files, document_names, shared_files. simpl.
  rewrite !elem_of_cons, !elem_of_nil.
  split; intros H;
    repeat (destruct H as [H | H];
            [exfalso; unfold configPath, registryPath in H;
             eapply join_ne; [| exact H]; discriminate |]);
    exact H.
Qed.

(** X10. A run changes no file other than the documents of the workspace,
    the gateway configuration and the dashboard registry, and every
    directory it creates is a workspace directory, the sessions directory
    of the agent, or an ancestor of one of them. *)
Theorem createAgent_changes_only (host : Host) (req : Request) (f : FS) :
  (∀ p, p ∉ workspace_files host req →
        p ≠ configPath host → p ≠ registryPath host →
        files (run host req f).1.2 !! p = files f !! p)
  ∧ (∀ d, d ∈ dirs (run host req f).1.2 →
        d ∈ dirs f ∨ ∃ t, t ∈ made_dirs host req ∧ d ∈ ancestors t).
Proof.
  pose proof (createAgent_within host req (initial f)) as [F D].
  split; [| exact D].
  intros p H1 H2 H3. apply F.
  rewrite elem_of_app, !elem_of_cons, elem_of_nil. tauto.
Qed.

(** ** The dashboard registry (lines 299-322) *)

Lemma gateway_port_nonzero (c : Doc) : gateway_port c ≠ 0%Z.
Proof.
  unfold gateway_port. destruct (gateway c) as [g|]; [| done].
  destruct (port g) as [p|]; [| done].
  destruct (Z.eqb_spec p 0); done.
Qed.

Lemma registry_ne_config (host : Host) : registryPath host ≠ configPath host.
Proof. unfold registryPath. apply configPath_ne_join. discriminate. Qed.

Lemma existsb_de_id (i : string) (l : list DashEntry) :
  existsb (λ a, String.eqb (de_id a) i) l = false → i ∉ de_id <$> l.
Proof.
  induction l as [|a l IH]; simpl.
  - intros _. apply not_elem_of_nil.
  - intros H. apply orb_false_iff in H as [H1 H2].
    apply String.eqb_neq in H1. rewrite elem_of_cons. intros [-> | H]; [done |].
    by apply IH.
Qed.

Lemma update_dashboard_registry (host : Host) (req : Request) (s : State) :
  fs (update_dashboard host req s).2 = fs s
  ∨ ∃ d entries e,
      files (fs s) !! registryPath host = Some (Json d)
      ∧ agents d = Some (AgentsArr entries)
      ∧ (agent_id (name req) ∉ (de_id <$> entries))
      ∧ fs (update_dashboard host req s).2 =
          set_file (registryPath host)
            (Json (with_entries d (entries ++ [e]))) (fs s)
      ∧ registered host req (fs s) e.
Proof.
  unfold update_dashboard, dashboard_body, readFileSync, JSON_parse, as_entries, execSync,
    writeFileSync.
  munfold. simpl.
  destruct (files (fs s) !! registryPath host) as [[t|d]|] eqn:Hr; simpl; [by left | | by left].
  destruct (agents d) as [[l|entries]|] eqn:Ha; simpl; [by left | | by left].
  destruct (existsb _ entries) eqn:Hex; simpl; [by left |].
  destruct (files (fs s) !! configPath host) as [[t|c]|] eqn:Hc; simpl; [by left | | by left].
  destruct (exec host Cmd.hostname); simpl; [| by left].
  destruct (write_error _ _ _); simpl; [by left |].
  right. eexists d, entries, _. split; [done |]. split; [done |].
  split; [by apply existsb_de_id |]. split; [reflexivity |].
  unfold registered, config_of. simpl. rewrite Hc.
  repeat split; try done; [apply gateway_port_nonzero | by exists c].
Qed.

Lemma configure_within (host : Host) (req : Request) (v : bool) :
  preserves (on_fs (within [configPath host] [sessions_dir host req]))
    (configure host req v).
Proof. unfold configure, configure_body. confine. Qed.

Lemma enroll_dashboard (host : Host) (req : Request) (s1 : State) :
  fs (enroll host req s1).2 = fs s1
  ∨ ∃ s5, within [configPath host] [sessions_dir host req] (fs s1) (fs s5)
        ∧ fs (enroll host req s1).2 = fs (update_dashboard host req s5).2.
Proof.
  destruct (check_invalid_or_not (telegram_check host req)) as [Hk | Hk].
  { left. destruct (enroll_invalid host req s1 Hk) as (s' & -> & F & _). done. }
  right. unfold enroll, integrate. unfold mbind, M_bind.
  destruct (register_spec host req s1) as (s2 & E2 & F2 & L2). rewrite E2.
  destruct (set_identity_spec host req s2) as (s3 & E3 & F3 & L3). rewrite E3.
  unfold push at 1.
  destruct (verify_telegram_spec host req
              {| fs := fs s3; log := log s3 ++ ["🔄 Configuring agent permissions"];
                 trace := trace s3 |}) as (s4 & F4 & L4 & E4).
  simpl in F4.
  assert (Hv : verify_telegram host req
                 {| fs := fs s3;
                    log := log s3 ++ ["🔄 Configuring agent permissions"];
                    trace := trace s3 |}
               = (Normal (is_verified (telegram_check host req)), s4))
    by (rewrite E4; destruct (telegram_check host req); done).
  rewrite Hv. clear Hv E4.
  pose proof (configure_within host req (is_verified (telegram_check host req)) s4) as W.
  destruct (configure_spec host req (is_verified (telegram_check host req)) s4)
    as (s5 & cfg & E5 & _). rewrite E5 in *. simpl in W.
  exists s5. split; [by rewrite <- F2, <- F3, <- F4 |].
  destruct (update_dashboard_spec host req s5) as (s6 & dash & E6 & _).
  rewrite E6.
  destruct (hot_reload_spec host s6) as (s7 & E7 & F7 & _). rewrite E7.
  rewrite finish_spec. simpl. done.
Qed.

(** X12. Whatever the outcome of a run, the dashboard registry keeps its
    entries, in order, and gains at most one.  An entry is added only when
    no entry has the id; it names the agent and its workspace, points at
    host 127.0.0.1, and carries the port (never 0) and the token of the
    gateway configuration as it is on disk after the run. *)
Theorem registry_gains_at_most_one (host : Host) (req : Request) (f : FS) :
  ∃ extra,
    entries_of host (run host req f).1.2 = entries_of host f ++ extra
    ∧ length extra ≤ 1
    ∧ ∀ e, e ∈ extra →
        (agent_id (name req) ∉ (de_id <$> entries_of host f))
        ∧ registered host req (run host req f).1.2 e.
Proof.
  assert (Same : ∀ f', files f' !! registryPath host = files f !! registryPath host →
    ∃ extra, entries_of host f' = entries_of host f ++ extra
      ∧ length extra ≤ 1
      ∧ ∀ e, e ∈ extra →
          (agent_id (name req) ∉ (de_id <$> entries_of host f))
          ∧ registered host req f' e).
  { intros f' H. exists []. unfold entries_of. rewrite H, app_nil_r.
    split; [done |]. split; [simpl; lia |]. intros e He.
    by apply elem_of_nil in He. }
  unfold run. simpl.
  destruct (decide (agent_id (name req) = EmptyString)) as [E | E].
  { apply Same. unfold createAgent. by rewrite E. }
  rewrite createAgent_scaffold_enroll by done.
  unfold mbind, M_bind.
  pose proof (scaffold_within host req (initial f)) as [F _].
  destruct (managed_not_workspace host req) as [Nc Nr].
  destruct (scaffold host req (initial f)) as [[[]|r|e] s1]; simpl in F;
    [| apply Same; simpl; by apply F..].
  destruct (enroll_dashboard host req s1) as [-> | (s5 & [W _] & ->)];
    [apply Same; by apply F |].
  assert (Hr : files (fs s5) !! registryPath host = files f !! registryPath host).
  { rewrite W; [by apply F |].
    rewrite elem_of_cons, elem_of_nil. pose proof (registry_ne_config host). tauto. }
  destruct (update_dashboard_registry host req s5)
    as [-> | (d & entries & e & Hd & Ha & Hn & -> & Hreg)].
  { by apply Same. }
  rewrite Hr in Hd.
  assert (Old : entries_of host f = entries).
  { unfold entries_of. by rewrite Hd, Ha. }
  exists [e]. split; [| split; [simpl; lia |]].
  - rewrite Old. unfold entries_of, set_file. simpl.
    by rewrite lookup_insert_eq.
  - intros e' He. apply list_elem_of_singleton in He as ->.
    rewrite Old. split; [done |].
    destruct Hreg as (H1 & H2 & H3 & H4 & H5 & H6 & c & Hc & H7 & H8).
    repeat split; try done. exists c. split; [| done].
    revert Hc. unfold config_of, set_file. simpl.
    rewrite lookup_insert_ne by apply registry_ne_config. done.
Qed.

(** X13. The line the registry step logs tells what is on the disk.  The
    step always completes; it logs "Dashboard updated" only when the
    registry then lists the agent, and otherwise it logs a warning and leaves
    every file as it was. *)
Theorem dashboard_line_is_truthful (host : Host) (req : Request) (s : State) :
  ∃ s' line,
    update_dashboard host req s = (Normal tt, s')
    ∧ log s' = log s ++ ["🏰 Adding to Clawd Control"; line]
    ∧ ((line = "✅ Dashboard updated"
        ∧ agent_id (name req) ∈ de_id <$> entries_of host (fs s'))
       ∨ ((∃ e, line = "⚠️ Dashboard: " +:+ Str.substring0 80 e)
          ∧ files (fs s') = files (fs s))).
Proof.
  unfold update_dashboard, dashboard_body, readFileSync, JSON_parse, as_entries, execSync,
    writeFileSync, entries_of.
  munfold. simpl.
  assert (Warn : ∀ e tr,
    ∃ s' line,
      (Normal (), {| fs := fs s;
                     log := (log s ++ ["🏰 Adding to Clawd Control"])
                            ++ ["⚠️ Dashboard: " +:+ Str.substring0 80 e];
                     trace := tr |}) = (Normal (), s')
      ∧ log s' = log s ++ ["🏰 Adding to Clawd Control"; line]
      ∧ ((line = "✅ Dashboard updated"
          ∧ agent_id (name req) ∈
              de_id <$> match files (fs s') !! registryPath host with
                        | Some (Json d) =>
                            match agents d with
                            | Some (AgentsArr l) => l
                            | _ => []
                            end
                        | _ => []
                        end)
         ∨ ((∃ e, line = "⚠️ Dashboard: " +:+ Str.substring0 80 e)
            ∧ files (fs s') = files (fs s)))).
  { intros e tr. eexists _, _. split; [reflexivity |]. simpl.
    split; [by rewrite <- app_assoc |]. right. eauto. }
  destruct (files (fs s) !! registryPath host) as [[t|d]|] eqn:Hr; simpl;
    [apply Warn | | apply Warn].
  destruct (agents d) as [[l|entries]|] eqn:Ha; simpl; [apply Warn | | apply Warn].
  destruct (existsb _ entries) eqn:Hex; simpl.
  { eexists _, _. split; [reflexivity |]. simpl.
    split; [by rewrite <- app_assoc |]. left. split; [done |].
    rewrite Hr, Ha. by apply existsb_de_id_true. }
  destruct (files (fs s) !! configPath host) as [[t|c]|]; simpl;
    [apply Warn | | apply Warn].
  destruct (exec host Cmd.hostname); simpl; [| apply Warn].
  destruct (write_error _ _ _); simpl; [apply Warn |].
  eexists _, _. split; [reflexivity |]. simpl.
  split; [by rewrite <- app_assoc |]. left. split; [done |].
  rewrite lookup_insert_eq. simpl.
  rewrite fmap_app. apply elem_of_app. right. apply list_elem_of_here.
Qed.

(** ** What a run can return *)

Section Returns.

Context (P : Result → Prop).

Lemma rets_bind {A B} (m : M A) (k : A → M B) :
  returns_only P m → (∀ a, returns_only P (k a)) → returns_only P (m ≫= k).
Proof.
  intros Hm Hk s. unfold mbind, M_bind.
  specialize (Hm s). destruct (m s) as [[a|r|e] s1]; simpl in *; [| done..].
  apply Hk.
Qed.

Lemma rets_try {A} (m : M A) (h : string → M A) :
  returns_only P m → (∀ e, returns_only P (h e)) → returns_only P (try_catch m h).
Proof.
  intros Hm Hh s. unfold try_catch.
  specialize (Hm s). destruct (m s) as [[a|r|e] s1]; simpl in *; [done.. |].
  apply Hh.
Qed.

Lemma rets_for_each {A} (l : list A) (body : A → M unit) :
  (∀ x, returns_only P (body x)) → returns_only P (for_each l body).
Proof.
  intros H. induction l as [|x r IH]; simpl; [done |].
  apply rets_bind; [apply H | done].
Qed.

Lemma rets_return {A} (r : Result) : P r → returns_only P (@return_ A r).
Proof. intros H s. exact H. Qed.

End Returns.

Ltac returns tac :=
  repeat first
    [ match goal with
      | |- returns_only _ (return_ _) => apply rets_return; tac
      end
    | apply rets_bind; [| intros ?]
    | apply rets_try; [| intros ?]
    | apply rets_for_each; intros ?
    | match goal with
      | |- returns_only _ (if ?b then _ else _) => destruct b
      end
    | intros ?; unfold_prims; repeat case_match; done ].

Lemma scaffold_returns (host : Host) (req : Request) :
  returns_only scaffold_failure (scaffold host req).
Proof.
  unfold scaffold, existence_guard, create_workspace, make_dirs, scaffold_files,
    write_documents, copy_shared, writeIfMissing.
  returns ltac:(unfold scaffold_failure; eauto).
Qed.

(** X14. The results of [createAgent] are of five kinds, and no other:
    the success record built from the request; "Invalid name", exactly when
    the id is empty; "Agent already exists"; "Failed to create workspace"
    followed by the error; and "Invalid Telegram bot token", only when the
    provider's answer was parsed and its [ok] was not true. *)
Theorem result_classification (host : Host) (req : Request) (f f' : FS)
    (r : Result) (t : list event) :
  run host req f = (Returned r, f', t) →
  (r = success host req (result_steps r)
     ∧ agent_id (name req) ≠ EmptyString
     ∧ telegram_check host req ≠ Invalid)
  ∨ (r = Failure "Invalid name" ["❌ Name is invalid"]
     ∧ agent_id (name req) = EmptyString)
  ∨ (agent_id (name req) ≠ EmptyString
     ∧ ((∃ steps, r = Failure "Agent already exists" steps)
        ∨ (∃ e steps, r = Failure ("Failed to create workspace: " +:+ e) steps)
        ∨ (∃ steps, r = Failure "Invalid Telegram bot token" steps
             ∧ telegram_check host req = Invalid))).
Proof.
  unfold run.
  destruct (decide (agent_id (name req) = EmptyString)) as [E | E].
  { unfold createAgent. rewrite E. simpl. intros [= <- _ _]. right. left. done. }
  rewrite createAgent_scaffold_enroll by done.
  unfold mbind, M_bind.
  pose proof (scaffold_returns host req (initial f)) as K.
  destruct (scaffold host req (initial f)) as [[[]|r'|e] s1]; simpl in K.
  - destruct (check_invalid_or_not (telegram_check host req)) as [Hk | Hk].
    + destruct (enroll_invalid host req s1 Hk) as (s' & -> & _).
      simpl. intros [= <- _ _]. right. right. split; [done |].
      right. right. eauto.
    + destruct (enroll_ok host req s1 Hk) as (s' & cfg & dash & -> & _).
      simpl. intros [= <- _ _]. left. done.
  - simpl. intros [= <- _ _]. right. right. split; [done |].
    destruct K as [K | K]; auto.
  - done.
Qed.

(** ** The effects a run attempts *)

#[local] Instance emits_preorder (P : event → Prop) : PreOrder (emits P).
Proof.
  split.
  - intros s. exists []. by rewrite app_nil_r.
  - intros s1 s2 s3 (t1 & E1 & F1) (t2 & E2 & F2). exists (t1 ++ t2).
    split; [by rewrite E2, E1, app_assoc | by apply Forall_app].
Qed.

Lemma pres_emits_same (P : event → Prop) {A} (m : M A) :
  (∀ s, trace (m s).2 = trace s) → preserves (emits P) m.
Proof. intros H s. exists []. by rewrite H, app_nil_r. Qed.

Lemma pres_emits_emit (P : event → Prop) (ev : event) :
  P ev → preserves (emits P) (emit ev).
Proof. intros H s. exists [ev]. split; [done | by apply Forall_singleton]. Qed.

Ltac emits_leaf :=
  apply pres_emits_same; intros ?;
  unfold existsSync, readFileSync, JSON_parse, JSON_parse_out, as_agents,
    as_entries, bot_username;
  munfold; simpl; repeat case_match; done.

Ltac emits_with tac :=
  repeat first
    [ tac
    | apply pres_bind; [apply _ | | intros ?]
    | apply pres_try; [apply _ | | intros ?]
    | match goal with
      | |- preserves _ (if ?b then _ else _) => destruct b eqn:?
      | |- preserves _ (match ?x with _ => _ end) => destruct x
      end
    | emits_leaf ].

Lemma pres_emits_execSync (P : event → Prop) (host : Host) (cmd : string) :
  P (EExec cmd) → preserves (emits P) (execSync host cmd).
Proof.
  intros H. unfold execSync.
  emits_with ltac:(idtac; match goal with
    | |- preserves _ (emit _) => by apply pres_emits_emit
    end).
Qed.

Lemma pres_emits_mkdirSync (P : event → Prop) (host : Host) (p : path) :
  P (EMkdir p) → preserves (emits P) (mkdirSync host p).
Proof.
  intros H. unfold mkdirSync.
  emits_with ltac:(idtac; match goal with
    | |- preserves _ (emit _) => by apply pres_emits_emit
    end).
Qed.

Lemma pres_emits_writeFileSync (P : event → Prop) (host : Host) (p : path)
    (c : content) :
  P (EWriteFile p) → preserves (emits P) (writeFileSync host p c).
Proof.
  intros H. unfold writeFileSync.
  emits_with ltac:(idtac; match goal with
    | |- preserves _ (emit _) => by apply pres_emits_emit
    end).
Qed.

Lemma pres_emits_writeIfMissing (P : event → Prop) (host : Host) (p : path)
    (c : content) :
  P (EWriteFile p) → preserves (emits P) (writeIfMissing host p c).
Proof.
  intros H. unfold writeIfMissing.
  emits_with ltac:(idtac; match goal with
    | |- preserves _ (writeFileSync _ _ _) => by apply pres_emits_writeFileSync
    end).
Qed.

Lemma pres_emits_copyFileSync (P : event → Prop) (host : Host) (src dst : path) :
  P (ECopyFile src dst) → preserves (emits P) (copyFileSync host src dst).
Proof.
  intros H. unfold copyFileSync.
  emits_with ltac:(idtac; match goal with
    | |- preserves _ (emit _) => by apply pres_emits_emit
    end).
Qed.

Ltac allowed :=
  unfold permitted;
  first
    [ listed
    | left; listed
    | eexists; split; [| split; reflexivity]; listed
    | tauto
    | do 4 right; left; split; [assumption | reflexivity]
    | do 6 right; left; eexists; split; [reflexivity |];
      match goal with
      | H : _ && _ = true |- _ => apply andb_prop in H as [_ H]; exact H
      end ].

Ltac permit :=
  cbv zeta;
  emits_with ltac:(idtac; match goal with
    | |- preserves _ (execSync _ _) => apply pres_emits_execSync; allowed
    | |- preserves _ (mkdirSync _ _) => apply pres_emits_mkdirSync; allowed
    | |- preserves _ (writeIfMissing _ _ _) => apply pres_emits_writeIfMissing; allowed
    | |- preserves _ (copyFileSync _ _ _) => apply pres_emits_copyFileSync; allowed
    | |- preserves _ (writeFileSync _ _ _) => apply pres_emits_writeFileSync; allowed
    end).

Lemma createAgent_emits (host : Host) (req : Request) :
  preserves (emits (permitted host req)) (createAgent host req).
Proof.
  unfold createAgent, existence_guard, provision, create_workspace, make_dirs,
    scaffold_files, write_documents, copy_shared, register, set_identity,
    integrate, verify_telegram, configure, configure_body, update_dashboard,
    dashboard_body, hot_reload, finish.
  simpl for_each. permit.
Qed.

(** X15. Every string a run hands to [execSync] is one of the eight
    command lines of the source, with the id, the workspace path, the
    model, the display name, the emoji and the token put in as they are;
    the identity check is made only when a token was given, and the signal
    goes to a process id made of digits.  The fields are not escaped: of
    what is put in, only the id and the process id are limited in their
    characters, so what the shell makes of a line is as free as the model,
    the name, the emoji and the token are.  Directories are asked for only
    in the workspace and for the sessions of the agent; files are written
    only to the workspace documents, the gateway configuration and the
    registry; only the shared files are copied, from the default workspace
    into the workspace. *)
Theorem effects_are_permitted (host : Host) (req : Request) (f : FS) :
  Forall (permitted host req) (run host req f).2.
Proof.
  destruct (createAgent_emits host req (initial f)) as (t & E & F).
  unfold run. simpl in *. by rewrite E.
Qed.

(** ** What a run that does not succeed has asked for *)

Ltac early :=
  unfold preliminary;
  first
    [ listed
    | eexists; split; [| split; reflexivity]; listed
    | tauto
    | do 4 right; split; [assumption | reflexivity] ].

Ltac prelude :=
  cbv zeta;
  emits_with ltac:(idtac; match goal with
    | |- preserves _ (execSync _ _) => apply pres_emits_execSync; early
    | |- preserves _ (mkdirSync _ _) => apply pres_emits_mkdirSync; early
    | |- preserves _ (writeIfMissing _ _ _) => apply pres_emits_writeIfMissing; early
    | |- preserves _ (copyFileSync _ _ _) => apply pres_emits_copyFileSync; early
    end).

Lemma scaffold_preliminary (host : Host) (req : Request) :
  preserves (emits (preliminary host req)) (scaffold host req).
Proof.
  unfold scaffold, existence_guard, create_workspace, make_dirs,
    scaffold_files, write_documents, copy_shared.
  simpl for_each. prelude.
Qed.

Lemma register_preliminary (host : Host) (req : Request) :
  preserves (emits (preliminary host req)) (register host req).
Proof. unfold register. prelude. Qed.

Lemma set_identity_preliminary (host : Host) (req : Request) :
  preserves (emits (preliminary host req)) (set_identity host req).
Proof. unfold set_identity. prelude. Qed.

Lemma verify_telegram_preliminary (host : Host) (req : Request) :
  preserves (emits (preliminary host req)) (verify_telegram host req).
Proof. unfold verify_telegram. prelude. Qed.

Lemma enroll_invalid_preliminary (host : Host) (req : Request) (s1 : State) :
  telegram_check host req = Invalid →
  emits (preliminary host req) s1 (enroll host req s1).2.
Proof.
  intros Hk. unfold enroll, integrate. unfold mbind, M_bind.
  pose proof (register_preliminary host req s1) as P2.
  destruct (register_spec host req s1) as (s2 & E2 & _). rewrite E2 in *.
  pose proof (set_identity_preliminary host req s2) as P3.
  destruct (set_identity_spec host req s2) as (s3 & E3 & _). rewrite E3 in *.
  unfold push at 1.
  match goal with |- context [verify_telegram host req ?st] =>
    pose proof (verify_telegram_preliminary host req st) as P4;
    destruct (verify_telegram_spec host req st) as (s4 & _ & _ & E4)
  end.
  rewrite E4 in *. rewrite Hk. simpl in *.
  etrans; [exact P2 |]. etrans; [exact P3 |]. exact P4.
Qed.

Lemma sessions_not_workspace (host : Host) (req : Request) :
  sessions_dir host req ∉ (join (workspace host req) <$> workspace_dirs).
Proof.
  unfold workspace_dirs, sessions_dir. simpl.
  rewrite !elem_of_cons, elem_of_nil.
  intros H.
  repeat (destruct H as [H | H];
          [exfalso; eapply join_ne; [| exact H]; discriminate |]).
  exact H.
Qed.

(** X11. A run that does not end in success, whether it returns a failure
    or throws, has stopped before the configuration step.  What it asked
    for is confined to the steps before it: the only commands run are the
    gateway's list, add and set-identity, [hostname] and the identity check
    of the token; every directory asked for is one of the four of the
    workspace, every file written a document of the workspace, every copy a
    shared file into the workspace.  So the program itself wrote neither the
    gateway configuration nor the dashboard registry and did not ask for the
    sessions directory; what the gateway's own commands did to its files is
    not stated. *)
Theorem unsuccessful_run_stops_early (host : Host) (req : Request) (f f' : FS)
    (o : call_outcome) (t : list event) :
  run host req f = (o, f', t) →
  succeeded o = false →
  Forall (preliminary host req) t
  ∧ (EWriteFile (configPath host) ∉ t)
  ∧ (EWriteFile (registryPath host) ∉ t)
  ∧ (EMkdir (sessions_dir host req) ∉ t).
Proof.
  intros H Ho.
  assert (K : Forall (preliminary host req) t).
  { revert H Ho. unfold run.
    destruct (decide (agent_id (name req) = EmptyString)) as [E | E].
    { unfold createAgent. rewrite E. simpl. by intros [= <- <- <-]. }
    rewrite createAgent_scaffold_enroll by done.
    unfold mbind, M_bind.
    pose proof (scaffold_preliminary host req (initial f)) as (t1 & T1 & P1).
    simpl in T1.
    destruct (scaffold host req (initial f)) as [[[]|r|e] s1]; simpl in T1.
    2, 3: intros [= <- <- <-] _; by rewrite T1.
    destruct (check_invalid_or_not (telegram_check host req)) as [Hk | Hk].
    - destruct (enroll_invalid_preliminary host req s1 Hk) as (t2 & T2 & P2).
      intros [= <- <- <-] _. rewrite T2, T1. by apply Forall_app.
    - destruct (enroll_ok host req s1 Hk) as (s' & cfg & dash & -> & _).
      by intros [= <- <- <-]. }
  split; [exact K |].
  rewrite Forall_forall in K.
  destruct (managed_not_workspace host req) as [Nc Nr].
  unfold workspace_files in Nc, Nr. rewrite fmap_app, elem_of_app in Nc, Nr.
  repeat split; intros Hin; apply K in Hin; simpl in Hin.
  - tauto.
  - tauto.
  - by apply sessions_not_workspace in Hin.
Qed.

(** ** The content of the documents (lines 78-181) *)

Lemma triple_bind (P Q R : FS → Prop) {A B} (m : M A) (k : A → M B) :
  triple P m Q → (∀ a, triple Q (k a) R) → triple P (m ≫= k) R.
Proof.
  intros Hm Hk s b s' HP. unfold mbind, M_bind.
  destruct (m s) as [[a|r|e] s1] eqn:E; [| done..].
  apply Hk. by eapply Hm.
Qed.

Lemma triple_exec (host : Host) (cmd : string) (P R : FS → Prop) {B}
    (k : output → M B) :
  (∀ out, exec host cmd = ExecOk out → triple P (k out) R) →
  triple P (execSync host cmd ≫= k) R.
Proof.
  intros Hk s b s' HP. unfold execSync. munfold. simpl.
  destruct (exec host cmd) as [out|e] eqn:E; [| done].
  by apply Hk.
Qed.

Lemma triple_frame (R : relation FS) (P Q : FS → Prop) {A} (m : M A) :
  preserves (on_fs R) m → (∀ f f', P f → R f f' → Q f') → triple P m Q.
Proof.
  intros Hm HR s a s' HP E. specialize (Hm s). rewrite E in Hm.
  by eapply HR.
Qed.

Lemma ancestors_prefix (q t : path) : q ∈ ancestors t → ∃ r, t = q ++ r.
Proof.
  revert q. induction t as [|x t IH]; intros q; simpl.
  - intros H. by apply elem_of_nil in H.
  - rewrite elem_of_cons. intros [-> | H]; [by exists t |].
    apply list_elem_of_fmap in H as (q' & -> & H).
    destruct (IH q' H) as [r ->]. by exists r.
Qed.

Lemma sibling_not_ancestor (w : path) (d x : string) :
  d ≠ x → join w d ∉ ancestors (join w x).
Proof.
  intros Hne H. apply ancestors_prefix in H as [r H]. unfold join in H.
  rewrite <- app_assoc in H. apply app_inv_head in H.
  simpl in H. congruence.
Qed.

Lemma unborn_within (p : path) (allowed made : list path) (f f' : FS) :
  p ∉ allowed → (∀ t, t ∈ made → p ∉ ancestors t) →
  unborn p f → within allowed made f f' → unborn p f'.
Proof.
  intros Ha Hm. unfold unborn, path_exists. intros H [F D].
  rewrite (F p Ha). destruct (files f !! p); [done |].
  apply bool_decide_eq_false in H. apply bool_decide_eq_false.
  intros Hd. destruct (D p Hd) as [K | (t & Ht & K)]; [done |].
  by apply (Hm t).
Qed.

Lemma holds_conservative (host : Host) (p : path) (c : content) (f f' : FS) :
  p ≠ configPath host → p ≠ registryPath host →
  holds p c f → conservative host f f' → holds p c f'.
Proof. intros H1 H2 H (_ & _ & K). by apply K. Qed.

Lemma triple_fresh_write (host : Host) (p : path) (c : content) :
  triple (unborn p) (writeIfMissing host p c) (holds p c).
Proof.
  intros s b s' HP E.
  pose proof (writeIfMissing_cases host p c s) as K. rewrite E in K.
  destruct b.
  - destruct K as (_ & _ & ->). unfold holds, set_file. simpl.
    apply lookup_insert_eq.
  - destruct K as [K _]. unfold unborn in HP. congruence.
Qed.

Lemma triple_other_write (host : Host) (p q : path) (c : content) :
  p ≠ q → triple (unborn p) (writeIfMissing host q c) (unborn p).
Proof.
  intros Hne. eapply (triple_frame (within [q] [])).
  - apply pres_within_writeIfMissing. apply list_elem_of_here.
  - intros f f' HP W. eapply unborn_within; [| | exact HP | exact W].
    + rewrite list_elem_of_singleton. done.
    + intros t Ht. by apply elem_of_nil in Ht.
Qed.

Lemma documents_cases (host : Host) (req : Request) (machine d c : string) :
  (d, c) ∈ documents host req machine →
  d ∈ document_names
  ∧ (d ∉ workspace_dirs)
  ∧ join (workspace host req) d ≠ configPath host
  ∧ join (workspace host req) d ≠ registryPath host.
Proof.
  unfold documents, document_names, workspace_dirs, configPath, registryPath.
  rewrite !elem_of_cons, !elem_of_nil.
  intros H.
  repeat (destruct H as [H | H];
          [injection H as -> ->;
           split; [tauto |];
           split; [intros K; repeat (destruct K as [K | K]; [discriminate |]); exact K |];
           split; apply join_ne; discriminate |]).
  destruct H.
Qed.

Ltac document host :=
  repeat match goal with
  | H : exec host Cmd.hostname = ExecOk _
    |- triple _ (execSync host Cmd.hostname ≫= _) _ =>
      let Hx := fresh in
      apply triple_exec; intros ? Hx; rewrite H in Hx; injection Hx as <-
  | |- triple (unborn ?p) (writeIfMissing _ ?p ?c ≫= _) _ =>
      apply (triple_bind (unborn p) (holds p c));
      [ apply triple_fresh_write | intros ? ]
  | |- triple (unborn ?p) (writeIfMissing _ _ _ ≫= _) _ =>
      apply (triple_bind (unborn p) (unborn p));
      [ apply triple_other_write, join_ne; discriminate | intros ? ]
  end.

Lemma write_documents_fresh (host : Host) (req : Request) (out : output)
    (d c : string) :
  exec host Cmd.hostname = ExecOk out →
  (d, c) ∈ documents host req (Str.trim (out_text out)) →
  triple (unborn (join (workspace host req) d))
    (write_documents host req)
    (holds (join (workspace host req) d) (Text c)).
Proof.
  intros Hx Hd.
  destruct (documents_cases host req _ d c Hd) as (_ & _ & N1 & N2).
  assert (Kept : ∀ A (m : M A),
    preserves (on_fs (conservative host)) m →
    triple (holds (join (workspace host req) d) (Text c)) m
      (holds (join (workspace host req) d) (Text c))).
  { intros A m Hm. apply (triple_frame (conservative host)); [done |].
    intros f f'. by apply holds_conservative. }
  revert Hd N1 N2 Kept. unfold documents.
  rewrite !elem_of_cons, !elem_of_nil. intros Hd.
  repeat (destruct Hd as [Hd | Hd];
    [ injection Hd as -> ->; intros N1 N2 Kept; unfold write_documents;
      document host; apply Kept; conserve |]).
  destruct Hd.
Qed.

Lemma scaffold_fresh (host : Host) (req : Request) (out : output) (d c : string) :
  exec host Cmd.hostname = ExecOk out →
  (d, c) ∈ documents host req (Str.trim (out_text out)) →
  triple (unborn (join (workspace host req) d))
    (scaffold host req)
    (holds (join (workspace host req) d) (Text c)).
Proof.
  intros Hx Hd.
  destruct (documents_cases host req _ d c Hd) as (_ & Nd & _).
  unfold scaffold, scaffold_files.
  apply (triple_bind _ (unborn (join (workspace host req) d))).
  { apply (triple_frame eq); [apply existence_guard_fs |]. by intros f f' H <-. }
  intros _.
  apply (triple_bind _ (unborn (join (workspace host req) d))).
  { apply (triple_frame
             (within [] (join (workspace host req) <$> workspace_dirs))).
    - unfold create_workspace, make_dirs. confine.
    - intros f f' HP W. eapply unborn_within; [| | exact HP | exact W].
      + apply not_elem_of_nil.
      + intros t Ht. apply list_elem_of_fmap in Ht as (x & -> & Hx').
        apply sibling_not_ancestor. by intros ->. }
  intros _.
  apply (triple_bind _ (unborn (join (workspace host req) d))).
  { apply (triple_frame eq); [| by intros f f' H <-].
    intros s. reflexivity. }
  intros _. by apply write_documents_fresh with out.
Qed.

(** X16. After a successful run, every document of the workspace that did
    not exist before holds the text rendered for it from the request, the
    date and the host name: the eight templates reach the disk unchanged. *)
Theorem fresh_documents_hold_templates (host : Host) (req : Request) (f f' : FS)
    (r : Result) (t : list event) (out : output) (d c : string) :
  run host req f = (Returned r, f', t) →
  ok r = true →
  exec host Cmd.hostname = ExecOk out →
  (d, c) ∈ documents host req (Str.trim (out_text out)) →
  path_exists f (join (workspace host req) d) = false →
  files f' !! join (workspace host req) d = Some (Text c).
Proof.
  intros H Hok Hx Hd Hf.
  destruct (run_success host req f f' t r H Hok) as (s' & E & <-).
  destruct (documents_cases host req _ d c Hd) as (_ & _ & N1 & N2).
  destruct (decide (agent_id (name req) = EmptyString)) as [Hid | Hid].
  { unfold createAgent in E. rewrite Hid in E. done. }
  rewrite createAgent_scaffold_enroll in E by done.
  revert E.
  apply (triple_bind (unborn (join (workspace host req) d))
           (holds (join (workspace host req) d) (Text c))
           (holds (join (workspace host req) d) (Text c))); [| | exact Hf].
  - by apply scaffold_fresh with out.
  - intros _. apply (triple_frame (conservative host)).
    + apply enroll_conservative.
    + intros g g'. by apply holds_conservative.
Qed.

(** ** The further properties on concrete worlds *)

Import Fleet.

Lemma run_eta {A B C} (x : A * B * C) : x = (x.1.1, x.1.2, x.2).
Proof. by destruct x as [[? ?] ?]. Qed.

Lemma with_outcome {A B C} (x : A * B * C) (a : A) :
  x.1.1 = a → x = (a, x.1.2, x.2).
Proof. destruct x as [[? ?] ?]. simpl. by intros ->. Qed.

Ltac settled := apply with_outcome; vm_compute; reflexivity.

(** X2 on a name of two words. *)
Lemma display_name_witness :
  agent_id (display_name "nova Prime") = "novaprime"
  ∧ display_name (display_name "nova Prime") = "Nova Prime"
  ∧ String.length (display_name "nova Prime") = 10.
Proof.
  destruct (display_name_same_id "nova Prime") as (H1 & H2 & H3).
  - vm_compute. reflexivity.
  - split; [by rewrite H1 |]. split; [by rewrite H2 |]. by rewrite H3.
Defined.

(** X3 on a configuration with a third agent. *)
Lemma cross_agent_witness :
  agent_list (cross_agent "nova" team_doc) !! 2 = Some scout
  ∧ ∃ a', find (has_id "nova") (agent_list (cross_agent "nova" team_doc)) = Some a'
        ∧ allow_list a' = ["main"].
Proof.
  destruct (cross_agent_leaves_others "nova" team_doc) as (_ & H1 & H2 & _).
  split.
  - apply (H1 2 scout); [reflexivity | discriminate | discriminate].
  - apply (H2 {| agent_ident := "nova"; subagents := None |}). reflexivity.
Defined.

(** X4 on a configuration that holds the account of another agent. *)
Lemma bind_telegram_witness :
  account_of "scout" (bind_telegram "nova" bot_token team_doc)
    = Some (telegram_account "999:zzz").
Proof.
  etrans.
  - apply (proj1 (bind_telegram_leaves_others "nova" bot_token team_doc) "scout").
    discriminate.
  - vm_compute. reflexivity.
Defined.

(** X6 without shared files, and with a shared [AGENTS.md]. *)
Lemma copy_shared_witness :
  copy_shared plain nova (initial disk) = (Normal tt, initial disk)
  ∧ files (fs (copy_shared plain nova (initial seeded)).2)
      !! join (workspace plain nova) "AGENTS.md" = Some (Text "shared rules").
Proof.
  split.
  - apply (proj1 (copy_shared_effect plain nova (initial disk))).
    intros file Hf. apply shared_files_cases in Hf as [-> | ->];
      vm_compute; reflexivity.
  - destruct (proj2 (copy_shared_effect plain nova (initial seeded))
                (copy_shared plain nova (initial seeded)).2) as (H & _).
    + evaluate.
    + etrans; [apply (H "AGENTS.md"); apply list_elem_of_here |].
      vm_compute. reflexivity.
Defined.

(** X8 on a workspace that already holds a hand-written [SOUL.md]. *)
Lemma never_overwrites_witness :
  files (run plain nova seeded).1.2 !! join (workspace plain nova) "SOUL.md"
    = Some (Text "hand-written").
Proof.
  apply (createAgent_never_overwrites plain nova seeded).
  - vm_compute. reflexivity.
  - vm_compute. discriminate.
  - vm_compute. discriminate.
Defined.

(** X9 on the run for [nova]. *)
Lemma workspace_complete_witness :
  workspace plain nova ∈ dirs (run plain nova disk).1.2
  ∧ join (workspace plain nova) ".credentials" ∈ dirs (run plain nova disk).1.2
  ∧ path_exists (run plain nova disk).1.2 (join (workspace plain nova) "TOOLS.md") = true.
Proof.
  destruct (success_workspace_complete plain nova disk (run plain nova disk).1.2
              (run plain nova disk).2
              (success plain nova
                 ["📁 Creating workspace at ~/clawd-agents/nova";
                  "📝 Writing identity files"; "🔗 Registering with gateway";
                  "✅ Agent registered"; "🌟 Setting identity";
                  "🔄 Configuring agent permissions";
                  "✅ Cross-agent permissions configured"; "⏭️ Telegram skipped";
                  "🏰 Adding to Clawd Control"; "✅ Dashboard updated";
                  "🔄 Reloading gateway config";
                  "✅ Config reloaded (sessions preserved)"; "🎉 Nova is ready!"]))
    as (H1 & H2 & H3).
  - settled.
  - reflexivity.
  - split; [exact H1 |]. split.
    + apply H2. do 3 apply list_elem_of_further. apply list_elem_of_here.
    + apply H3. do 4 apply list_elem_of_further. apply list_elem_of_here.
Defined.

(** X10 on a disk that holds a file of the user. *)
Lemma changes_only_witness :
  files (run plain nova seeded).1.2 !! join home "notes.md" = Some (Text "keep")
  ∧ (join (workspace plain nova) "memory" ∈ dirs seeded
     ∨ ∃ t, t ∈ made_dirs plain nova
          ∧ join (workspace plain nova) "memory" ∈ ancestors t).
Proof.
  destruct (createAgent_changes_only plain nova seeded) as [H1 H2].
  split.
  - etrans; [apply H1 | vm_compute; reflexivity].
    + apply (bool_decide_unpack _). vm_compute. exact I.
    + vm_compute. discriminate.
    + vm_compute. discriminate.
  - apply H2. apply (bool_decide_unpack _). vm_compute. exact I.
Defined.

(** X11 with a provider that rejects the token. *)
Lemma unsuccessful_run_witness :
  (EWriteFile (configPath rejecting) ∉ (run rejecting nova_bot disk).2)
  ∧ (EMkdir (sessions_dir rejecting nova_bot) ∉ (run rejecting nova_bot disk).2).
Proof.
  destruct (unsuccessful_run_stops_early rejecting nova_bot disk
              (run rejecting nova_bot disk).1.2 (run rejecting nova_bot disk).1.1
              (run rejecting nova_bot disk).2) as (_ & H1 & _ & H2).
  - apply run_eta.
  - vm_compute. reflexivity.
  - split; [exact H1 | exact H2].
Defined.

(** X12 on an empty registry. *)
Lemma registry_witness :
  ∃ e, entries_of plain (run plain nova disk).1.2 = [e]
     ∧ registered plain nova (run plain nova disk).1.2 e.
Proof.
  destruct (registry_gains_at_most_one plain nova disk) as (extra & E & _ & H).
  assert (K : ∃ e, entries_of plain (run plain nova disk).1.2 = [e]).
  { eexists. vm_compute. reflexivity. }
  destruct K as [e K]. exists e. split; [exact K |].
  apply H. rewrite K in E. change (entries_of plain disk) with (@nil DashEntry) in E.
  simpl in E. rewrite <- E. apply list_elem_of_here.
Defined.

(** X14 with a gateway that already lists the agent. *)
Lemma result_classification_witness :
  let r := Failure "Agent already exists" ["❌ Agent " +:+ Str.quoted "nova" +:+ " already exists"] in
  (r = success taken nova (result_steps r)
     ∧ agent_id (name nova) ≠ EmptyString
     ∧ telegram_check taken nova ≠ Invalid)
  ∨ (r = Failure "Invalid name" ["❌ Name is invalid"]
     ∧ agent_id (name nova) = EmptyString)
  ∨ (agent_id (name nova) ≠ EmptyString
     ∧ ((∃ steps, r = Failure "Agent already exists" steps)
        ∨ (∃ e steps, r = Failure ("Failed to create workspace: " +:+ e) steps)
        ∨ (∃ steps, r = Failure "Invalid Telegram bot token" steps
             ∧ telegram_check taken nova = Invalid))).
Proof.
  apply (result_classification taken nova disk (run taken nova disk).1.2 _
           (run taken nova disk).2).
  settled.
Defined.

(** X16 on the run for [nova]: [TOOLS.md] names the machine. *)
Lemma fresh_documents_witness :
  files (run plain nova disk).1.2 !! join (workspace plain nova) "TOOLS.md"
    = Some (Text (Template.TOOLS "box" "2026-01-15")).
Proof.
  apply (fresh_documents_hold_templates plain nova disk (run plain nova disk).1.2
           (success plain nova
              ["📁 Creating workspace at ~/clawd-agents/nova";
               "📝 Writing identity files"; "🔗 Registering with gateway";
               "✅ Agent registered"; "🌟 Setting identity";
               "🔄 Configuring agent permissions";
               "✅ Cross-agent permissions configured"; "⏭️ Telegram skipped";
               "🏰 Adding to Clawd Control"; "✅ Dashboard updated";
               "🔄 Reloading gateway config";
               "✅ Config reloaded (sessions preserved)"; "🎉 Nova is ready!"])
           (run plain nova disk).2
           (plain_output ("box" +:+ Template.nl))).
  - settled.
  - reflexivity.
  - vm_compute. reflexivity.
  - do 4 apply list_elem_of_further. apply list_elem_of_here.
  - vm_compute. reflexivity.
Defined.
